(** * Product Description Platform API: a shallow embedding of [src/main.py]

    The service keeps product records in a module-level dict ([products_db]),
    mirrors it into a JSON snapshot file, and fills the [description] of a
    product either from the request or from an external text generator.

    The embedding follows the Python source function by function:
    - Python strings are [string]s whose characters are the code points
      below 256; integers are [Z];
    - Python objects that travel through dicts are [pyobj]; the content of
      the snapshot file is [json];
    - dicts are association lists in insertion order;
    - functions that touch module state, the file or the provider run in a
      state-and-exception monad [M] over the record [world]. *)

From Stdlib Require Import ZArith List String Ascii Bool Lia.
Import ListNotations.

#[local] Set Warnings "-register-all".

Local Open Scope string_scope.
Local Open Scope Z_scope.

(* ================================================================= *)
(** * Definitions *)
(* ================================================================= *)

(** ** Python strings *)

Module PyStr.

Definition nl : string := String "010"%char "".
Definition dquote : string := String "034"%char "".

(** [str.isspace] on one character, for the code points below 256. *)
Definition isspace (c : ascii) : bool :=
  let n := nat_of_ascii c in
  (((9 <=? n) && (n <=? 13)) || ((28 <=? n) && (n <=? 32))
   || (n =? 133) || (n =? 160))%nat.

Fixpoint lstrip (s : string) : string :=
  match s with
  | EmptyString => EmptyString
  | String c r => if isspace c then lstrip r else s
  end.

Fixpoint rstrip (s : string) : string :=
  match s with
  | EmptyString => EmptyString
  | String c r =>
      match rstrip r with
      | EmptyString => if isspace c then EmptyString else String c EmptyString
      | r' => String c r'
      end
  end.

(** [s.strip()] *)
Definition strip (s : string) : string := rstrip (lstrip s).

(** Truth value of a string: [bool(s)]. *)
Definition nonempty (s : string) : bool :=
  match s with EmptyString => false | String _ _ => true end.

(** [str.lower] on one character, for the code points below 256: the
    ASCII capitals and the Latin-1 capitals (all of 192..222 but the
    multiplication sign 215) move up by 32. *)
Definition lower_char (c : ascii) : ascii :=
  let n := nat_of_ascii c in
  if (((65 <=? n) && (n <=? 90))
      || ((192 <=? n) && (n <=? 222) && negb (n =? 215)))%nat
  then ascii_of_nat (n + 32) else c.

Fixpoint lower (s : string) : string :=
  match s with
  | EmptyString => EmptyString
  | String c r => String (lower_char c) (lower r)
  end.

(** [needle in hay] *)
Fixpoint contains (needle hay : string) : bool :=
  if prefix needle hay then true
  else match hay with
       | EmptyString => false
       | String _ r => contains needle r
       end.

(** [sep.join(parts)] *)
Definition join (sep : string) (parts : list string) : string :=
  String.concat sep parts.

(** [a or b] on an optional string: [b] when [a] is [None] or empty. *)
Definition or_default (a : option string) (b : string) : string :=
  match a with
  | Some s => if nonempty s then s else b
  | None => b
  end.

End PyStr.
Import PyStr.

(** ** [datetime] and its ISO-8601 text *)

(** A [datetime.datetime]: naive when [utcoffset] is [None], else aware
    with an offset in whole minutes (the only offsets the program can
    hold: [utcnow()] is naive, and the parser of the [datetime] fields
    builds offsets from hours and minutes). *)
Record datetime := mk_datetime {
  year : Z; month : Z; day : Z;
  hour : Z; minute : Z; second : Z; microsecond : Z;
  utcoffset : option Z
}.

Definition is_leap (y : Z) : bool :=
  (y mod 4 =? 0) && (negb (y mod 100 =? 0) || (y mod 400 =? 0)).

Definition days_in_month (y m : Z) : Z :=
  if (m =? 2) && is_leap y then 29
  else nth (Z.to_nat m) [0; 31; 28; 31; 30; 31; 30; 31; 31; 30; 31; 30; 31] 0.

(** The ranges the [datetime] constructor enforces. *)
Definition valid_datetime (d : datetime) : bool :=
  (1 <=? year d) && (year d <=? 9999) &&
  (1 <=? month d) && (month d <=? 12) &&
  (1 <=? day d) && (day d <=? days_in_month (year d) (month d)) &&
  (0 <=? hour d) && (hour d <? 24) &&
  (0 <=? minute d) && (minute d <? 60) &&
  (0 <=? second d) && (second d <? 60) &&
  (0 <=? microsecond d) && (microsecond d <? 1000000) &&
  match utcoffset d with
  | None => true
  | Some m => (-1440 <? m) && (m <? 1440)
  end.

Definition digit_char (d : Z) : ascii := ascii_of_nat (48 + Z.to_nat d).

(** ["%0nd" % v] for [0 <= v < 10^n]: exactly [n] decimal digits. *)
Fixpoint zfill (n : nat) (v : Z) : string :=
  match n with
  | O => EmptyString
  | S n' => String (digit_char ((v / 10 ^ Z.of_nat n') mod 10)) (zfill n' v)
  end.

(** [_format_offset] of the standard library, for whole minutes. *)
Definition format_offset (off : option Z) : string :=
  match off with
  | None => ""
  | Some m =>
      (if m <? 0 then "-" else "+")
        ++ zfill 2 (Z.abs m / 60) ++ ":" ++ zfill 2 (Z.abs m mod 60)
  end.

(** [d.isoformat()]: [YYYY-MM-DDTHH:MM:SS], then [.ffffff] when the
    microsecond is not zero, then the offset of an aware value. *)
Definition isoformat (d : datetime) : string :=
  zfill 4 (year d) ++ "-" ++ zfill 2 (month d) ++ "-" ++ zfill 2 (day d)
    ++ "T" ++ zfill 2 (hour d) ++ ":" ++ zfill 2 (minute d)
    ++ ":" ++ zfill 2 (second d)
    ++ (if microsecond d =? 0 then "" else "." ++ zfill 6 (microsecond d))
    ++ format_offset (utcoffset d).

Definition digit_value (c : ascii) : option Z :=
  let n := nat_of_ascii c in
  if ((48 <=? n) && (n <=? 57))%nat then Some (Z.of_nat n - 48) else None.

(** Reads exactly [n] decimal digits off the front of [s]. *)
Fixpoint take_digits (n : nat) (acc : Z) (s : string) : option (Z * string) :=
  match n with
  | O => Some (acc, s)
  | S n' =>
      match s with
      | EmptyString => None
      | String c r =>
          match digit_value c with
          | Some v => take_digits n' (10 * acc + v) r
          | None => None
          end
      end
  end.

Definition expect (c : ascii) (s : string) : option string :=
  match s with
  | String c' r => if Ascii.eqb c c' then Some r else None
  | EmptyString => None
  end.

Definition parse_fraction (s : string) : option (Z * string) :=
  match s with
  | String "."%char r => take_digits 6 0 r
  | _ => Some (0, s)
  end.

Definition parse_offset (s : string) : option (option Z) :=
  match s with
  | EmptyString => Some None
  | String sign r =>
      if Ascii.eqb sign "+"%char || Ascii.eqb sign "-"%char then
        match take_digits 2 0 r with
        | Some (hh, r1) =>
            match expect ":"%char r1 with
            | Some r2 =>
                match take_digits 2 0 r2 with
                | Some (mm, EmptyString) =>
                    let off := 60 * hh + mm in
                    Some (Some (if Ascii.eqb sign "-"%char then - off else off))
                | _ => None
                end
            | None => None
            end
        | None => None
        end
      else None
  end.

(** The parser of a [datetime] field applied to a string. It accepts the
    ISO-8601 texts of the shape [isoformat] writes (four-digit year,
    two-digit fields, [T] separator, optional six-digit fraction, optional
    [+HH:MM] offset) and, like the [datetime] constructor, refuses values
    out of range. pydantic accepts further spellings (a blank separator,
    one-digit fields, [Z]); they are refused here, and no statement below
    depends on how they are read. *)
Definition parse_datetime (s : string) : option datetime :=
  match take_digits 4 0 s with
  | Some (y, s) =>
  match expect "-"%char s with
  | Some s =>
  match take_digits 2 0 s with
  | Some (mo, s) =>
  match expect "-"%char s with
  | Some s =>
  match take_digits 2 0 s with
  | Some (dd, s) =>
  match expect "T"%char s with
  | Some s =>
  match take_digits 2 0 s with
  | Some (hh, s) =>
  match expect ":"%char s with
  | Some s =>
  match take_digits 2 0 s with
  | Some (mi, s) =>
  match expect ":"%char s with
  | Some s =>
  match take_digits 2 0 s with
  | Some (ss, s) =>
  match parse_fraction s with
  | Some (us, s) =>
  match parse_offset s with
  | Some off =>
      let d := mk_datetime y mo dd hh mi ss us off in
      if valid_datetime d then Some d else None
  | None => None end
  | None => None end
  | None => None end
  | None => None end
  | None => None end
  | None => None end
  | None => None end
  | None => None end
  | None => None end
  | None => None end
  | None => None end
  | None => None end
  | None => None end.

(** ** Python objects, JSON values and dicts *)

(** The objects the service moves through its dicts. *)
Inductive pyobj :=
| PNone
| PBool (b : bool)
| PInt (z : Z)
| PStr (s : string)
| PList (l : list pyobj)
| PDict (d : list (string * pyobj))
| PDatetime (t : datetime).

(** What [json.load] returns and [json.dump] writes. JSON numbers are the
    integers; floating-point numbers are left out of the model. *)
Inductive json :=
| JNull
| JBool (b : bool)
| JInt (z : Z)
| JStr (s : string)
| JArr (l : list json)
| JObj (fields : list (string * json)).

(** A dict, in insertion order. *)
Definition dict (K V : Type) := list (K * V).

Section Dict.
Context {K V : Type} (eqb : K -> K -> bool).

(** [d.get(k)] *)
Fixpoint dict_get (k : K) (d : dict K V) : option V :=
  match d with
  | [] => None
  | (k', v) :: r => if eqb k k' then Some v else dict_get k r
  end.

(** [d[k] = v]: an existing key keeps its place, a new one goes last. *)
Fixpoint dict_set (k : K) (v : V) (d : dict K V) : dict K V :=
  match d with
  | [] => [(k, v)]
  | (k', v') :: r =>
      if eqb k k' then (k', v) :: r else (k', v') :: dict_set k v r
  end.

(** [del d[k]] for a key that is present. *)
Fixpoint dict_del (k : K) (d : dict K V) : dict K V :=
  match d with
  | [] => []
  | (k', v') :: r => if eqb k k' then r else (k', v') :: dict_del k r
  end.

(** [k in d] *)
Definition dict_mem (k : K) (d : dict K V) : bool :=
  match dict_get k d with Some _ => true | None => false end.

(** [d.pop(k, default)]: the value and the dict without the key. *)
Definition dict_pop (k : K) (default : V) (d : dict K V) : V * dict K V :=
  match dict_get k d with
  | Some v => (v, dict_del k d)
  | None => (default, d)
  end.

(** [d.values()] *)
Definition dict_values (d : dict K V) : list V := map snd d.

End Dict.

(** Dicts keyed by field names. *)
Definition pydict := dict string pyobj.

Definition get (k : string) (d : pydict) : option pyobj :=
  dict_get String.eqb k d.
Definition set (k : string) (v : pyobj) (d : pydict) : pydict :=
  dict_set String.eqb k v d.

(** The truth value of an object: [bool(v)]. *)
Definition truthy (v : pyobj) : bool :=
  match v with
  | PNone => false
  | PBool b => b
  | PInt z => negb (z =? 0)
  | PStr s => nonempty s
  | PList l => match l with [] => false | _ => true end
  | PDict d => match d with [] => false | _ => true end
  | PDatetime _ => true
  end.

(** [json.load]'s result as Python objects. *)
Fixpoint of_json (j : json) : pyobj :=
  match j with
  | JNull => PNone
  | JBool b => PBool b
  | JInt z => PInt z
  | JStr s => PStr s
  | JArr l => PList (map of_json l)
  | JObj f => PDict (map (fun kv => (fst kv, of_json (snd kv))) f)
  end.

(** What [json.dump] writes for an object; [None] where it raises
    [TypeError] (a [datetime] is not JSON serializable). *)
Fixpoint to_json (v : pyobj) : option json :=
  match v with
  | PNone => Some JNull
  | PBool b => Some (JBool b)
  | PInt z => Some (JInt z)
  | PStr s => Some (JStr s)
  | PList l =>
      option_map JArr
        ((fix items (l : list pyobj) : option (list json) :=
            match l with
            | [] => Some []
            | x :: r =>
                match to_json x, items r with
                | Some a, Some b => Some (a :: b)
                | _, _ => None
                end
            end) l)
  | PDict d =>
      option_map JObj
        ((fix items (d : list (string * pyobj)) : option (list (string * json)) :=
            match d with
            | [] => Some []
            | (k, x) :: r =>
                match to_json x, items r with
                | Some a, Some b => Some ((k, a) :: b)
                | _, _ => None
                end
            end) d)
  | PDatetime _ => None
  end.

(** Keys of [products_db]. The annotation says [str]; [load_products]
    takes whatever hashable [id] the file holds. [True] and [1] are the
    same key in Python, so a bool is filed under its integer. *)
Inductive pykey :=
| KNone
| KInt (z : Z)
| KStr (s : string).

Definition key_eqb (a b : pykey) : bool :=
  match a, b with
  | KNone, KNone => true
  | KInt x, KInt y => x =? y
  | KStr x, KStr y => String.eqb x y
  | _, _ => false
  end.

(** The dict key a JSON value makes once loaded; [None] where the loaded
    object (a list or a dict) is unhashable. *)
Definition json_key (j : json) : option pykey :=
  match j with
  | JNull => Some KNone
  | JBool b => Some (KInt (if b then 1 else 0))
  | JInt z => Some (KInt z)
  | JStr s => Some (KStr s)
  | JArr _ | JObj _ => None
  end.

(** ** The request and response models *)

(** Field values as objects, and objects read back as field values. A
    field validator takes the entry of the input dict ([None]: the key is
    missing) and gives [None] where validation raises. Only values of the
    declared type are accepted; pydantic also coerces some others (a
    number given for a string), which no statement below relies on. *)
Definition of_opt_str (o : option string) : pyobj :=
  match o with Some s => PStr s | None => PNone end.

Definition of_str_list (l : list string) : pyobj := PList (map PStr l).

Definition as_str (v : option pyobj) : option string :=
  match v with Some (PStr s) => Some s | _ => None end.

(** An [Optional[str]] field with a default. *)
Definition as_opt_str (default : option string) (v : option pyobj)
  : option (option string) :=
  match v with
  | None => Some default
  | Some PNone => Some None
  | Some (PStr s) => Some (Some s)
  | Some _ => None
  end.

Fixpoint as_strs (l : list pyobj) : option (list string) :=
  match l with
  | [] => Some []
  | PStr s :: r =>
      match as_strs r with Some r' => Some (s :: r') | None => None end
  | _ :: _ => None
  end.

(** A [List[str]] field with [default_factory=list]. *)
Definition as_str_list (v : option pyobj) : option (list string) :=
  match v with
  | None => Some []
  | Some (PList l) => as_strs l
  | Some _ => None
  end.

(** A [datetime] field. *)
Definition as_datetime (v : option pyobj) : option datetime :=
  match v with
  | Some (PDatetime t) => Some t
  | Some (PStr s) => parse_datetime s
  | _ => None
  end.

Notation "x <~ a ;; b" :=
  (match a with Some x => b | None => None end)
  (at level 61, a at next level, right associativity).

Module ProductBrief.

Record t := mk {
  name : string;
  category : option string;
  brand : option string;
  tagline : option string;
  features : list string;
  seo_keywords : list string;
  tone : option string;
  audience : option string;
  language : option string;
  additional_notes : option string;
  length : option string
}.

(** [ProductBrief.__fields__.keys()] *)
Definition field_names : list string :=
  ["name"; "category"; "brand"; "tagline"; "features"; "seo_keywords";
   "tone"; "audience"; "language"; "additional_notes"; "length"].

(** [brief.dict()] *)
Definition dict (b : t) : pydict :=
  [("name", PStr (name b));
   ("category", of_opt_str (category b));
   ("brand", of_opt_str (brand b));
   ("tagline", of_opt_str (tagline b));
   ("features", of_str_list (features b));
   ("seo_keywords", of_str_list (seo_keywords b));
   ("tone", of_opt_str (tone b));
   ("audience", of_opt_str (audience b));
   ("language", of_opt_str (language b));
   ("additional_notes", of_opt_str (additional_notes b));
   ("length", of_opt_str (length b))].

(** [ProductBrief] built from the keywords of a dict; keys that are not
    fields are ignored. *)
Definition validate (d : pydict) : option t :=
  name <~ as_str (get "name" d) ;;
  category <~ as_opt_str None (get "category" d) ;;
  brand <~ as_opt_str None (get "brand" d) ;;
  tagline <~ as_opt_str None (get "tagline" d) ;;
  features <~ as_str_list (get "features" d) ;;
  seo_keywords <~ as_str_list (get "seo_keywords" d) ;;
  tone <~ as_opt_str (Some "balanced") (get "tone" d) ;;
  audience <~ as_opt_str None (get "audience" d) ;;
  language <~ as_opt_str (Some "English") (get "language" d) ;;
  additional_notes <~ as_opt_str None (get "additional_notes" d) ;;
  length <~ as_opt_str (Some "detailed") (get "length" d) ;;
  Some (mk name category brand tagline features seo_keywords tone audience
          language additional_notes length).

End ProductBrief.

Module ProductCreateRequest.

(** [ProductCreateRequest(ProductBrief)]: the brief's fields, which
    [request.dict(exclude={"description", "auto_generate"})] selects,
    and the two fields the class adds. *)
Record t := mk {
  brief : ProductBrief.t;
  description : option string;
  auto_generate : bool
}.

End ProductCreateRequest.

(** A field of a partial update, as [exclude_unset] sees it: left out of
    the request body, or given, with [None] for an explicit null. *)
Inductive sent (A : Type) :=
| Omitted
| Given (v : option A).
Arguments Omitted {A}.
Arguments Given {A} v.

Definition sent_obj {A : Type} (inj : A -> pyobj) (s : sent A) : option pyobj :=
  match s with
  | Omitted => None
  | Given None => Some PNone
  | Given (Some v) => Some (inj v)
  end.

(** The keys that carry a value, in order. *)
Fixpoint present (fields : list (string * option pyobj)) : pydict :=
  match fields with
  | [] => []
  | (k, Some v) :: r => (k, v) :: present r
  | (_, None) :: r => present r
  end.

Module ProductUpdateRequest.

Record t := mk {
  name : sent string;
  category : sent string;
  brand : sent string;
  tagline : sent string;
  features : sent (list string);
  seo_keywords : sent (list string);
  tone : sent string;
  audience : sent string;
  language : sent string;
  additional_notes : sent string;
  length : sent string;
  description : sent string;
  regenerate_description : sent bool
}.

Definition fields (r : t) : list (string * option pyobj) :=
  [("name", sent_obj PStr (name r));
   ("category", sent_obj PStr (category r));
   ("brand", sent_obj PStr (brand r));
   ("tagline", sent_obj PStr (tagline r));
   ("features", sent_obj of_str_list (features r));
   ("seo_keywords", sent_obj of_str_list (seo_keywords r));
   ("tone", sent_obj PStr (tone r));
   ("audience", sent_obj PStr (audience r));
   ("language", sent_obj PStr (language r));
   ("additional_notes", sent_obj PStr (additional_notes r));
   ("length", sent_obj PStr (length r));
   ("description", sent_obj PStr (description r));
   ("regenerate_description", sent_obj PBool (regenerate_description r))].

(** [request.dict(exclude_unset=True)] *)
Definition dict_exclude_unset (r : t) : pydict := present (fields r).

End ProductUpdateRequest.

Module ProductResponse.

(** [ProductResponse(ProductBrief)]: the brief's fields and four more. *)
Record t := mk {
  brief : ProductBrief.t;
  id : string;
  description : string;
  created_at : datetime;
  updated_at : datetime
}.

(** [product.dict()] *)
Definition dict (p : t) : pydict :=
  (ProductBrief.dict (brief p)
     ++ [("id", PStr (id p));
         ("description", PStr (description p));
         ("created_at", PDatetime (created_at p));
         ("updated_at", PDatetime (updated_at p))])%list.

(** [ProductResponse] built from the keywords of a dict. *)
Definition validate (d : pydict) : option t :=
  brief <~ ProductBrief.validate d ;;
  id <~ as_str (get "id" d) ;;
  description <~ as_str (get "description" d) ;;
  created_at <~ as_datetime (get "created_at" d) ;;
  updated_at <~ as_datetime (get "updated_at" d) ;;
  Some (mk brief id description created_at updated_at).

End ProductResponse.

(** [serialize_product] *)
Definition serialize_product (product : ProductResponse.t) : pydict :=
  let data := ProductResponse.dict product in
  let data :=
    set "created_at" (PStr (isoformat (ProductResponse.created_at product))) data in
  let data :=
    set "updated_at" (PStr (isoformat (ProductResponse.updated_at product))) data in
  data.

(** ** The prompt builder *)

Definition detailed_profile : string * Z :=
  ("Deliver a richly detailed narrative with multiple paragraphs, features, and ideal shopper segments.",
   780).

(** [length_profiles]: guidance and [max_tokens] per length. *)
Definition length_profiles : dict string (string * Z) :=
  [("short",
    ("Write a tight, one-paragraph spotlight with a short features list.", 320));
   ("standard",
    ("Craft a persuasive 2-3 paragraph description plus feature highlights.", 520));
   ("detailed", detailed_profile)].

(** [build_generation_prompt] *)
Definition build_generation_prompt (brief : ProductBrief.t) : string * Z :=
  let profile :=
    match dict_get String.eqb
            (or_default (ProductBrief.length brief) "detailed") length_profiles with
    | Some p => p
    | None => detailed_profile
    end in
  let features_block :=
    match ProductBrief.features brief with
    | [] => "- Highlight key differentiators."
    | fs => join nl (map (fun feature => "- " ++ feature) fs)
    end in
  let keywords :=
    match ProductBrief.seo_keywords brief with
    | [] => "None provided"
    | ks => join ", " ks
    end in
  let language := or_default (ProductBrief.language brief) "English" in
  let prompt :=
    "You are an expert e-commerce copywriter crafting premium product detail page content." ++ nl
    ++ nl
    ++ "Product name: " ++ ProductBrief.name brief ++ nl
    ++ "Category: " ++ or_default (ProductBrief.category brief) "General" ++ nl
    ++ "Brand: " ++ or_default (ProductBrief.brand brief) "Not specified" ++ nl
    ++ "Tagline: " ++ or_default (ProductBrief.tagline brief) "Not specified" ++ nl
    ++ "Target audience: " ++ or_default (ProductBrief.audience brief) "Online shoppers" ++ nl
    ++ "Tone: " ++ or_default (ProductBrief.tone brief) "balanced" ++ nl
    ++ "Language: " ++ language ++ nl
    ++ nl
    ++ "Core product features:" ++ nl ++ features_block ++ nl
    ++ "SEO keywords to weave naturally: " ++ keywords ++ nl
    ++ "Additional creative direction: "
    ++ or_default (ProductBrief.additional_notes brief) "None" ++ nl
    ++ nl
    ++ fst profile ++ nl
    ++ "Structure the copy with:" ++ nl
    ++ "- A magnetic headline hook (1 sentence)" ++ nl
    ++ "- Two to three compelling body paragraphs focused on benefits" ++ nl
    ++ "- A bullet list called " ++ dquote ++ "Key Features" ++ dquote
    ++ " summarising the strongest selling points" ++ nl
    ++ "- A section titled " ++ dquote ++ "Ideal For" ++ dquote
    ++ " describing the target customers or use cases" ++ nl
    ++ "- A closing call-to-action sentence" ++ nl
    ++ nl
    ++ "Ensure the description is original, vivid, and conversion-focused while remaining truthful to the brief. Avoid generic filler and keep the writing in "
    ++ language ++ "." ++ nl
  in
  (prompt, snd profile).

(** ** Exceptions, module state and the monad *)

(** A raised exception: FastAPI's [HTTPException], or any other one, with
    its class name and [str(exc)]. *)
Inductive exn :=
| HTTPException (status_code : Z) (detail : string)
| Exception (kind : string) (message : string).

Inductive outcome (A : Type) :=
| Ok (a : A)
| Raise (e : exn).
Arguments Ok {A} a.
Arguments Raise {A} e.

(** The snapshot file [data/products.json], by what reading it does. *)
Inductive file_state :=
| Absent                (* [DATA_FILE.exists()] is false *)
| Unreadable            (* opening or reading raises [OSError] *)
| NotUtf8               (* decoding raises [UnicodeDecodeError] *)
| NotJson               (* [json.load] raises [JSONDecodeError] *)
| Holds (raw : json).   (* [json.load] returns [raw] *)

(** One answer of the provider to [client.chat.chat]: a completion, or
    an exception with its message (a missing choice or content raises
    inside the same [try] block and is read the same way). *)
Inductive chat_result :=
| Completion (content : string)
| ChatError (message : string).

(** What the process does not control: the environment variable, the
    provider (its answer may depend on how many requests came before),
    and whether the snapshot file can be opened for writing. *)
Record environment := mk_environment {
  WRITER_API_KEY : option string;
  chat : nat -> string -> Z -> chat_result;
  writable : bool
}.

(** The module-level state and the file. [generate_calls] and
    [chat_calls] are ghost logs: the briefs [generate_product_description]
    was called with and the requests sent to the provider, oldest first. *)
Record world := mk_world {
  products_db : dict pykey pydict;
  data_file : file_state;
  writer_client : option string;
  generate_calls : list ProductBrief.t;
  chat_calls : list (string * Z)
}.

Definition M (A : Type) : Type := world -> outcome A * world.

Definition ret {A : Type} (a : A) : M A := fun w => (Ok a, w).

Definition raise {A : Type} (e : exn) : M A := fun w => (Raise e, w).

Definition bind {A B : Type} (m : M A) (k : A -> M B) : M B :=
  fun w =>
    match m w with
    | (Ok a, w') => k a w'
    | (Raise e, w') => (Raise e, w')
    end.

(** [try: body except ...: handler]; state changes of [body] stay. *)
Definition try_except {A : Type} (body : M A) (handler : exn -> M A) : M A :=
  fun w =>
    match body w with
    | (Ok a, w') => (Ok a, w')
    | (Raise e, w') => handler e w'
    end.

Notation "x <- m ;; k" := (bind m (fun x => k))
  (at level 61, m at next level, right associativity).
Notation "m ;;; k" := (bind m (fun _ => k))
  (at level 61, right associativity).

(** Validation inside the monad. *)
Definition validated {A : Type} (o : option A) : M A :=
  match o with
  | Some a => ret a
  | None => raise (Exception "ValidationError" "validation error")
  end.

Definition set_products_db (db : dict pykey pydict) : M unit :=
  fun w => (Ok tt, mk_world db (data_file w) (writer_client w)
                     (generate_calls w) (chat_calls w)).

Definition set_data_file (f : file_state) : M unit :=
  fun w => (Ok tt, mk_world (products_db w) f (writer_client w)
                     (generate_calls w) (chat_calls w)).

Definition set_writer_client (c : option string) : M unit :=
  fun w => (Ok tt, mk_world (products_db w) (data_file w) c
                     (generate_calls w) (chat_calls w)).

Definition log_generate (brief : ProductBrief.t) : M unit :=
  fun w => (Ok tt, mk_world (products_db w) (data_file w) (writer_client w)
                     (generate_calls w ++ [brief]) (chat_calls w)).

Definition log_chat (prompt : string) (max_tokens : Z) : M unit :=
  fun w => (Ok tt, mk_world (products_db w) (data_file w) (writer_client w)
                     (generate_calls w) (chat_calls w ++ [(prompt, max_tokens)])).

(** ** The product store *)

Definition json_truthy (j : json) : bool := truthy (of_json j).

Definition object_dict (fields : list (string * json)) : pydict :=
  map (fun kv => (fst kv, of_json (snd kv))) fields.

(** The dict comprehension of [load_products], item by item: an item that
    is not a dict or whose [id] is missing or falsy is skipped; an [id]
    that is a list or a dict raises [TypeError] (unhashable). *)
Fixpoint load_items (raw : list json) (acc : dict pykey pydict)
  : outcome (dict pykey pydict) :=
  match raw with
  | [] => Ok acc
  | JObj fields :: rest =>
      match dict_get String.eqb "id" fields with
      | Some v =>
          if json_truthy v then
            match json_key v with
            | Some k => load_items rest (dict_set key_eqb k (object_dict fields) acc)
            | None => Raise (Exception "TypeError" "unhashable type")
            end
          else load_items rest acc
      | None => load_items rest acc
      end
  | _ :: rest => load_items rest acc
  end.

(** [load_products]; the [except] clause names [JSONDecodeError],
    [OSError] and [KeyError]. *)
Definition load_products (f : file_state) : outcome (dict pykey pydict) :=
  match f with
  | Absent => Ok []
  | Unreadable => Ok []
  | NotUtf8 => Raise (Exception "UnicodeDecodeError" "invalid start byte")
  | NotJson => Ok []
  | Holds (JArr raw) => load_items raw []
  | Holds _ => Ok []
  end.

(** One entry of [save_products]: a copy with the [datetime] values of
    the two timestamp fields turned into ISO text. *)
Definition save_entry (product : pydict) : pydict :=
  fold_left
    (fun entry field =>
       match get field entry with
       | Some (PDatetime value) => set field (PStr (isoformat value)) entry
       | _ => entry
       end)
    ["created_at"; "updated_at"] product.

Section Service.
Variable env : environment.

(** [save_products]: opening the file for writing may raise [OSError]
    (the file is then untouched); [json.dump] raises [TypeError] on a
    value it cannot write, leaving a truncated file. *)
Definition save_products (products : dict pykey pydict) : M unit :=
  let serialized := map save_entry (dict_values products) in
  if writable env then
    match to_json (PList (map PDict serialized)) with
    | Some j => set_data_file (Holds j)
    | None =>
        set_data_file NotJson ;;;
        raise (Exception "TypeError" "Object is not JSON serializable")
    end
  else raise (Exception "OSError" "cannot open the data file for writing").

(** ** The generation client *)

(** [get_writer_client]: the client is built on first use and kept. *)
Definition get_writer_client : M string :=
  fun w =>
    match writer_client w with
    | Some client => ret client w
    | None =>
        match WRITER_API_KEY env with
        | Some api_key =>
            if nonempty api_key then
              (set_writer_client (Some api_key) ;;; ret api_key) w
            else
              raise (HTTPException 503
                "Writer API key not configured. Set WRITER_API_KEY to enable generation.") w
        | None =>
            raise (HTTPException 503
              "Writer API key not configured. Set WRITER_API_KEY to enable generation.") w
        end
    end.

(** [client.chat.chat(model="palmyra-x-004", messages=[...],
    max_tokens=max_tokens, temperature=0.4)] and the content of its
    first choice. *)
Definition chat_completion (prompt : string) (max_tokens : Z) : M string :=
  fun w =>
    let answer := chat env (List.length (chat_calls w)) prompt max_tokens in
    match answer with
    | Completion content => (log_chat prompt max_tokens ;;; ret content) w
    | ChatError message =>
        (log_chat prompt max_tokens ;;; raise (Exception "Exception" message)) w
    end.

(** [generate_product_description] *)
Definition generate_product_description (brief : ProductBrief.t) : M string :=
  log_generate brief ;;;
  try_except
    (client <- get_writer_client ;;
     let (prompt, max_tokens) := build_generation_prompt brief in
     content <- chat_completion prompt max_tokens ;;
     let description := strip content in
     if nonempty description then ret description
     else raise (Exception "RuntimeError"
                   "Received empty description from Writer API"))
    (fun exc =>
       match exc with
       | HTTPException _ _ => raise exc
       | Exception _ message =>
           if contains "api_key" (lower message) then
             raise (HTTPException 401 "Invalid Writer API key provided.")
           else if contains "rate limit" (lower message) then
             raise (HTTPException 429
                      "Writer API rate limit exceeded. Please retry shortly.")
           else
             raise (HTTPException 500
                      ("Error generating description: " ++ message))
       end).

(** ** The product service *)

(** [get_product_or_404] *)
Definition get_product_or_404 (product_id : string) : M ProductResponse.t :=
  fun w =>
    match dict_get key_eqb (KStr product_id) (products_db w) with
    | Some product =>
        if truthy (PDict product) then
          validated (ProductResponse.validate product) w
        else raise (HTTPException 404 "Product not found") w
    | None => raise (HTTPException 404 "Product not found") w
    end.

(** [generate_description_endpoint] *)
Definition generate_description_endpoint (request : ProductBrief.t) : M string :=
  generate_product_description request.

(** [description and description.strip()] as a truth value. *)
Definition has_text (description : option string) : bool :=
  match description with
  | Some d => nonempty d && nonempty (strip d)
  | None => false
  end.

(** [description.strip()] on a value that may be [None]. *)
Definition strip_opt (description : option string) : M string :=
  match description with
  | Some d => ret (strip d)
  | None => raise (Exception "AttributeError"
                     "'NoneType' object has no attribute 'strip'")
  end.

(** [products_db[product_id] = serialize_product(product)] *)
Definition store_product (product_id : string) (product : ProductResponse.t)
  : M unit :=
  fun w =>
    set_products_db
      (dict_set key_eqb (KStr product_id) (serialize_product product)
         (products_db w)) w.

(** [create_product]; [now] is what [datetime.utcnow()] returns and
    [product_id] what [str(uuid4())] returns. *)
Definition create_product (request : ProductCreateRequest.t)
    (now : datetime) (product_id : string) : M ProductResponse.t :=
  let brief := ProductCreateRequest.brief request in
  let description := ProductCreateRequest.description request in
  description <-
    (if ProductCreateRequest.auto_generate request || negb (has_text description)
     then d <- generate_product_description brief ;; ret (Some d)
     else ret description) ;;
  stripped <- strip_opt description ;;
  let product := ProductResponse.mk brief product_id stripped now now in
  store_product product_id product ;;;
  (fun w => save_products (products_db w) w) ;;;
  ret product.

(** [get_product] *)
Definition get_product (product_id : string) : M ProductResponse.t :=
  get_product_or_404 product_id.

Definition mem (k : string) (l : list string) : bool :=
  existsb (String.eqb k) l.

Definition protected_fields : list string := ["created_at"; "updated_at"; "id"].

Definition clearable_fields : list string :=
  ["category"; "brand"; "tagline"; "audience"; "additional_notes";
   "tone"; "language"; "length"].

(** One turn of the loop over [update_data.items()]. *)
Definition merge_step (updated_payload : pydict) (item : string * pyobj) : pydict :=
  let (field, value) := item in
  if mem field protected_fields then updated_payload
  else
    match value with
    | PNone =>
        if mem field clearable_fields then set field PNone updated_payload
        else updated_payload
    | _ => set field value updated_payload
    end.

(** [field in update_data and update_data[field] is None] *)
Definition given_null (field : string) (update_data : pydict) : bool :=
  match get field update_data with
  | Some PNone => true
  | _ => false
  end.

(** [{field: payload[field] for field in names}]; [None] on a missing key. *)
Fixpoint select_fields (names : list string) (payload : pydict) : option pydict :=
  match names with
  | [] => Some []
  | field :: rest =>
      match get field payload, select_fields rest payload with
      | Some v, Some d => Some ((field, v) :: d)
      | _, _ => None
      end
  end.

(** The three-way choice of the description in [update_product]. *)
Definition resolve_description (update_data : pydict) (regenerate : pyobj)
    (updated_payload : pydict) : M string :=
  match get "description" update_data with
  | Some (PStr d) => ret (strip d)
  | Some PNone | None =>
      if truthy regenerate then
        match select_fields ProductBrief.field_names updated_payload with
        | Some brief_payload =>
            brief <- validated (ProductBrief.validate brief_payload) ;;
            generate_product_description brief
        | None => raise (Exception "KeyError" "missing field")
        end
      else
        match get "description" updated_payload with
        | Some (PStr d) => ret (strip d)
        | _ => raise (Exception "AttributeError" "object has no attribute 'strip'")
        end
  | Some _ => raise (Exception "AttributeError" "object has no attribute 'strip'")
  end.

(** [update_product]; [now] is what [datetime.utcnow()] returns.
    [updated_payload] is a dict of its own: [get_product_or_404] builds a
    model from the stored record and [existing.dict()] builds a new dict
    from the model, so the assignments below do not reach [products_db]
    before the record is filed. *)
Definition update_product (product_id : string)
    (request : ProductUpdateRequest.t) (now : datetime) : M ProductResponse.t :=
  existing <- get_product_or_404 product_id ;;
  let update_data := ProductUpdateRequest.dict_exclude_unset request in
  let (regenerate, update_data) :=
    dict_pop String.eqb "regenerate_description" (PBool false) update_data in
  let updated_payload := ProductResponse.dict existing in
  let updated_payload := fold_left merge_step update_data updated_payload in
  let updated_payload :=
    if given_null "features" update_data
    then set "features" (PList []) updated_payload else updated_payload in
  let updated_payload :=
    if given_null "seo_keywords" update_data
    then set "seo_keywords" (PList []) updated_payload else updated_payload in
  description <- resolve_description update_data regenerate updated_payload ;;
  let updated_payload := set "description" (PStr description) updated_payload in
  let updated_payload := set "updated_at" (PDatetime now) updated_payload in
  product <- validated (ProductResponse.validate updated_payload) ;;
  store_product product_id product ;;;
  (fun w => save_products (products_db w) w) ;;;
  ret product.

(** [delete_product] *)
Definition delete_product (product_id : string) : M unit :=
  fun w =>
    if dict_mem key_eqb (KStr product_id) (products_db w) then
      (set_products_db (dict_del key_eqb (KStr product_id) (products_db w)) ;;;
       (fun w => save_products (products_db w) w)) w
    else raise (HTTPException 404 "Product not found") w.

End Service.

(** ** Reference definitions for the statements

    What follows is not code of the service: these are the notions the
    statements below compare the code with. *)

(** A string that is empty or starts with a character that is not white
    space. *)
Definition starts_clean (s : string) : Prop :=
  match s with
  | EmptyString => True
  | String c _ => isspace c = false
  end.

(** [needle] occurs in [hay]. *)
Definition substring (needle hay : string) : Prop :=
  exists a b, hay = a ++ needle ++ b.

(** [needle] occurs in [hay] when letter case is ignored: some stretch
    of [hay] has the lower-case form of [needle]. *)
Definition occurs_ignoring_case (needle hay : string) : Prop :=
  exists a x b, hay = a ++ x ++ b /\ lower x = lower needle.

(** The partial update read field by field. A clearable scalar: kept
    when omitted, cleared on null, replaced by a value. *)
Definition merge_scalar (s : sent string) (stored : option string)
  : option string :=
  match s with
  | Omitted => stored
  | Given None => None
  | Given (Some v) => Some v
  end.

(** A sequence: kept when omitted, emptied on null, replaced by a value. *)
Definition merge_sequence (s : sent (list string)) (stored : list string)
  : list string :=
  match s with
  | Omitted => stored
  | Given None => []
  | Given (Some v) => v
  end.

(** A field without null-clearing ([name], [description]): replaced by a
    value, otherwise kept. *)
Definition merge_required (s : sent string) (stored : string) : string :=
  match s with
  | Given (Some v) => v
  | _ => stored
  end.

(** The same three readings as relations between the field of the
    request, the stored value and the value after the update. *)
Definition scalar_rule (given : sent string) (stored result : option string)
  : Prop :=
  (given = Omitted -> result = stored)
  /\ (given = Given None -> result = None)
  /\ (forall v, given = Given (Some v) -> result = Some v).

Definition sequence_rule (given : sent (list string))
    (stored result : list string) : Prop :=
  (given = Omitted -> result = stored)
  /\ (given = Given None -> result = [])
  /\ (forall v, given = Given (Some v) -> result = v).

Definition required_rule (given : sent string) (stored result : string)
  : Prop :=
  (given = Omitted -> result = stored)
  /\ (given = Given None -> result = stored)
  /\ (forall v, given = Given (Some v) -> result = v).

Definition merged_brief (stored : ProductBrief.t) (r : ProductUpdateRequest.t)
  : ProductBrief.t :=
  ProductBrief.mk
    (merge_required (ProductUpdateRequest.name r) (ProductBrief.name stored))
    (merge_scalar (ProductUpdateRequest.category r) (ProductBrief.category stored))
    (merge_scalar (ProductUpdateRequest.brand r) (ProductBrief.brand stored))
    (merge_scalar (ProductUpdateRequest.tagline r) (ProductBrief.tagline stored))
    (merge_sequence (ProductUpdateRequest.features r) (ProductBrief.features stored))
    (merge_sequence (ProductUpdateRequest.seo_keywords r)
       (ProductBrief.seo_keywords stored))
    (merge_scalar (ProductUpdateRequest.tone r) (ProductBrief.tone stored))
    (merge_scalar (ProductUpdateRequest.audience r) (ProductBrief.audience stored))
    (merge_scalar (ProductUpdateRequest.language r) (ProductBrief.language stored))
    (merge_scalar (ProductUpdateRequest.additional_notes r)
       (ProductBrief.additional_notes stored))
    (merge_scalar (ProductUpdateRequest.length r) (ProductBrief.length stored)).

(** The request asks for regeneration: the flag is given and true. *)
Definition regenerate_flag (r : ProductUpdateRequest.t) : bool :=
  match ProductUpdateRequest.regenerate_description r with
  | Given (Some b) => b
  | _ => false
  end.

(** The product an update ends with, once its description is known. *)
Definition updated_product (existing : ProductResponse.t)
    (r : ProductUpdateRequest.t) (description : string) (now : datetime)
  : ProductResponse.t :=
  ProductResponse.mk
    (merged_brief (ProductResponse.brief existing) r)
    (ProductResponse.id existing)
    description
    (ProductResponse.created_at existing)
    now.

(** The closing statements that [create_product] and [update_product]
    share: file the serialized product, save, return the product. *)
Definition persist (env : environment) (product_id : string)
    (product : ProductResponse.t) : M ProductResponse.t :=
  store_product product_id product ;;;
  (fun w => save_products env (products_db w) w) ;;;
  ret product.

(** The description an object dict holds, if it holds a string there. *)
Definition description_of (product : pydict) : option string :=
  as_str (get "description" product).

(** A stored description is blank: empty once trimmed. *)
Definition blank (s : string) : bool := negb (nonempty (strip s)).

(** An element of the snapshot that [load_products] keeps: an object with
    a truthy [id]. *)
Definition is_record (j : json) : bool :=
  match j with
  | JObj fields =>
      match dict_get String.eqb "id" fields with
      | Some v => json_truthy v
      | None => false
      end
  | _ => false
  end.

(** The snapshot is a sequence of objects that each hold a truthy [id]. *)
Definition well_formed_snapshot (raw : json) : bool :=
  match raw with
  | JArr items => forallb is_record items
  | _ => false
  end.

(** The [id] of an element, where it is truthy, is hashable (not a list
    and not a dict). *)
Definition hashable_id (j : json) : bool :=
  match j with
  | JObj fields =>
      match dict_get String.eqb "id" fields with
      | Some v =>
          negb (json_truthy v)
          || match json_key v with Some _ => true | None => false end
      | None => true
      end
  | _ => true
  end.

(** Filing the kept elements under their [id], in order. *)
Definition index_record (acc : dict pykey pydict) (j : json)
  : dict pykey pydict :=
  match j with
  | JObj fields =>
      match dict_get String.eqb "id" fields with
      | Some v =>
          match json_key v with
          | Some k => dict_set key_eqb k (object_dict fields) acc
          | None => acc
          end
      | None => acc
      end
  | _ => acc
  end.

(** The status code of a raised [HTTPException]. *)
Definition http_status {A : Type} (o : outcome A) : option Z :=
  match o with
  | Raise (HTTPException status _) => Some status
  | _ => None
  end.

(** What a key of a request dict holds, read off the field list. *)
Fixpoint field_entry (k : string) (fs : list (string * option pyobj))
  : option pyobj :=
  match fs with
  | [] => None
  | (f, o) :: r =>
      if String.eqb k f then
        match o with Some v => Some v | None => field_entry k r end
      else field_entry k r
  end.


(** The effect of one loop turn of [update_product] on one key. *)
Definition merge_view (k : string) (cur : option pyobj)
    (entry : string * option pyobj) : option pyobj :=
  if String.eqb k (fst entry) then
    match snd entry with
    | Some v =>
        if mem (fst entry) protected_fields then cur
        else match v with
             | PNone =>
                 if mem (fst entry) clearable_fields then Some PNone else cur
             | _ => Some v
             end
    | None => cur
    end
  else cur.

(** The fields of a request but the regeneration flag. *)
Definition data_fields (r : ProductUpdateRequest.t)
  : list (string * option pyobj) :=
  removelast (ProductUpdateRequest.fields r).

(** All the keys of a [ProductResponse]. *)
Definition response_field_names : list string :=
  (ProductBrief.field_names
     ++ ["id"; "description"; "created_at"; "updated_at"])%list.

(** The payload of [update_product] after the loop and the two resets,
    for the items [update_data] holds once the flag is popped. *)
Definition merged_payload (existing : ProductResponse.t)
    (r : ProductUpdateRequest.t) : pydict :=
  let update_data := present (data_fields r) in
  let updated_payload :=
    fold_left merge_step update_data (ProductResponse.dict existing) in
  let updated_payload :=
    if given_null "features" update_data
    then set "features" (PList []) updated_payload else updated_payload in
  if given_null "seo_keywords" update_data
  then set "seo_keywords" (PList []) updated_payload else updated_payload.

(** The value popped for the regeneration flag. *)
Definition regenerate_object (r : ProductUpdateRequest.t) : pyobj :=
  match sent_obj PBool (ProductUpdateRequest.regenerate_description r) with
  | Some v => v
  | None => PBool false
  end.

(** The description of an update, by the three cases of the request: a
    given description wins, then the regeneration flag, else the stored
    text; a given or stored text is trimmed. *)
Definition resolved_description (env : environment)
    (existing : ProductResponse.t) (r : ProductUpdateRequest.t) : M string :=
  match ProductUpdateRequest.description r with
  | Given (Some d) => ret (strip d)
  | _ =>
      if regenerate_flag r then
        generate_product_description env
          (merged_brief (ProductResponse.brief existing) r)
      else ret (strip (ProductResponse.description existing))
  end.

(** An update of a product that is there, read at the level of records. *)
Definition update_reading (env : environment) (product_id : string)
    (existing : ProductResponse.t) (r : ProductUpdateRequest.t)
    (now : datetime) : M ProductResponse.t :=
  description <- resolved_description env existing r ;;
  persist env product_id (updated_product existing r description now).

(** The client [get_writer_client] would hand out: the one already built,
    else one built from a non-empty [WRITER_API_KEY]. *)
Definition credential (env : environment) (w : world) : option string :=
  match writer_client w with
  | Some client => Some client
  | None =>
      match WRITER_API_KEY env with
      | Some api_key => if nonempty api_key then Some api_key else None
      | None => None
      end
  end.

(** The answer the provider gives to the request for [brief] in [w]. *)
Definition provider_answer (env : environment) (brief : ProductBrief.t)
    (w : world) : chat_result :=
  chat env (List.length (chat_calls w))
    (fst (build_generation_prompt brief)) (snd (build_generation_prompt brief)).

(** [max_tokens] by the text of the length field. *)
Definition token_budget (length : option string) : Z :=
  match length with
  | Some l =>
      if String.eqb l "short" then 320
      else if String.eqb l "standard" then 520
      else 780
  | None => 780
  end.

(** The JSON [save_products] writes for one stored entry. *)
Definition entry_json (product : pydict) : option json :=
  to_json (PDict (save_entry product)).

(** Every stored entry can be written as JSON. *)
Definition serializable (db : dict pykey pydict) : bool :=
  forallb
    (fun product =>
       match entry_json product with Some _ => true | None => false end)
    (dict_values db).

Fixpoint list_to_json (l : list pyobj) : option (list json) :=
  match l with
  | [] => Some []
  | x :: r =>
      match to_json x, list_to_json r with
      | Some a, Some b => Some (a :: b)
      | _, _ => None
      end
  end.

Fixpoint fields_to_json (d : list (string * pyobj))
  : option (list (string * json)) :=
  match d with
  | [] => Some []
  | (k, x) :: r =>
      match to_json x, fields_to_json r with
      | Some a, Some b => Some ((k, a) :: b)
      | _, _ => None
      end
  end.

(** The JSON object of a product, as the snapshot holds it. *)
Definition product_json (p : ProductResponse.t) : json :=
  let b := ProductResponse.brief p in
  let opt (o : option string) :=
    match o with Some s => JStr s | None => JNull end in
  JObj
    [("name", JStr (ProductBrief.name b));
     ("category", opt (ProductBrief.category b));
     ("brand", opt (ProductBrief.brand b));
     ("tagline", opt (ProductBrief.tagline b));
     ("features", JArr (map JStr (ProductBrief.features b)));
     ("seo_keywords", JArr (map JStr (ProductBrief.seo_keywords b)));
     ("tone", opt (ProductBrief.tone b));
     ("audience", opt (ProductBrief.audience b));
     ("language", opt (ProductBrief.language b));
     ("additional_notes", opt (ProductBrief.additional_notes b));
     ("length", opt (ProductBrief.length b));
     ("id", JStr (ProductResponse.id p));
     ("description", JStr (ProductResponse.description p));
     ("created_at", JStr (isoformat (ProductResponse.created_at p)));
     ("updated_at", JStr (isoformat (ProductResponse.updated_at p)))].

(** [create_product] has to call the generation client. *)
Definition needs_generation (request : ProductCreateRequest.t) : bool :=
  ProductCreateRequest.auto_generate request
  || negb (has_text (ProductCreateRequest.description request)).

(** The JSON array [save_products] writes for a product map, if every
    entry can be written. *)
Definition snapshot_of (db : dict pykey pydict) : option json :=
  to_json (PList (map PDict (map save_entry (dict_values db)))).

(** The product [create_product] builds around a description. *)
Definition created_product (request : ProductCreateRequest.t)
    (description : string) (now : datetime) (product_id : string)
  : ProductResponse.t :=
  ProductResponse.mk (ProductCreateRequest.brief request) product_id
    (strip description) now now.

(** The description stored under a product id, if a record is there and
    holds a string as its description. *)
Definition stored_description (db : dict pykey pydict) (product_id : string)
  : option string :=
  match dict_get key_eqb (KStr product_id) db with
  | Some product => description_of product
  | None => None
  end.

(** The field a stored record holds under [field]. *)
Definition stored_field (db : dict pykey pydict) (product_id field : string)
  : option pyobj :=
  match dict_get key_eqb (KStr product_id) db with
  | Some product => get field product
  | None => None
  end.

(** The request gives no description: the field is omitted or null. *)
Definition no_description (r : ProductUpdateRequest.t) : Prop :=
  ProductUpdateRequest.description r = Omitted
  \/ ProductUpdateRequest.description r = Given None.

(** Each key of the map occurs once, as in a Python dict. *)
Definition unique_keys (db : dict pykey pydict) : Prop :=
  NoDup (map fst db).

(** ** Sample values *)

Definition brief_lamp : ProductBrief.t :=
  ProductBrief.mk "Lamp" (Some "Lighting") None None ["Dimmable"] []
    (Some "balanced") None (Some "English") None (Some "detailed").

(** A brief whose length is none of the three profiles. *)
Definition brief_poetic : ProductBrief.t :=
  ProductBrief.mk "Lamp" None None None [] [] (Some "balanced") None
    (Some "English") None (Some "poetic").

Definition noon : datetime := mk_datetime 2024 1 2 12 0 0 0 None.
Definition half_past : datetime := mk_datetime 2024 1 2 12 30 0 250000 None.

(** A provider that answers with padded text. *)
Definition env_writing : environment :=
  mk_environment (Some "secret")
    (fun _ _ _ => Completion "  A lamp that listens.  ") true.

(** A provider that rejects the key. *)
Definition env_rejecting : environment :=
  mk_environment (Some "secret")
    (fun _ _ _ => ChatError "Invalid API_KEY supplied") true.

(** No credential configured. *)
Definition env_unset : environment :=
  mk_environment None (fun _ _ _ => Completion "never asked") true.

Definition world_empty : world := mk_world [] Absent None [] [].

Definition request_lamp : ProductCreateRequest.t :=
  ProductCreateRequest.mk brief_lamp (Some "Bright light.") false.

Definition request_lamp_auto : ProductCreateRequest.t :=
  ProductCreateRequest.mk brief_lamp (Some "Bright light.") true.

(** The state after the lamp was created under the id [p1]. *)
Definition world_lamp : world :=
  snd (create_product env_writing request_lamp noon "p1" world_empty).

Definition product_lamp : ProductResponse.t :=
  created_product request_lamp "Bright light." noon "p1".

(** [{"tone": "luxurious"}] *)
Definition tone_only : ProductUpdateRequest.t :=
  ProductUpdateRequest.mk Omitted Omitted Omitted Omitted Omitted Omitted
    (Given (Some "luxurious")) Omitted Omitted Omitted Omitted Omitted Omitted.

(** [{"description": "   "}] *)
Definition blank_description : ProductUpdateRequest.t :=
  ProductUpdateRequest.mk Omitted Omitted Omitted Omitted Omitted Omitted
    Omitted Omitted Omitted Omitted Omitted (Given (Some "   ")) Omitted.

(** [{"name": ""}] *)
Definition empty_name : ProductUpdateRequest.t :=
  ProductUpdateRequest.mk (Given (Some "")) Omitted Omitted Omitted Omitted
    Omitted Omitted Omitted Omitted Omitted Omitted Omitted Omitted.

(** [{"name": null}] *)
Definition null_name : ProductUpdateRequest.t :=
  ProductUpdateRequest.mk (Given None) Omitted Omitted Omitted Omitted
    Omitted Omitted Omitted Omitted Omitted Omitted Omitted Omitted.

(** [{"category": null, "features": null, "tone": "luxurious"}] *)
Definition clearing : ProductUpdateRequest.t :=
  ProductUpdateRequest.mk Omitted (Given None) Omitted Omitted (Given None)
    Omitted (Given (Some "luxurious")) Omitted Omitted Omitted Omitted
    Omitted Omitted.

(** [{"description": "New text", "regenerate_description": true}] *)
Definition described_and_flagged : ProductUpdateRequest.t :=
  ProductUpdateRequest.mk Omitted Omitted Omitted Omitted Omitted Omitted
    Omitted Omitted Omitted Omitted Omitted (Given (Some " New text "))
    (Given (Some true)).

(** [{"tone": "luxurious", "regenerate_description": true}] *)
Definition regenerating : ProductUpdateRequest.t :=
  ProductUpdateRequest.mk Omitted Omitted Omitted Omitted Omitted Omitted
    (Given (Some "luxurious")) Omitted Omitted Omitted Omitted Omitted
    (Given (Some true)).

(** A snapshot edited by hand: the description is padded with blanks. *)
Definition file_padded : file_state :=
  Holds (JArr
    [JObj [("id", JStr "p1"); ("name", JStr "Lamp");
           ("description", JStr " Bright light. ");
           ("created_at", JStr "2024-01-02T12:00:00");
           ("updated_at", JStr "2024-01-02T12:00:00")]]).

(** A snapshot whose second element is not an object. *)
Definition file_mixed : file_state :=
  Holds (JArr [JObj [("id", JStr "a"); ("name", JStr "Lamp")]; JInt 5]).

(** A snapshot with a list as [id]. *)
Definition file_list_id : file_state :=
  Holds (JArr [JObj [("id", JArr [JInt 1])]]).

(** The result an outcome returns, if it returns. *)
Definition returned {A : Type} (o : outcome A) : option A :=
  match o with Ok a => Some a | Raise _ => None end.

(** The state of a process started on the hand-edited snapshot:
    [products_db = load_products()]. *)
Definition world_padded : world :=
  match load_products file_padded with
  | Ok db => mk_world db file_padded None [] []
  | Raise _ => world_empty
  end.

(** No record of the map holds a blank description. *)
Definition described_ok (db : dict pykey pydict) : Prop :=
  Forall
    (fun product =>
       forall s, description_of product = Some s -> blank s = false)
    (dict_values db).


(** ** More of the service: listing, routes and configuration *)

(** The list comprehension of [list_products]: every stored record is
    validated in turn; the first that fails raises. *)
Fixpoint validate_all (items : list pydict) : option (list ProductResponse.t) :=
  match items with
  | [] => Some []
  | item :: rest =>
      match ProductResponse.validate item, validate_all rest with
      | Some p, Some ps => Some (p :: ps)
      | _, _ => None
      end
  end.

(** [list_products] *)
Definition list_products : M (list ProductResponse.t) :=
  fun w => validated (validate_all (dict_values (products_db w))) w.

(** [s.split(sep)] for a separator of one character. *)
Fixpoint split (sep : ascii) (s : string) : list string :=
  match s with
  | EmptyString => [EmptyString]
  | String c r =>
      if Ascii.eqb c sep then EmptyString :: split sep r
      else match split sep r with
           | part :: parts => String c part :: parts
           | [] => [String c EmptyString]
           end
  end.

(** [cors_origins]: the value of [CORS_ORIGINS], or the default, split at
    the commas. *)
Definition cors_origins (CORS_ORIGINS : option string) : list string :=
  split ","%char
    match CORS_ORIGINS with
    | Some value => value
    | None => "http://localhost:3000,http://localhost:5173,http://localhost:5174"
    end.

(** ** Reference definitions for the further statements *)

(** The dict key an object makes; [None] where it is unhashable or, for
    a [datetime], not a key any record of the service is filed under. *)
Definition object_key (v : pyobj) : option pykey :=
  match v with
  | PNone => Some KNone
  | PBool b => Some (KInt (if b then 1 else 0))
  | PInt z => Some (KInt z)
  | PStr s => Some (KStr s)
  | PList _ | PDict _ | PDatetime _ => None
  end.

(** A record as [load_products] files it: it can be written as JSON as
    it is, and it sits under the key its truthy [id] makes. *)
Definition record_ok (k : pykey) (product : pydict) : Prop :=
  (exists j, to_json (PDict product) = Some j)
  /\ exists v, get "id" product = Some v
               /\ truthy v = true
               /\ object_key v = Some k.

(** A product map as the service builds it: each key once, each record
    filed as [load_products] would file it. *)
Definition consistent (db : dict pykey pydict) : Prop :=
  unique_keys db /\ Forall (fun kv => record_ok (fst kv) (snd kv)) db.

(** ** Further sample values *)

(** The snapshot file cannot be written. *)
Definition env_readonly : environment :=
  mk_environment (Some "secret")
    (fun _ _ _ => Completion "  A lamp that listens.  ") false.

(** A snapshot with a record that has an id and nothing else. *)
Definition file_bare : file_state :=
  Holds (JArr [JObj [("id", JStr "a")]]).

Definition world_bare : world :=
  match load_products file_bare with
  | Ok db => mk_world db file_bare None [] []
  | Raise _ => world_empty
  end.

(** The environment with another value of [WRITER_API_KEY]. *)
Definition with_key (key : option string) (env : environment) : environment :=
  mk_environment key (chat env) (writable env).

(** The state after one call of the generation client went through to a
    completion: the lamp's client is built and one request is logged. *)
Definition world_generated : world :=
  snd (generate_description_endpoint env_writing brief_lamp world_empty).

(** The failures of writing the snapshot. *)
Definition save_error (e : exn) : Prop :=
  e = Exception "OSError" "cannot open the data file for writing"
  \/ e = Exception "TypeError" "Object is not JSON serializable".

(** The failures of the generation client. *)
Definition generation_error (e : exn) : Prop :=
  exists status detail,
    e = HTTPException status detail /\ In status [401; 429; 500; 503].

Definition not_found : exn := HTTPException 404 "Product not found".

(** A stored record does not validate as a [ProductResponse]. *)
Definition invalid_record : exn := Exception "ValidationError" "validation error".

(** A product with another time of update. *)
Definition touched (p : ProductResponse.t) (now : datetime) : ProductResponse.t :=
  ProductResponse.mk (ProductResponse.brief p) (ProductResponse.id p)
    (ProductResponse.description p) (ProductResponse.created_at p) now.

(** No generation is needed for the update: a description is given, or
    the regeneration flag is not set. *)
Definition no_generation (r : ProductUpdateRequest.t) : Prop :=
  (exists d, ProductUpdateRequest.description r = Given (Some d))
  \/ regenerate_flag r = false.

(** The length profile a length field selects: one of the three names,
    [detailed] for anything else. *)
Definition effective_length (length : option string) : string :=
  match length with
  | Some l =>
      if String.eqb l "short" then "short"
      else if String.eqb l "standard" then "standard"
      else "detailed"
  | None => "detailed"
  end.

(** Two briefs that the prompt builder reads alike: the same name,
    features and keywords, the same text of each optional field once its
    default is filled in, and the same length profile. *)
Definition read_alike (a b : ProductBrief.t) : Prop :=
  ProductBrief.name a = ProductBrief.name b
  /\ ProductBrief.features a = ProductBrief.features b
  /\ ProductBrief.seo_keywords a = ProductBrief.seo_keywords b
  /\ or_default (ProductBrief.category a) "General"
     = or_default (ProductBrief.category b) "General"
  /\ or_default (ProductBrief.brand a) "Not specified"
     = or_default (ProductBrief.brand b) "Not specified"
  /\ or_default (ProductBrief.tagline a) "Not specified"
     = or_default (ProductBrief.tagline b) "Not specified"
  /\ or_default (ProductBrief.audience a) "Online shoppers"
     = or_default (ProductBrief.audience b) "Online shoppers"
  /\ or_default (ProductBrief.tone a) "balanced"
     = or_default (ProductBrief.tone b) "balanced"
  /\ or_default (ProductBrief.language a) "English"
     = or_default (ProductBrief.language b) "English"
  /\ or_default (ProductBrief.additional_notes a) "None"
     = or_default (ProductBrief.additional_notes b) "None"
  /\ effective_length (ProductBrief.length a)
     = effective_length (ProductBrief.length b).

(** A brief with empty texts and an unknown length, and the brief that
    spells the defaults out. *)
Definition brief_sparse : ProductBrief.t :=
  ProductBrief.mk "Lamp" (Some "") None (Some "") ["Dimmable"] ["lamp"; "led"]
    None (Some "") (Some "") None (Some "poetic").

Definition brief_spelled : ProductBrief.t :=
  ProductBrief.mk "Lamp" (Some "General") (Some "Not specified") None
    ["Dimmable"] ["lamp"; "led"] (Some "balanced") (Some "Online shoppers")
    (Some "English") (Some "None") (Some "detailed").

(* ================================================================= *)
(** * Theorems *)
(* ================================================================= *)

(** ** Strings *)

Section StripFacts.

Lemma lstrip_starts_clean (s : string) : starts_clean (lstrip s).
Proof.
  induction s as [|c r IH]; simpl; [exact I|].
  destruct (isspace c) eqn:E; [exact IH|exact E].
Qed.

Lemma lstrip_clean (s : string) : starts_clean s -> lstrip s = s.
Proof.
  destruct s as [|c r]; simpl; [reflexivity|].
  intros ->. reflexivity.
Qed.

Lemma rstrip_starts_clean (s : string) :
  starts_clean s -> starts_clean (rstrip s).
Proof.
  destruct s as [|c r]; simpl; [exact (fun H => H)|].
  intros E. rewrite E. destruct (rstrip r); simpl; exact E.
Qed.

Lemma rstrip_idempotent (s : string) : rstrip (rstrip s) = rstrip s.
Proof.
  induction s as [|c r IH]; simpl; [reflexivity|].
  destruct (rstrip r) as [|c' r'] eqn:E.
  - destruct (isspace c) eqn:Ec; simpl; [reflexivity|].
    rewrite Ec. reflexivity.
  - change (rstrip (String c (String c' r'))) with
      (match rstrip (String c' r') with
       | EmptyString => if isspace c then EmptyString else String c EmptyString
       | String a b => String c (String a b)
       end).
    rewrite IH. reflexivity.
Qed.

(** Trimming twice is trimming once. *)
Lemma strip_idempotent (s : string) : strip (strip s) = strip s.
Proof.
  unfold strip.
  rewrite (lstrip_clean (rstrip (lstrip s))).
  - apply rstrip_idempotent.
  - apply rstrip_starts_clean, lstrip_starts_clean.
Qed.

End StripFacts.

Lemma nonempty_true (s : string) : nonempty s = true <-> s <> EmptyString.
Proof.
  destruct s; simpl; split; intros H; congruence.
Qed.

Lemma prefix_append (n h : string) :
  prefix n h = true <-> exists b, h = n ++ b.
Proof.
  revert h; induction n as [|c n IH]; intros h; simpl.
  - split; [intros _; exists h; reflexivity|intros _; destruct h; reflexivity].
  - destruct h as [|c' h]; simpl.
    + split; [discriminate|intros [b Hb]; discriminate].
    + destruct (ascii_dec c c') as [->|Hne].
      * rewrite IH. split; intros [b Hb]; exists b; [now rewrite Hb|].
        now injection Hb.
      * split; [discriminate|]. intros [b Hb]. injection Hb as Hc _.
        now elim Hne.
Qed.

Lemma contains_unfold (n h : string) :
  contains n h =
  if prefix n h then true
  else match h with
       | EmptyString => false
       | String _ r => contains n r
       end.
Proof. destruct h; reflexivity. Qed.

(** [contains] is the search for a substring. *)
Lemma contains_substring (n h : string) :
  contains n h = true <-> substring n h.
Proof.
  unfold substring.
  induction h as [|c h IH]; rewrite contains_unfold.
  - destruct (prefix n EmptyString) eqn:E.
    + split; [intros _|reflexivity].
      apply prefix_append in E. destruct E as [b Hb].
      exists EmptyString, b. exact Hb.
    + split; [discriminate|]. intros (a & b & Hab).
      destruct a; simpl in Hab.
      * assert (prefix n EmptyString = true) by (apply prefix_append; now exists b).
        congruence.
      * discriminate.
  - destruct (prefix n (String c h)) eqn:E.
    + split; [intros _|reflexivity].
      apply prefix_append in E. destruct E as [b Hb].
      exists EmptyString, b. exact Hb.
    + rewrite IH. split.
      * intros (a & b & Hab). exists (String c a), b. simpl. now rewrite Hab.
      * intros (a & b & Hab). destruct a as [|c' a]; simpl in Hab.
        -- assert (prefix n (String c h) = true)
             by (apply prefix_append; now exists b).
           congruence.
        -- injection Hab as _ Hh. now exists a, b.
Qed.

Lemma lower_app (a b : string) : lower (a ++ b) = lower a ++ lower b.
Proof. induction a as [|c a IH]; simpl; [reflexivity|now rewrite IH]. Qed.

Lemma lower_split (m p q : string) :
  lower m = p ++ q ->
  exists m1 m2, m = m1 ++ m2 /\ lower m1 = p /\ lower m2 = q.
Proof.
  revert m. induction p as [|c p IH]; intros m H.
  - exists EmptyString, m. repeat split. exact H.
  - destruct m as [|c' m]; simpl in H; [discriminate|].
    injection H as Hc Hm.
    destruct (IH m Hm) as (m1 & m2 & -> & H1 & H2).
    exists (String c' m1), m2. simpl. rewrite H1, Hc. repeat split. exact H2.
Qed.

(** Searching the lower-cased text for a lower-case needle is the search
    that ignores letter case. *)
Lemma contains_lower (n m : string) :
  lower n = n ->
  contains n (lower m) = true <-> occurs_ignoring_case n m.
Proof.
  intros Hn. rewrite contains_substring.
  unfold substring, occurs_ignoring_case. split.
  - intros (a & b & H).
    destruct (lower_split m a (n ++ b) H) as (m1 & m2 & -> & H1 & H2).
    destruct (lower_split m2 n b H2) as (x & m3 & -> & Hx & H3).
    exists m1, x, m3. split; [reflexivity|]. now rewrite Hn.
  - intros (a & x & b & -> & Hx).
    exists (lower a), (lower b).
    now rewrite !lower_app, Hx, Hn.
Qed.

(** ** ISO-8601 text of a [datetime] *)

Lemma digit_value_char (d : Z) :
  0 <= d <= 9 -> digit_value (digit_char d) = Some d.
Proof.
  intros H.
  assert (E : d = 0 \/ d = 1 \/ d = 2 \/ d = 3 \/ d = 4 \/ d = 5 \/ d = 6
              \/ d = 7 \/ d = 8 \/ d = 9) by lia.
  repeat (destruct E as [->|E]; [reflexivity|]). subst d. reflexivity.
Qed.

(** Reading [n] digits off a zero-filled number gives its last [n]
    decimal places. *)
Lemma take_digits_zfill (n : nat) (acc v : Z) (rest : string) :
  0 <= v ->
  take_digits n acc (zfill n v ++ rest)
  = Some (acc * 10 ^ Z.of_nat n + v mod 10 ^ Z.of_nat n, rest).
Proof.
  intros Hv. revert acc. induction n as [|n IH]; intros acc.
  - simpl. rewrite Z.mod_1_r. do 2 f_equal. lia.
  - cbn [zfill take_digits append].
    assert (Hp : 0 < 10 ^ Z.of_nat n) by (apply Z.pow_pos_nonneg; lia).
    rewrite digit_value_char
      by (pose proof (Z.mod_pos_bound (v / 10 ^ Z.of_nat n) 10); lia).
    rewrite IH. do 2 f_equal.
    rewrite Nat2Z.inj_succ, Z.pow_succ_r by lia.
    rewrite (Z.mul_comm 10 (10 ^ Z.of_nat n)).
    rewrite (Z.rem_mul_r v (10 ^ Z.of_nat n) 10) by lia.
    lia.
Qed.

Lemma take_digits_zfill_exact (n : nat) (v : Z) (rest : string) :
  0 <= v < 10 ^ Z.of_nat n ->
  take_digits n 0 (zfill n v ++ rest) = Some (v, rest).
Proof.
  intros H. rewrite take_digits_zfill by lia.
  rewrite Z.mod_small by lia. reflexivity.
Qed.

Lemma append_empty (s : string) : s ++ "" = s.
Proof. induction s; simpl; congruence. Qed.

Lemma parse_offset_format (off : option Z) :
  match off with Some m => -1440 < m < 1440 | None => True end ->
  parse_offset (format_offset off) = Some off.
Proof.
  destruct off as [m|]; [|reflexivity]. intros H.
  unfold format_offset.
  assert (H60 : 0 <= Z.abs m / 60 < 10 ^ Z.of_nat 2).
  { change (10 ^ Z.of_nat 2) with 100. split.
    - apply Z.div_pos; lia.
    - apply Z.div_lt_upper_bound; lia. }
  assert (Hm : 0 <= Z.abs m mod 60 < 10 ^ Z.of_nat 2).
  { change (10 ^ Z.of_nat 2) with 100.
    pose proof (Z.mod_pos_bound (Z.abs m) 60). lia. }
  assert (Habs : 60 * (Z.abs m / 60) + Z.abs m mod 60 = Z.abs m)
    by (symmetry; apply Z.div_mod; lia).
  destruct (m <? 0) eqn:Es.
  - cbn [append parse_offset Ascii.eqb Bool.eqb orb].
    rewrite take_digits_zfill_exact by exact H60.
    cbn [append expect Ascii.eqb Bool.eqb].
    rewrite <- (append_empty (zfill 2 (Z.abs m mod 60))).
    rewrite take_digits_zfill_exact by exact Hm.
    rewrite Habs. do 2 f_equal. apply Z.ltb_lt in Es. lia.
  - cbn [append parse_offset Ascii.eqb Bool.eqb orb].
    rewrite take_digits_zfill_exact by exact H60.
    cbn [append expect Ascii.eqb Bool.eqb].
    rewrite <- (append_empty (zfill 2 (Z.abs m mod 60))).
    rewrite take_digits_zfill_exact by exact Hm.
    rewrite Habs. do 2 f_equal. apply Z.ltb_ge in Es. lia.
Qed.

Lemma parse_fraction_offset (off : option Z) :
  parse_fraction (format_offset off) = Some (0, format_offset off).
Proof.
  destruct off as [m|]; [|reflexivity].
  unfold format_offset. destruct (m <? 0); reflexivity.
Qed.

(** Parsing what [isoformat] wrote gives the value back. *)
Lemma parse_isoformat (d : datetime) :
  valid_datetime d = true -> parse_datetime (isoformat d) = Some d.
Proof.
  intros Hv. pose proof Hv as Hvalid.
  unfold valid_datetime in Hv.
  repeat (apply andb_prop in Hv; destruct Hv as [Hv ?]).
  destruct d as [y mo dd hh mi ss us off]; cbn [year month day hour minute
    second microsecond utcoffset] in *.
  assert (Hdim : days_in_month y mo <= 31).
  { unfold days_in_month. destruct ((mo =? 2) && is_leap y); [lia|].
    assert (E : mo = 1 \/ mo = 2 \/ mo = 3 \/ mo = 4 \/ mo = 5 \/ mo = 6
                \/ mo = 7 \/ mo = 8 \/ mo = 9 \/ mo = 10 \/ mo = 11 \/ mo = 12)
      by lia.
    repeat (destruct E as [->|E]; [simpl; lia|]). subst mo. simpl. lia. }
  unfold parse_datetime, isoformat;
    cbn [year month day hour minute second microsecond utcoffset].
  rewrite take_digits_zfill_exact by (change (10 ^ Z.of_nat 4) with 10000; lia).
  cbn [append expect Ascii.eqb Bool.eqb].
  rewrite take_digits_zfill_exact by (change (10 ^ Z.of_nat 2) with 100; lia).
  cbn [append expect Ascii.eqb Bool.eqb].
  rewrite take_digits_zfill_exact by (change (10 ^ Z.of_nat 2) with 100; lia).
  cbn [append expect Ascii.eqb Bool.eqb].
  rewrite take_digits_zfill_exact by (change (10 ^ Z.of_nat 2) with 100; lia).
  cbn [append expect Ascii.eqb Bool.eqb].
  rewrite take_digits_zfill_exact by (change (10 ^ Z.of_nat 2) with 100; lia).
  cbn [append expect Ascii.eqb Bool.eqb].
  rewrite take_digits_zfill_exact by (change (10 ^ Z.of_nat 2) with 100; lia).
  assert (Hoff : match off with Some m => -1440 < m < 1440 | None => True end).
  { destruct off as [m|]; [|exact I].
    match goal with
    | Ho : (_ && _) = true |- _ => apply andb_prop in Ho; destruct Ho
    end. lia. }
  destruct (us =? 0) eqn:Eus.
  - apply Z.eqb_eq in Eus. subst us.
    cbn [append]. rewrite parse_fraction_offset, parse_offset_format by exact Hoff.
    cbv zeta. rewrite Hvalid. reflexivity.
  - cbn [append parse_fraction].
    rewrite take_digits_zfill_exact
      by (change (10 ^ Z.of_nat 6) with 1000000; lia).
    rewrite parse_offset_format by exact Hoff.
    cbv zeta. rewrite Hvalid. reflexivity.
Qed.

(** ** Dicts keyed by field names *)

Lemma get_set (a b : string) (v : pyobj) (d : pydict) :
  get a (set b v d) = if String.eqb a b then Some v else get a d.
Proof.
  unfold get, set. induction d as [|[k' v'] r IH]; simpl.
  - reflexivity.
  - destruct (String.eqb_spec b k') as [->|Hb]; simpl.
    + destruct (String.eqb a k'); reflexivity.
    + rewrite IH. destruct (String.eqb_spec a k') as [->|Ha].
      * destruct (String.eqb_spec k' b) as [E|_]; [now elim Hb|reflexivity].
      * reflexivity.
Qed.

Lemma get_if_set (a b : string) (c : bool) (v : pyobj) (d : pydict) :
  get a (if c then set b v d else d)
  = if String.eqb a b then (if c then Some v else get a d) else get a d.
Proof.
  destruct c; [rewrite get_set|]; destruct (String.eqb a b); reflexivity.
Qed.

Lemma get_app (k : string) (a b : pydict) :
  get k (a ++ b)%list
  = match get k a with Some v => Some v | None => get k b end.
Proof.
  unfold get. induction a as [|[k' v'] r IH]; simpl; [reflexivity|].
  destruct (String.eqb k k'); [reflexivity|exact IH].
Qed.

Lemma del_app_absent (k : string) (a b : pydict) :
  get k a = None ->
  dict_del String.eqb k (a ++ b)%list = (a ++ dict_del String.eqb k b)%list.
Proof.
  unfold get. induction a as [|[k' v'] r IH]; simpl; [reflexivity|].
  destruct (String.eqb k k'); [discriminate|].
  intros H. now rewrite IH.
Qed.

Lemma present_app (a b : list (string * option pyobj)) :
  present (a ++ b) = (present a ++ present b)%list.
Proof.
  induction a as [|[k [v|]] r IH]; simpl; [reflexivity| |exact IH].
  now rewrite IH.
Qed.

Lemma get_present_absent (k : string) (fs : list (string * option pyobj)) :
  mem k (map fst fs) = false -> get k (present fs) = None.
Proof.
  unfold get, mem. induction fs as [|[f [v|]] r IH]; simpl; [reflexivity| |].
  - destruct (String.eqb k f); [discriminate|exact IH].
  - destruct (String.eqb k f); [discriminate|exact IH].
Qed.

(** Popping the last field of a request. *)
Lemma pop_last_field (k : string) (o : option pyobj) (default : pyobj)
    (front : list (string * option pyobj)) :
  mem k (map fst front) = false ->
  dict_pop String.eqb k default (present (front ++ [(k, o)]))
  = (match o with Some v => v | None => default end, present front).
Proof.
  intros Hk. unfold dict_pop.
  pose proof (get_present_absent k front Hk) as Hget.
  rewrite present_app.
  change (dict_get String.eqb k (present front ++ present [(k, o)])%list)
    with (get k (present front ++ present [(k, o)])%list).
  rewrite get_app, Hget.
  destruct o as [v|].
  - change (present [(k, Some v)]) with [(k, v)].
    unfold get at 1. cbn [dict_get]. rewrite String.eqb_refl.
    rewrite del_app_absent by exact Hget.
    cbn [dict_del]. rewrite String.eqb_refl.
    now rewrite app_nil_r.
  - change (present [(k, @None pyobj)]) with (@nil (string * pyobj)).
    unfold get at 1. cbn [dict_get].
    now rewrite app_nil_r.
Qed.

Lemma get_present (k : string) (fs : list (string * option pyobj)) :
  get k (present fs) = field_entry k fs.
Proof.
  unfold get. induction fs as [|[f [v|]] r IH]; simpl; [reflexivity| |].
  - destruct (String.eqb k f); [reflexivity|exact IH].
  - destruct (String.eqb k f); exact IH.
Qed.

Lemma get_merge_step (k f : string) (v : pyobj) (d : pydict) :
  get k (merge_step d (f, v)) = merge_view k (get k d) (f, Some v).
Proof.
  unfold merge_step, merge_view; cbn [fst snd].
  destruct (mem f protected_fields).
  - destruct (String.eqb k f); reflexivity.
  - destruct v; try (rewrite get_set; reflexivity).
    destruct (mem f clearable_fields).
    + rewrite get_set. reflexivity.
    + destruct (String.eqb k f); reflexivity.
Qed.

(** The loop over the items of the request, seen from one key. *)
Lemma get_merge_loop (k : string) (fs : list (string * option pyobj))
    (d : pydict) :
  get k (fold_left merge_step (present fs) d)
  = fold_left (merge_view k) fs (get k d).
Proof.
  revert d. induction fs as [|[f [v|]] r IH]; intros d;
    cbn [present fold_left].
  - reflexivity.
  - rewrite IH, get_merge_step. reflexivity.
  - rewrite IH. f_equal. unfold merge_view; cbn [fst snd].
    destruct (String.eqb k f); reflexivity.
Qed.

(** ** The models and their dicts *)

Lemma as_strs_map (l : list string) : as_strs (map PStr l) = Some l.
Proof. induction l as [|s r IH]; simpl; [reflexivity|now rewrite IH]. Qed.

Lemma as_opt_str_of (default o : option string) :
  as_opt_str default (Some (of_opt_str o)) = Some o.
Proof. destruct o; reflexivity. Qed.

(** A brief read back from its own dict. *)
Lemma brief_validate_dict (b : ProductBrief.t) :
  ProductBrief.validate (ProductBrief.dict b) = Some b.
Proof.
  destruct b. unfold ProductBrief.validate, ProductBrief.dict.
  cbn [get dict_get String.eqb Ascii.eqb Bool.eqb as_str as_str_list
       of_str_list ProductBrief.name ProductBrief.category ProductBrief.brand
       ProductBrief.tagline ProductBrief.features ProductBrief.seo_keywords
       ProductBrief.tone ProductBrief.audience ProductBrief.language
       ProductBrief.additional_notes ProductBrief.length].
  rewrite !as_opt_str_of, !as_strs_map. reflexivity.
Qed.

(** Validation reads a dict through the keys of the model only. *)
Lemma brief_validate_ext (d1 d2 : pydict) :
  (forall k, In k ProductBrief.field_names -> get k d1 = get k d2) ->
  ProductBrief.validate d1 = ProductBrief.validate d2.
Proof.
  intros H. unfold ProductBrief.validate.
  rewrite !H by (simpl; tauto). reflexivity.
Qed.

Lemma response_validate_ext (d1 d2 : pydict) :
  (forall k, In k response_field_names -> get k d1 = get k d2) ->
  ProductResponse.validate d1 = ProductResponse.validate d2.
Proof.
  intros H. unfold ProductResponse.validate.
  rewrite (brief_validate_ext d1 d2)
    by (intros k Hk; apply H; unfold response_field_names;
        apply in_or_app; now left).
  rewrite !H by (simpl; tauto). reflexivity.
Qed.

Lemma select_fields_ext (names : list string) (d1 d2 : pydict) :
  (forall k, In k names -> get k d1 = get k d2) ->
  select_fields names d1 = select_fields names d2.
Proof.
  induction names as [|f r IH]; intros H; simpl; [reflexivity|].
  rewrite (H f) by (now left). rewrite IH; [reflexivity|].
  intros k Hk. apply H. now right.
Qed.

Lemma response_dict_get_brief (p : ProductResponse.t) (k : string) :
  In k ProductBrief.field_names ->
  get k (ProductResponse.dict p) = get k (ProductBrief.dict (ProductResponse.brief p)).
Proof.
  intros H. unfold ProductResponse.dict. rewrite get_app.
  simpl in H.
  repeat (destruct H as [<-|H]; [reflexivity|]). contradiction.
Qed.

(** A product read back from its own dict. *)
Lemma response_validate_dict (p : ProductResponse.t) :
  ProductResponse.validate (ProductResponse.dict p) = Some p.
Proof.
  unfold ProductResponse.validate.
  rewrite (brief_validate_ext _ (ProductBrief.dict (ProductResponse.brief p)))
    by (apply response_dict_get_brief).
  rewrite brief_validate_dict.
  destruct p as [b i dsc c u]. reflexivity.
Qed.

(** The brief that [update_product] rebuilds from a product's dict. *)
Lemma select_brief_fields (p : ProductResponse.t) :
  select_fields ProductBrief.field_names (ProductResponse.dict p)
  = Some (ProductBrief.dict (ProductResponse.brief p)).
Proof.
  rewrite (select_fields_ext _ _ (ProductBrief.dict (ProductResponse.brief p)))
    by (apply response_dict_get_brief).
  reflexivity.
Qed.

(** ** The merge of [update_product] *)

Ltac split_sent :=
  repeat match goal with
         | |- context [match ?x with Omitted => _ | Given _ => _ end] =>
             destruct x as [|[?|]]
         end.

(** Key by key, the payload the loop leaves is the dict of the product
    merged field by field. *)
Lemma merged_payload_get (existing : ProductResponse.t)
    (r : ProductUpdateRequest.t) (k : string) :
  In k response_field_names ->
  get k (merged_payload existing r)
  = get k (ProductResponse.dict
             (updated_product existing r
                (merge_required (ProductUpdateRequest.description r)
                   (ProductResponse.description existing))
                (ProductResponse.updated_at existing))).
Proof.
  intros Hk. simpl in Hk.
  destruct existing as [b i dsc c u]; destruct b; destruct r.
  repeat (destruct Hk as [<-|Hk];
    [ unfold merged_payload, given_null;
      rewrite !get_if_set, !get_present, get_merge_loop;
      cbv; split_sent; reflexivity | ]).
  contradiction.
Qed.

Lemma final_payload_validate (existing : ProductResponse.t)
    (r : ProductUpdateRequest.t) (d : string) (now : datetime) :
  ProductResponse.validate
    (set "updated_at" (PDatetime now)
       (set "description" (PStr d) (merged_payload existing r)))
  = Some (updated_product existing r d now).
Proof.
  rewrite <- response_validate_dict.
  apply response_validate_ext. intros k Hk.
  rewrite !get_set.
  pose proof (merged_payload_get existing r k Hk) as E.
  simpl in Hk.
  repeat (destruct Hk as [<-|Hk];
    [ cbn [String.eqb Ascii.eqb Bool.eqb]; try rewrite E; reflexivity | ]).
  contradiction.
Qed.

Lemma truthy_regenerate_object (r : ProductUpdateRequest.t) :
  truthy (regenerate_object r) = regenerate_flag r.
Proof.
  unfold regenerate_object, regenerate_flag.
  destruct (ProductUpdateRequest.regenerate_description r) as [|[b|]];
    reflexivity.
Qed.

Lemma merged_payload_brief (existing : ProductResponse.t)
    (r : ProductUpdateRequest.t) :
  select_fields ProductBrief.field_names (merged_payload existing r)
  = Some (ProductBrief.dict (merged_brief (ProductResponse.brief existing) r)).
Proof.
  rewrite (select_fields_ext _ _
             (ProductResponse.dict
                (updated_product existing r
                   (merge_required (ProductUpdateRequest.description r)
                      (ProductResponse.description existing))
                   (ProductResponse.updated_at existing)))).
  - apply select_brief_fields.
  - intros k Hk. apply merged_payload_get. unfold response_field_names.
    apply in_or_app. now left.
Qed.

Section UpdateReading.
Variable env : environment.

(** The description step of [update_product] is the three-way choice. *)
Lemma resolve_description_reading (existing : ProductResponse.t)
    (r : ProductUpdateRequest.t) :
  resolve_description env (present (data_fields r)) (regenerate_object r)
    (merged_payload existing r)
  = resolved_description env existing r.
Proof.
  unfold resolve_description, resolved_description.
  rewrite truthy_regenerate_object, merged_payload_brief, brief_validate_dict.
  rewrite (merged_payload_get existing r "description")
    by (simpl; tauto).
  rewrite get_present.
  destruct r; cbn.
  match goal with
  | |- context [sent_obj PStr ?x] => destruct x as [|[d|]]
  end; reflexivity.
Qed.

(** [update_product] on a product that validates is the record-level
    reading of the update. *)
Lemma update_product_reading (product_id : string)
    (r : ProductUpdateRequest.t) (now : datetime)
    (existing : ProductResponse.t) (w : world) :
  get_product_or_404 product_id w = (Ok existing, w) ->
  update_product env product_id r now w
  = update_reading env product_id existing r now w.
Proof.
  intros Hget. unfold update_product, update_reading.
  unfold bind at 1. rewrite Hget.
  unfold ProductUpdateRequest.dict_exclude_unset.
  change (ProductUpdateRequest.fields r)
    with (data_fields r
            ++ [("regenerate_description",
                 sent_obj PBool (ProductUpdateRequest.regenerate_description r))])%list.
  rewrite pop_last_field by reflexivity.
  fold (regenerate_object r). fold (merged_payload existing r).
  rewrite resolve_description_reading.
  unfold bind at 1. unfold bind at 4.
  destruct (resolved_description env existing r w) as [[d|e] w1];
    [|reflexivity].
  rewrite final_payload_validate. reflexivity.
Qed.

End UpdateReading.

(** ** The prompt builder *)

Lemma max_tokens_budget (b : ProductBrief.t) :
  snd (build_generation_prompt b) = token_budget (ProductBrief.length b).
Proof.
  unfold build_generation_prompt, token_budget. cbv zeta. cbn [snd].
  destruct (ProductBrief.length b) as [l|]; [|reflexivity].
  unfold or_default. destruct l as [|c l]; [reflexivity|].
  cbn [nonempty length_profiles dict_get].
  destruct (String.eqb (String c l) "short"); [reflexivity|].
  destruct (String.eqb (String c l) "standard"); [reflexivity|].
  destruct (String.eqb (String c l) "detailed"); reflexivity.
Qed.

(** C8. The prompt builder is a function of the brief alone (equal
    briefs give equal prompt text and token budget), and its budget is
    320 for length "short", 520 for "standard", 780 for "detailed" and
    780 again for a missing or any other length: always one of the
    three. *)
Theorem prompt_builder_budget (b : ProductBrief.t) :
  (forall b', b' = b -> build_generation_prompt b' = build_generation_prompt b)
  /\ (ProductBrief.length b = Some "short" ->
      snd (build_generation_prompt b) = 320)
  /\ (ProductBrief.length b = Some "standard" ->
      snd (build_generation_prompt b) = 520)
  /\ (ProductBrief.length b = Some "detailed" ->
      snd (build_generation_prompt b) = 780)
  /\ (ProductBrief.length b <> Some "short" ->
      ProductBrief.length b <> Some "standard" ->
      snd (build_generation_prompt b) = 780)
  /\ In (snd (build_generation_prompt b)) [320; 520; 780].
Proof.
  rewrite max_tokens_budget. unfold token_budget.
  split; [intros b' ->; reflexivity|].
  split; [intros ->; reflexivity|].
  split; [intros ->; reflexivity|].
  split; [intros ->; reflexivity|].
  destruct (ProductBrief.length b) as [l|].
  - destruct (String.eqb_spec l "short") as [->|Hs].
    + split; [intros H; now elim H|simpl; tauto].
    + destruct (String.eqb_spec l "standard") as [->|Hd].
      * split; [intros _ H; now elim H|simpl; tauto].
      * split; [reflexivity|simpl; tauto].
  - split; [reflexivity|simpl; tauto].
Qed.

Lemma prompt_builder_budget_witness :
  ProductBrief.length brief_poetic <> Some "short"
  /\ ProductBrief.length brief_poetic <> Some "standard"
  /\ snd (build_generation_prompt brief_poetic) = 780.
Proof.
  assert (H1 : ProductBrief.length brief_poetic <> Some "short") by discriminate.
  assert (H2 : ProductBrief.length brief_poetic <> Some "standard") by discriminate.
  split; [exact H1|split; [exact H2|]].
  exact (proj1 (proj2 (proj2 (proj2 (proj2 (prompt_builder_budget brief_poetic)))))
           H1 H2).
Defined.

(** ** The generation client *)

Ltac unfold_monad :=
  unfold generate_product_description, get_writer_client, chat_completion,
    try_except, bind, ret, raise, log_generate, log_chat, set_writer_client,
    set_products_db, set_data_file, store_product, validated in *.

Section GenerationFacts.
Variable env : environment.

(** A call of the generation client leaves the product map and the
    snapshot file alone and logs exactly its own brief. *)
Lemma generate_frame (brief : ProductBrief.t) (w : world) :
  let w' := snd (generate_product_description env brief w) in
  products_db w' = products_db w
  /\ data_file w' = data_file w
  /\ generate_calls w' = (generate_calls w ++ [brief])%list.
Proof.
  unfold_monad. cbn [writer_client chat_calls].
  destruct (build_generation_prompt brief) as [prompt max_tokens].
  destruct (writer_client w) as [client|];
    [|destruct (WRITER_API_KEY env) as [api_key|];
      [destruct (nonempty api_key)|]];
    try (repeat split; reflexivity);
    cbn [chat_calls];
    (destruct (chat env (List.length (chat_calls w)) prompt max_tokens)
       as [content|message];
     [ destruct (nonempty (strip content)); repeat split; reflexivity
     | destruct (contains "api_key" (lower message));
       [repeat split; reflexivity|];
       destruct (contains "rate limit" (lower message));
       repeat split; reflexivity ]).
Qed.

(** The result of a call, case by case. *)
Lemma generate_result (brief : ProductBrief.t) (w : world) :
  fst (generate_product_description env brief w)
  = match credential env w with
    | None =>
        Raise (HTTPException 503
          "Writer API key not configured. Set WRITER_API_KEY to enable generation.")
    | Some _ =>
        match provider_answer env brief w with
        | Completion content =>
            if nonempty (strip content) then Ok (strip content)
            else Raise (HTTPException 500
                   "Error generating description: Received empty description from Writer API")
        | ChatError message =>
            if contains "api_key" (lower message) then
              Raise (HTTPException 401 "Invalid Writer API key provided.")
            else if contains "rate limit" (lower message) then
              Raise (HTTPException 429
                       "Writer API rate limit exceeded. Please retry shortly.")
            else
              Raise (HTTPException 500
                       ("Error generating description: " ++ message))
        end
    end.
Proof.
  unfold credential, provider_answer. unfold_monad. cbn [writer_client].
  destruct (build_generation_prompt brief) as [prompt max_tokens].
  cbn [fst snd].
  destruct (writer_client w) as [client|].
  - cbn [chat_calls].
    destruct (chat env (List.length (chat_calls w)) prompt max_tokens)
      as [content|message]; cbn [fst].
    + destruct (nonempty (strip content)); reflexivity.
    + destruct (contains "api_key" (lower message)); [reflexivity|].
      destruct (contains "rate limit" (lower message)); reflexivity.
  - destruct (WRITER_API_KEY env) as [api_key|]; [|reflexivity].
    destruct (nonempty api_key); [|reflexivity].
    cbn [chat_calls].
    destruct (chat env (List.length (chat_calls w)) prompt max_tokens)
      as [content|message]; cbn [fst].
    + destruct (nonempty (strip content)); reflexivity.
    + destruct (contains "api_key" (lower message)); [reflexivity|].
      destruct (contains "rate limit" (lower message)); reflexivity.
Qed.

(** The provider is asked only once a credential is there. *)
Lemma generate_without_credential (brief : ProductBrief.t) (w : world) :
  credential env w = None ->
  chat_calls (snd (generate_product_description env brief w)) = chat_calls w.
Proof.
  unfold credential. unfold_monad. cbn [writer_client].
  destruct (build_generation_prompt brief) as [prompt max_tokens].
  destruct (writer_client w) as [client|]; [discriminate|].
  destruct (WRITER_API_KEY env) as [api_key|]; [|reflexivity].
  destruct (nonempty api_key); [discriminate|reflexivity].
Qed.

(** What the generation client raises is an [HTTPException] with one of
    four status codes. *)
Lemma generate_raises (brief : ProductBrief.t) (w : world) (e : exn) :
  fst (generate_product_description env brief w) = Raise e ->
  exists status detail,
    e = HTTPException status detail /\ In status [401; 429; 500; 503].
Proof.
  rewrite generate_result.
  destruct (credential env w).
  - destruct (provider_answer env brief w) as [content|message].
    + destruct (nonempty (strip content)); [discriminate|].
      intros [= <-]. do 2 eexists. split; [reflexivity|simpl; tauto].
    + destruct (contains "api_key" (lower message));
        [intros [= <-]; do 2 eexists; split; [reflexivity|simpl; tauto]|].
      destruct (contains "rate limit" (lower message));
        intros [= <-]; do 2 eexists; (split; [reflexivity|simpl; tauto]).
  - intros [= <-]. do 2 eexists. split; [reflexivity|simpl; tauto].
Qed.

(** What the generation client returns is trimmed and not empty. *)
Lemma generate_returns (brief : ProductBrief.t) (w : world) (d : string) :
  fst (generate_product_description env brief w) = Ok d ->
  nonempty d = true /\ strip d = d.
Proof.
  rewrite generate_result.
  destruct (credential env w); [|discriminate].
  destruct (provider_answer env brief w) as [content|message].
  - destruct (nonempty (strip content)) eqn:E; [|discriminate].
    intros [= <-]. split; [exact E|apply strip_idempotent].
  - destruct (contains "api_key" (lower message)); [discriminate|].
    destruct (contains "rate limit" (lower message)); discriminate.
Qed.

End GenerationFacts.

(** C7. Failures of the generation client by kind. With no client built
    and the credential unset or empty, the call raises 503 and the
    provider is not asked. With a credential, a provider failure is read
    through its message, letter case ignored: "api_key" in it gives 401;
    else "rate limit" in it gives 429; else 500 carrying the message. A
    completion that is blank once trimmed gives 500; any other completion
    is returned trimmed. *)
Theorem generation_error_classification (env : environment)
    (brief : ProductBrief.t) (w : world) :
  let result := fst (generate_product_description env brief w) in
  (writer_client w = None ->
   WRITER_API_KEY env = None \/ WRITER_API_KEY env = Some "" ->
   http_status result = Some 503
   /\ chat_calls (snd (generate_product_description env brief w)) = chat_calls w)
  /\ (credential env w <> None ->
      (forall message,
         provider_answer env brief w = ChatError message ->
         (occurs_ignoring_case "api_key" message ->
          http_status result = Some 401)
         /\ (~ occurs_ignoring_case "api_key" message ->
             occurs_ignoring_case "rate limit" message ->
             http_status result = Some 429)
         /\ (~ occurs_ignoring_case "api_key" message ->
             ~ occurs_ignoring_case "rate limit" message ->
             result = Raise (HTTPException 500
                               ("Error generating description: " ++ message))))
      /\ (forall content,
            provider_answer env brief w = Completion content ->
            (strip content = "" -> http_status result = Some 500)
            /\ (strip content <> "" -> result = Ok (strip content)))).
Proof.
  intros result. subst result. rewrite generate_result. split.
  - intros Hc Hk.
    assert (Hcred : credential env w = None).
    { unfold credential. rewrite Hc. destruct Hk as [-> | ->]; reflexivity. }
    rewrite Hcred. split; [reflexivity|].
    now apply generate_without_credential.
  - intros Hcred. destruct (credential env w) as [client|]; [|now elim Hcred].
    split.
    + intros message ->.
      rewrite <- !contains_lower by reflexivity.
      destruct (contains "api_key" (lower message)).
      * split; [reflexivity|]. split; intros H; now elim H.
      * split; [discriminate|].
        destruct (contains "rate limit" (lower message)).
        -- split; [reflexivity|]. intros _ H. now elim H.
        -- split; [discriminate|reflexivity].
    + intros content ->. split.
      * intros ->. reflexivity.
      * intros H. apply nonempty_true in H. now rewrite H.
Qed.

(** ** Saving *)

Lemma to_json_list (l : list pyobj) :
  to_json (PList l) = option_map JArr (list_to_json l).
Proof.
  induction l as [|x r IH]; [reflexivity|].
  cbn [to_json list_to_json] in *.
  assert (E : forall a b : option (list json),
             option_map JArr a = option_map JArr b -> a = b).
  { intros [a|] [b|]; simpl; congruence. }
  apply E in IH. rewrite IH. reflexivity.
Qed.

Lemma to_json_dict (d : list (string * pyobj)) :
  to_json (PDict d) = option_map JObj (fields_to_json d).
Proof.
  induction d as [|[k x] r IH]; [reflexivity|].
  cbn [to_json fields_to_json] in *.
  assert (E : forall a b : option (list (string * json)),
             option_map JObj a = option_map JObj b -> a = b).
  { intros [a|] [b|]; simpl; congruence. }
  apply E in IH. rewrite IH. reflexivity.
Qed.

Lemma list_to_json_strings (l : list string) :
  list_to_json (map PStr l) = Some (map JStr l).
Proof. induction l as [|s r IH]; simpl; [reflexivity|now rewrite IH]. Qed.

Lemma to_json_opt_str (o : option string) :
  to_json (of_opt_str o)
  = Some (match o with Some s => JStr s | None => JNull end).
Proof. destruct o; reflexivity. Qed.

Lemma to_json_str_list (l : list string) :
  to_json (of_str_list l) = Some (JArr (map JStr l)).
Proof.
  unfold of_str_list. now rewrite to_json_list, list_to_json_strings.
Qed.

(** [save_products] leaves a serialized product as it is and writes it
    as its JSON object. *)
Lemma save_entry_serialized (p : ProductResponse.t) :
  save_entry (serialize_product p) = serialize_product p.
Proof. destruct p as [b i d c u]; destruct b; reflexivity. Qed.

Lemma entry_json_serialized (p : ProductResponse.t) :
  entry_json (serialize_product p) = Some (product_json p).
Proof.
  unfold entry_json. rewrite save_entry_serialized, to_json_dict.
  destruct p as [b i d c u]; destruct b.
  unfold serialize_product, ProductResponse.dict, ProductBrief.dict.
  cbn [ProductResponse.brief ProductResponse.id ProductResponse.description
       ProductResponse.created_at ProductResponse.updated_at
       ProductBrief.name ProductBrief.category ProductBrief.brand
       ProductBrief.tagline ProductBrief.features ProductBrief.seo_keywords
       ProductBrief.tone ProductBrief.audience ProductBrief.language
       ProductBrief.additional_notes ProductBrief.length
       app set dict_set String.eqb Ascii.eqb Bool.eqb fields_to_json].
  rewrite !to_json_opt_str, !to_json_str_list. reflexivity.
Qed.

Section StoreFacts.
Variable env : environment.

Lemma save_products_result (db : dict pykey pydict) (w : world) :
  save_products env db w
  = if writable env then
      match snapshot_of db with
      | Some j =>
          (Ok tt, mk_world (products_db w) (Holds j) (writer_client w)
                    (generate_calls w) (chat_calls w))
      | None =>
          (Raise (Exception "TypeError" "Object is not JSON serializable"),
           mk_world (products_db w) NotJson (writer_client w)
             (generate_calls w) (chat_calls w))
      end
    else (Raise (Exception "OSError" "cannot open the data file for writing"), w).
Proof.
  unfold save_products, snapshot_of.
  destruct (writable env); [|reflexivity].
  destruct (to_json _); reflexivity.
Qed.

Lemma snapshot_serializable (db : dict pykey pydict) :
  serializable db = true -> exists js, snapshot_of db = Some (JArr js).
Proof.
  unfold serializable, snapshot_of. rewrite to_json_list.
  induction (dict_values db) as [|e r IH]; cbn [map forallb list_to_json].
  - intros _. now exists [].
  - unfold entry_json. destruct (to_json (PDict (save_entry e))) as [j|];
      [|discriminate].
    intros H. destruct (IH H) as [js Hjs].
    destruct (list_to_json (map PDict (map save_entry r))) as [l|];
      [|discriminate].
    now exists (j :: l).
Qed.

Lemma serializable_set (k : pykey) (e : pydict) (db : dict pykey pydict) :
  entry_json e <> None -> serializable db = true ->
  serializable (dict_set key_eqb k e db) = true.
Proof.
  intros He. unfold serializable, dict_values.
  induction db as [|[k' e'] r IH]; cbn [dict_set map snd forallb].
  - intros _. destruct (entry_json e); [reflexivity|now elim He].
  - destruct (entry_json e') eqn:E'; [|discriminate].
    cbn [andb]. intros H.
    destruct (key_eqb k k'); cbn [map snd forallb].
    + destruct (entry_json e); [exact H|now elim He].
    + rewrite E'. cbn [andb]. now apply IH.
Qed.

(** The closing statements, step by step: the map is updated first; the
    product is returned exactly when saving succeeds. *)
Lemma persist_result (product_id : string) (p : ProductResponse.t) (w : world) :
  let db := dict_set key_eqb (KStr product_id) (serialize_product p)
              (products_db w) in
  persist env product_id p w
  = if writable env then
      match snapshot_of db with
      | Some j =>
          (Ok p, mk_world db (Holds j) (writer_client w)
                   (generate_calls w) (chat_calls w))
      | None =>
          (Raise (Exception "TypeError" "Object is not JSON serializable"),
           mk_world db NotJson (writer_client w)
             (generate_calls w) (chat_calls w))
      end
    else
      (Raise (Exception "OSError" "cannot open the data file for writing"),
       mk_world db (data_file w) (writer_client w)
         (generate_calls w) (chat_calls w)).
Proof.
  intros db. unfold persist, store_product, set_products_db, bind, ret.
  rewrite save_products_result. cbn [products_db data_file writer_client
    generate_calls chat_calls]. fold db.
  destruct (writable env); [|reflexivity].
  destruct (snapshot_of db); reflexivity.
Qed.

Lemma persist_frame (product_id : string) (p : ProductResponse.t) (w : world) :
  let w' := snd (persist env product_id p w) in
  products_db w'
  = dict_set key_eqb (KStr product_id) (serialize_product p) (products_db w)
  /\ generate_calls w' = generate_calls w
  /\ chat_calls w' = chat_calls w.
Proof.
  cbv zeta. rewrite persist_result.
  destruct (writable env); [destruct (snapshot_of _)|];
    repeat split; reflexivity.
Qed.

Lemma persist_returns (product_id : string) (p q : ProductResponse.t)
    (w : world) :
  fst (persist env product_id p w) = Ok q -> q = p.
Proof.
  rewrite persist_result.
  destruct (writable env); [|discriminate].
  destruct (snapshot_of _); [|discriminate].
  now intros [= ->].
Qed.

Lemma persist_raises (product_id : string) (p : ProductResponse.t)
    (w : world) (e : exn) :
  fst (persist env product_id p w) = Raise e ->
  exists kind message, e = Exception kind message.
Proof.
  rewrite persist_result.
  destruct (writable env).
  - destruct (snapshot_of _); [discriminate|].
    intros [= <-]. now do 2 eexists.
  - intros [= <-]. now do 2 eexists.
Qed.

(** With a writable file and a product map that can be written as JSON,
    the closing statements succeed. *)
Lemma persist_succeeds (product_id : string) (p : ProductResponse.t)
    (w : world) :
  writable env = true -> serializable (products_db w) = true ->
  fst (persist env product_id p w) = Ok p.
Proof.
  intros Hw Hs. rewrite persist_result, Hw.
  destruct (snapshot_serializable
              (dict_set key_eqb (KStr product_id) (serialize_product p)
                 (products_db w))) as [js Hjs].
  - apply serializable_set; [|exact Hs].
    rewrite entry_json_serialized. discriminate.
  - now rewrite Hjs.
Qed.

Lemma get_product_or_404_state (product_id : string) (w : world) :
  snd (get_product_or_404 product_id w) = w.
Proof.
  unfold get_product_or_404, validated, raise, ret.
  destruct (dict_get key_eqb (KStr product_id) (products_db w)) as [product|];
    [|reflexivity].
  destruct (truthy (PDict product)); [|reflexivity].
  destruct (ProductResponse.validate product); reflexivity.
Qed.

(** [create_product] when it has to generate: the client is called on
    the state as it is, and only a returned text goes on to be stored. *)
Lemma create_product_generating (request : ProductCreateRequest.t)
    (now : datetime) (product_id : string) (w : world) :
  needs_generation request = true ->
  create_product env request now product_id w
  = match generate_product_description env
            (ProductCreateRequest.brief request) w with
    | (Ok d, w1) =>
        persist env product_id (created_product request d now product_id) w1
    | (Raise e, w1) => (Raise e, w1)
    end.
Proof.
  unfold needs_generation, create_product. intros ->.
  unfold bind at 1. unfold bind at 1.
  destruct (generate_product_description env _ w) as [[d|e] w1];
    reflexivity.
Qed.

(** [create_product] with a description of its own: no call is made. *)
Lemma create_product_explicit (request : ProductCreateRequest.t)
    (now : datetime) (product_id : string) (w : world) :
  needs_generation request = false ->
  exists d,
    ProductCreateRequest.description request = Some d
    /\ nonempty (strip d) = true
    /\ create_product env request now product_id w
       = persist env product_id (created_product request d now product_id) w.
Proof.
  unfold needs_generation, create_product. intros H. rewrite H.
  apply orb_false_elim in H. destruct H as [_ H].
  apply negb_false_iff in H. unfold has_text in H.
  destruct (ProductCreateRequest.description request) as [d|]; [|discriminate].
  apply andb_prop in H. destruct H as [_ H].
  exists d. split; [reflexivity|]. split; [exact H|]. reflexivity.
Qed.

End StoreFacts.

(** ** The product map *)

Lemma key_eqb_refl (k : pykey) : key_eqb k k = true.
Proof.
  destruct k; simpl; [reflexivity|apply Z.eqb_refl|apply String.eqb_refl].
Qed.

Lemma db_get_set_same (k : pykey) (v : pydict) (db : dict pykey pydict) :
  dict_get key_eqb k (dict_set key_eqb k v db) = Some v.
Proof.
  induction db as [|[k' v'] r IH]; cbn [dict_set dict_get].
  - now rewrite key_eqb_refl.
  - destruct (key_eqb k k') eqn:E; cbn [dict_get]; rewrite E; [reflexivity|exact IH].
Qed.

Lemma description_of_serialized (p : ProductResponse.t) :
  description_of (serialize_product p) = Some (ProductResponse.description p).
Proof. destruct p as [b i d c u]; destruct b; reflexivity. Qed.

Lemma stored_description_set (db : dict pykey pydict) (product_id : string)
    (p : ProductResponse.t) :
  stored_description
    (dict_set key_eqb (KStr product_id) (serialize_product p) db) product_id
  = Some (ProductResponse.description p).
Proof.
  unfold stored_description.
  now rewrite db_get_set_same, description_of_serialized.
Qed.

(** ** [update_product], case by case *)

Section UpdateCases.
Variable env : environment.
Variables (product_id : string) (r : ProductUpdateRequest.t) (now : datetime).
Variables (existing : ProductResponse.t) (w : world).
Hypothesis Hexisting : get_product_or_404 product_id w = (Ok existing, w).

Lemma update_with_description (d : string) :
  ProductUpdateRequest.description r = Given (Some d) ->
  update_product env product_id r now w
  = persist env product_id (updated_product existing r (strip d) now) w.
Proof.
  intros Hd. rewrite (update_product_reading env _ _ _ existing) by exact Hexisting.
  unfold update_reading, resolved_description. rewrite Hd. reflexivity.
Qed.

Lemma update_keeping_description :
  no_description r -> regenerate_flag r = false ->
  update_product env product_id r now w
  = persist env product_id
      (updated_product existing r
         (strip (ProductResponse.description existing)) now) w.
Proof.
  intros Hd Hf. rewrite (update_product_reading env _ _ _ existing) by exact Hexisting.
  unfold update_reading, resolved_description. rewrite Hf.
  destruct Hd as [-> | ->]; reflexivity.
Qed.

Lemma update_regenerating :
  no_description r -> regenerate_flag r = true ->
  update_product env product_id r now w
  = match generate_product_description env
            (merged_brief (ProductResponse.brief existing) r) w with
    | (Ok d, w1) =>
        persist env product_id (updated_product existing r d now) w1
    | (Raise e, w1) => (Raise e, w1)
    end.
Proof.
  intros Hd Hf. rewrite (update_product_reading env _ _ _ existing) by exact Hexisting.
  unfold update_reading, resolved_description. rewrite Hf.
  unfold bind.
  destruct Hd as [-> | ->];
    destruct (generate_product_description env _ w) as [[d|e] w1]; reflexivity.
Qed.

(** Whatever the request, a returned product is the stored one merged
    with the request, around some description. *)
Lemma update_returns (p : ProductResponse.t) :
  fst (update_product env product_id r now w) = Ok p ->
  exists d, p = updated_product existing r d now.
Proof.
  rewrite (update_product_reading env _ _ _ existing) by exact Hexisting.
  unfold update_reading, bind.
  destruct (resolved_description env existing r w) as [[d|e] w1];
    [|discriminate].
  intros H. apply persist_returns in H. now exists d.
Qed.

End UpdateCases.

(** ** Claims on [create_product] *)

Lemma has_text_false (description : option string) :
  description = None \/ (exists d, description = Some d /\ strip d = "") ->
  has_text description = false.
Proof.
  intros [-> | (d & -> & Hd)]; [reflexivity|].
  unfold has_text. rewrite Hd. apply andb_false_r.
Qed.

Lemma has_text_true (d : string) :
  strip d <> "" -> has_text (Some d) = true.
Proof.
  intros H. unfold has_text.
  assert (Hs : nonempty (strip d) = true) by now apply nonempty_true.
  rewrite Hs. destruct d; [now elim H|reflexivity].
Qed.

Lemma create_generating_calls (env : environment)
    (request : ProductCreateRequest.t) (now : datetime) (product_id : string)
    (w : world) :
  needs_generation request = true ->
  generate_calls (snd (create_product env request now product_id w))
  = (generate_calls w ++ [ProductCreateRequest.brief request])%list.
Proof.
  intros H. rewrite create_product_generating by exact H.
  pose proof (generate_frame env (ProductCreateRequest.brief request) w)
    as (_ & _ & Hg).
  destruct (generate_product_description env _ w) as [[d|e] w1];
    cbn [snd] in *; [|exact Hg].
  destruct (persist_frame env product_id
              (created_product request d now product_id) w1) as (_ & Hp & _).
  now rewrite Hp.
Qed.

(** C4. [create_product] and the generation client. With [auto_generate]
    true the client is called, once and with the brief of the request,
    whatever description came along. With [auto_generate] false and a
    description that is not blank once trimmed, neither the client nor
    the provider is called, the record filed under the new id holds the
    trimmed description, a returned product has it, and the call returns
    whenever the file is writable and the map serializable. With
    [auto_generate] false and a description that is absent or blank once
    trimmed, the client is called. *)
Theorem create_generation_rule (env : environment)
    (request : ProductCreateRequest.t) (now : datetime) (product_id : string)
    (w : world) :
  let run := create_product env request now product_id w in
  let brief := ProductCreateRequest.brief request in
  (ProductCreateRequest.auto_generate request = true ->
   generate_calls (snd run) = (generate_calls w ++ [brief])%list)
  /\ (ProductCreateRequest.auto_generate request = false ->
      forall d,
        ProductCreateRequest.description request = Some d ->
        strip d <> "" ->
        generate_calls (snd run) = generate_calls w
        /\ chat_calls (snd run) = chat_calls w
        /\ stored_description (products_db (snd run)) product_id
           = Some (strip d)
        /\ (forall p, fst run = Ok p -> ProductResponse.description p = strip d)
        /\ (writable env = true -> serializable (products_db w) = true ->
            fst run = Ok (created_product request d now product_id)))
  /\ (ProductCreateRequest.auto_generate request = false ->
      ProductCreateRequest.description request = None
      \/ (exists d, ProductCreateRequest.description request = Some d
                    /\ strip d = "") ->
      generate_calls (snd run) = (generate_calls w ++ [brief])%list).
Proof.
  cbv zeta. split; [|split].
  - intros Ha. apply create_generating_calls.
    unfold needs_generation. now rewrite Ha.
  - intros Ha d Hd Hne.
    destruct (create_product_explicit env request now product_id w)
      as (d' & Hd' & _ & Hrun).
    { unfold needs_generation. rewrite Ha, Hd, has_text_true by exact Hne.
      reflexivity. }
    rewrite Hd in Hd'. injection Hd' as <-. rewrite Hrun.
    destruct (persist_frame env product_id
                (created_product request d now product_id) w)
      as (Hdb & Hg & Hc).
    repeat split.
    + exact Hg.
    + exact Hc.
    + rewrite Hdb. apply stored_description_set.
    + intros p Hp. apply persist_returns in Hp. now subst p.
    + intros Hw Hs. now apply persist_succeeds.
  - intros Ha Hblank. apply create_generating_calls.
    unfold needs_generation. rewrite Ha, has_text_false by exact Hblank.
    reflexivity.
Qed.

Lemma create_generation_rule_witness :
  ProductCreateRequest.auto_generate request_lamp = false
  /\ ProductCreateRequest.description request_lamp = Some "Bright light."
  /\ strip "Bright light." <> ""
  /\ generate_calls
       (snd (create_product env_writing request_lamp noon "p1" world_empty))
     = generate_calls world_empty
  /\ stored_description
       (products_db
          (snd (create_product env_writing request_lamp noon "p1" world_empty)))
       "p1"
     = Some (strip "Bright light.").
Proof.
  assert (Hne : strip "Bright light." <> "") by (vm_compute; discriminate).
  pose proof (proj1 (proj2 (create_generation_rule env_writing request_lamp
                               noon "p1" world_empty))
                eq_refl "Bright light." eq_refl Hne) as (Hg & _ & Hs & _).
  split; [reflexivity|]. split; [reflexivity|]. split; [exact Hne|].
  split; [exact Hg|exact Hs].
Defined.

(** ** Claims on the generation step *)

(** C10. A failing generation call leaves the product map and the
    snapshot file as they were. In [create_product], when the client has
    to be called and its call raises, the operation raises the same
    exception; in [update_product] on a product that is there, with no
    description given and the regeneration flag set, likewise. In both
    the map and the file of the resulting state are those of the state
    before. *)
Theorem generation_failure_atomic (env : environment) :
  (forall request now product_id w e,
     needs_generation request = true ->
     fst (generate_product_description env
            (ProductCreateRequest.brief request) w) = Raise e ->
     let run := create_product env request now product_id w in
     fst run = Raise e
     /\ products_db (snd run) = products_db w
     /\ data_file (snd run) = data_file w)
  /\ (forall product_id r now w existing e,
        get_product_or_404 product_id w = (Ok existing, w) ->
        no_description r ->
        regenerate_flag r = true ->
        fst (generate_product_description env
               (merged_brief (ProductResponse.brief existing) r) w) = Raise e ->
        let run := update_product env product_id r now w in
        fst run = Raise e
        /\ products_db (snd run) = products_db w
        /\ data_file (snd run) = data_file w).
Proof.
  split.
  - intros request now product_id w e Hneed Hgen. cbv zeta.
    rewrite create_product_generating by exact Hneed.
    pose proof (generate_frame env (ProductCreateRequest.brief request) w)
      as (Hdb & Hfile & _).
    destruct (generate_product_description env _ w) as [[d|e'] w1];
      cbn [fst snd] in *; [discriminate|].
    injection Hgen as ->. auto.
  - intros product_id r now w existing e Hex Hnd Hflag Hgen. cbv zeta.
    rewrite (update_regenerating env product_id r now existing w Hex Hnd Hflag).
    pose proof (generate_frame env
                  (merged_brief (ProductResponse.brief existing) r) w)
      as (Hdb & Hfile & _).
    destruct (generate_product_description env _ w) as [[d|e'] w1];
      cbn [fst snd] in *; [discriminate|].
    injection Hgen as ->. auto.
Qed.

Lemma generation_failure_atomic_witness :
  needs_generation request_lamp_auto = true
  /\ fst (generate_product_description env_rejecting
            (ProductCreateRequest.brief request_lamp_auto) world_empty)
     = Raise (HTTPException 401 "Invalid Writer API key provided.")
  /\ fst (create_product env_rejecting request_lamp_auto noon "p1" world_empty)
     = Raise (HTTPException 401 "Invalid Writer API key provided.")
  /\ products_db
       (snd (create_product env_rejecting request_lamp_auto noon "p1"
               world_empty))
     = products_db world_empty
  /\ data_file
       (snd (create_product env_rejecting request_lamp_auto noon "p1"
               world_empty))
     = data_file world_empty.
Proof.
  assert (Hneed : needs_generation request_lamp_auto = true) by reflexivity.
  assert (Hgen : fst (generate_product_description env_rejecting
                        (ProductCreateRequest.brief request_lamp_auto)
                        world_empty)
                 = Raise (HTTPException 401 "Invalid Writer API key provided."))
    by (vm_compute; reflexivity).
  split; [exact Hneed|]. split; [exact Hgen|].
  exact (proj1 (generation_failure_atomic env_rejecting)
           request_lamp_auto noon "p1" world_empty _ Hneed Hgen).
Defined.

(** ** Claims on [update_product] *)

Section UpdateClaims.
Variable env : environment.
Variables (product_id : string) (r : ProductUpdateRequest.t) (now : datetime).
Variables (existing : ProductResponse.t) (w : world).
Hypothesis Hexisting : get_product_or_404 product_id w = (Ok existing, w).

(** The record an update files is the serialized returned product. *)
Lemma update_stores (p : ProductResponse.t) :
  fst (update_product env product_id r now w) = Ok p ->
  dict_get key_eqb (KStr product_id)
    (products_db (snd (update_product env product_id r now w)))
  = Some (serialize_product p).
Proof.
  rewrite (update_product_reading env _ _ _ existing) by exact Hexisting.
  unfold update_reading, bind.
  destruct (resolved_description env existing r w) as [[d|e] w1];
    [|discriminate].
  intros H. pose proof (persist_returns _ _ _ _ _ H) as ->.
  destruct (persist_frame env product_id (updated_product existing r d now) w1)
    as (Hdb & _ & _).
  rewrite Hdb. apply db_get_set_same.
Qed.

(** An update that needs no generation returns when the file is
    writable and the map serializable. *)
Lemma update_succeeds :
  writable env = true -> serializable (products_db w) = true ->
  (exists d, ProductUpdateRequest.description r = Given (Some d))
  \/ regenerate_flag r = false ->
  exists p, fst (update_product env product_id r now w) = Ok p.
Proof.
  intros Hw Hs Hcase.
  destruct (ProductUpdateRequest.description r) as [|[d|]] eqn:Hd.
  - destruct Hcase as [[d Hd']|Hf]; [discriminate|].
    rewrite (update_keeping_description env product_id r now existing w)
      by (try exact Hexisting; try exact Hf; left; exact Hd).
    eexists. now apply persist_succeeds.
  - rewrite (update_with_description env product_id r now existing w Hexisting d Hd).
    eexists. now apply persist_succeeds.
  - destruct Hcase as [[d Hd']|Hf]; [discriminate|].
    rewrite (update_keeping_description env product_id r now existing w)
      by (try exact Hexisting; try exact Hf; right; exact Hd).
    eexists. now apply persist_succeeds.
Qed.

(** What an update on a product that is there can raise: a failure of
    the generation client or a failure to save. *)
Lemma update_raises (e : exn) :
  fst (update_product env product_id r now w) = Raise e ->
  (exists kind message, e = Exception kind message)
  \/ (exists status detail,
        e = HTTPException status detail /\ In status [401; 429; 500; 503]).
Proof.
  rewrite (update_product_reading env _ _ _ existing) by exact Hexisting.
  unfold update_reading, bind, resolved_description.
  destruct (ProductUpdateRequest.description r) as [|[d|]];
    try destruct (regenerate_flag r);
    try (unfold ret; intros H; left; now apply persist_raises in H);
    (destruct (generate_product_description env _ w) as [[d'|e'] w1] eqn:Hg;
     [ intros H; left; now apply persist_raises in H
     | cbn [fst]; intros [= <-]; right;
       apply (generate_raises env (merged_brief (ProductResponse.brief existing) r) w);
       now rewrite Hg ]).
Qed.

End UpdateClaims.

Lemma merge_scalar_rule (given : sent string) (stored : option string) :
  scalar_rule given stored (merge_scalar given stored).
Proof.
  unfold scalar_rule. repeat split; try (intros ->; reflexivity).
  intros v ->. reflexivity.
Qed.

Lemma merge_sequence_rule (given : sent (list string)) (stored : list string) :
  sequence_rule given stored (merge_sequence given stored).
Proof.
  unfold sequence_rule. repeat split; try (intros ->; reflexivity).
  intros v ->. reflexivity.
Qed.

Lemma merge_required_rule (given : sent string) (stored : string) :
  required_rule given stored (merge_required given stored).
Proof.
  unfold required_rule. repeat split; try (intros ->; reflexivity).
  intros v ->. reflexivity.
Qed.

(** C3. The merge of a partial update, on every update of a product that
    is there. In a returned product each field of the brief follows from
    the request and the stored product: [name] takes a given value and is
    otherwise kept (omitted or null); each of the eight clearable scalars
    is kept when omitted, cleared on null and replaced by a given value;
    each of the two sequences is kept when omitted, emptied on null and
    replaced as a whole by a given value. Together: the brief is
    [merged_brief]. The id and creation time are the stored ones, and the
    record filed under the id is this product serialized. The update
    returns whenever no generation is needed, the file is writable and
    the map serializable. *)
Theorem update_merge_rule (env : environment) (product_id : string)
    (r : ProductUpdateRequest.t) (now : datetime)
    (existing : ProductResponse.t) (w : world) :
  get_product_or_404 product_id w = (Ok existing, w) ->
  let run := update_product env product_id r now w in
  let old := ProductResponse.brief existing in
  (forall p,
     fst run = Ok p ->
     let new := ProductResponse.brief p in
     required_rule (ProductUpdateRequest.name r)
       (ProductBrief.name old) (ProductBrief.name new)
     /\ scalar_rule (ProductUpdateRequest.category r)
          (ProductBrief.category old) (ProductBrief.category new)
     /\ scalar_rule (ProductUpdateRequest.brand r)
          (ProductBrief.brand old) (ProductBrief.brand new)
     /\ scalar_rule (ProductUpdateRequest.tagline r)
          (ProductBrief.tagline old) (ProductBrief.tagline new)
     /\ sequence_rule (ProductUpdateRequest.features r)
          (ProductBrief.features old) (ProductBrief.features new)
     /\ sequence_rule (ProductUpdateRequest.seo_keywords r)
          (ProductBrief.seo_keywords old) (ProductBrief.seo_keywords new)
     /\ scalar_rule (ProductUpdateRequest.tone r)
          (ProductBrief.tone old) (ProductBrief.tone new)
     /\ scalar_rule (ProductUpdateRequest.audience r)
          (ProductBrief.audience old) (ProductBrief.audience new)
     /\ scalar_rule (ProductUpdateRequest.language r)
          (ProductBrief.language old) (ProductBrief.language new)
     /\ scalar_rule (ProductUpdateRequest.additional_notes r)
          (ProductBrief.additional_notes old)
          (ProductBrief.additional_notes new)
     /\ scalar_rule (ProductUpdateRequest.length r)
          (ProductBrief.length old) (ProductBrief.length new)
     /\ new = merged_brief old r
     /\ ProductResponse.id p = ProductResponse.id existing
     /\ ProductResponse.created_at p = ProductResponse.created_at existing
     /\ ProductResponse.updated_at p = now
     /\ dict_get key_eqb (KStr product_id) (products_db (snd run))
        = Some (serialize_product p))
  /\ (writable env = true ->
      serializable (products_db w) = true ->
      (exists d, ProductUpdateRequest.description r = Given (Some d))
      \/ regenerate_flag r = false ->
      exists p, fst run = Ok p).
Proof.
  intros Hex. cbv zeta. split.
  - intros p Hp.
    pose proof (update_stores env product_id r now existing w Hex p Hp)
      as Hstored.
    destruct (update_returns env product_id r now existing w Hex p Hp)
      as [d ->].
    cbn [updated_product ProductResponse.brief ProductResponse.id
         ProductResponse.created_at ProductResponse.updated_at merged_brief
         ProductBrief.name ProductBrief.category ProductBrief.brand
         ProductBrief.tagline ProductBrief.features ProductBrief.seo_keywords
         ProductBrief.tone ProductBrief.audience ProductBrief.language
         ProductBrief.additional_notes ProductBrief.length].
    repeat (split; [first [ apply merge_required_rule
                          | apply merge_scalar_rule
                          | apply merge_sequence_rule
                          | reflexivity ]|]).
    exact Hstored.
  - now apply (update_succeeds env product_id r now existing w Hex).
Qed.

Lemma update_merge_rule_witness :
  get_product_or_404 "p1" world_lamp = (Ok product_lamp, world_lamp)
  /\ forall p,
       fst (update_product env_writing "p1" clearing half_past world_lamp) = Ok p ->
       ProductBrief.category (ProductResponse.brief p) = None
       /\ ProductBrief.features (ProductResponse.brief p) = []
       /\ ProductBrief.tone (ProductResponse.brief p) = Some "luxurious"
       /\ ProductBrief.name (ProductResponse.brief p) = "Lamp".
Proof.
  assert (Hex : get_product_or_404 "p1" world_lamp = (Ok product_lamp, world_lamp))
    by (vm_compute; reflexivity).
  split; [exact Hex|]. intros p Hp.
  destruct (proj1 (update_merge_rule env_writing "p1" clearing half_past
                     product_lamp world_lamp Hex) p Hp)
    as (Hname & Hcat & _ & _ & Hfeat & _ & Htone & _).
  split; [exact (proj1 (proj2 Hcat) eq_refl)|].
  split; [exact (proj1 (proj2 Hfeat) eq_refl)|].
  split; [exact (proj2 (proj2 Htone) "luxurious" eq_refl)|].
  exact (proj1 Hname eq_refl).
Defined.

(** C2, as the code has it. The description of an update of a product
    that is there. (1) A description given and not null: the generation
    client and the provider are not called, whatever the regeneration
    flag, and a returned product has the given text trimmed. (2) No
    description given and the flag set: the client is called once, with
    the brief merged from the stored product and the request, and a
    returned product has the text the client returned. (3) Otherwise:
    no call, and a returned product has the stored description trimmed,
    which is the stored description itself when that is already trimmed.
    In each case the record filed under the id holds the description of
    the returned product. *)
Theorem update_description_rule (env : environment) (product_id : string)
    (r : ProductUpdateRequest.t) (now : datetime)
    (existing : ProductResponse.t) (w : world) :
  get_product_or_404 product_id w = (Ok existing, w) ->
  let run := update_product env product_id r now w in
  let post_merge := merged_brief (ProductResponse.brief existing) r in
  (forall d,
     ProductUpdateRequest.description r = Given (Some d) ->
     generate_calls (snd run) = generate_calls w
     /\ chat_calls (snd run) = chat_calls w
     /\ (forall p, fst run = Ok p -> ProductResponse.description p = strip d))
  /\ (no_description r -> regenerate_flag r = true ->
      generate_calls (snd run) = (generate_calls w ++ [post_merge])%list
      /\ (forall p,
            fst run = Ok p ->
            fst (generate_product_description env post_merge w)
            = Ok (ProductResponse.description p)))
  /\ (no_description r -> regenerate_flag r = false ->
      generate_calls (snd run) = generate_calls w
      /\ chat_calls (snd run) = chat_calls w
      /\ (forall p,
            fst run = Ok p ->
            ProductResponse.description p
            = strip (ProductResponse.description existing)
            /\ (strip (ProductResponse.description existing)
                = ProductResponse.description existing ->
                ProductResponse.description p
                = ProductResponse.description existing)))
  /\ (forall p,
        fst run = Ok p ->
        stored_description (products_db (snd run)) product_id
        = Some (ProductResponse.description p)).
Proof.
  intros Hex. cbv zeta. split; [|split; [|split]].
  - intros d Hd.
    rewrite (update_with_description env product_id r now existing w Hex d Hd).
    destruct (persist_frame env product_id
                (updated_product existing r (strip d) now) w) as (_ & Hg & Hc).
    repeat split; [exact Hg|exact Hc|].
    intros p Hp. apply persist_returns in Hp. now subst p.
  - intros Hnd Hf.
    rewrite (update_regenerating env product_id r now existing w Hex Hnd Hf).
    pose proof (generate_frame env
                  (merged_brief (ProductResponse.brief existing) r) w)
      as (_ & _ & Hg).
    destruct (generate_product_description env _ w) as [[d|e] w1];
      cbn [fst snd] in *.
    + destruct (persist_frame env product_id
                  (updated_product existing r d now) w1) as (_ & Hg' & _).
      split; [now rewrite Hg'|].
      intros p Hp. apply persist_returns in Hp. now subst p.
    + split; [exact Hg|discriminate].
  - intros Hnd Hf.
    rewrite (update_keeping_description env product_id r now existing w Hex Hnd Hf).
    destruct (persist_frame env product_id
                (updated_product existing r
                   (strip (ProductResponse.description existing)) now) w)
      as (_ & Hg & Hc).
    repeat split; [exact Hg|exact Hc| |].
    + apply persist_returns in H. now subst p.
    + intros Hs. apply persist_returns in H. subst p. exact Hs.
  - intros p Hp. unfold stored_description.
    rewrite (update_stores env product_id r now existing w Hex p Hp).
    apply description_of_serialized.
Qed.

Lemma update_description_rule_witness :
  get_product_or_404 "p1" world_lamp = (Ok product_lamp, world_lamp)
  /\ ProductUpdateRequest.description described_and_flagged
     = Given (Some " New text ")
  /\ regenerate_flag described_and_flagged = true
  /\ generate_calls
       (snd (update_product env_writing "p1" described_and_flagged half_past
               world_lamp))
     = generate_calls world_lamp
  /\ forall p,
       fst (update_product env_writing "p1" described_and_flagged half_past
              world_lamp) = Ok p ->
       ProductResponse.description p = strip " New text ".
Proof.
  assert (Hex : get_product_or_404 "p1" world_lamp = (Ok product_lamp, world_lamp))
    by (vm_compute; reflexivity).
  destruct (proj1 (update_description_rule env_writing "p1"
                     described_and_flagged half_past product_lamp world_lamp
                     Hex) " New text " eq_refl) as (Hg & _ & Hp).
  split; [exact Hex|]. split; [reflexivity|]. split; [reflexivity|].
  split; [exact Hg|exact Hp].
Defined.

(** C2, the claim as it was stated, fails in its third case: a stored
    description with blanks around it (here loaded from a snapshot edited
    by hand) is not kept unchanged by an update that gives no description
    and does not ask for regeneration; it comes back trimmed. *)
Lemma update_description_not_kept :
  stored_description (products_db world_padded) "p1" = Some " Bright light. "
  /\ ProductUpdateRequest.description tone_only = Omitted
  /\ regenerate_flag tone_only = false
  /\ option_map ProductResponse.description
       (returned (fst (update_product env_writing "p1" tone_only half_past
                         world_padded)))
     = Some "Bright light."
  /\ stored_description
       (products_db
          (snd (update_product env_writing "p1" tone_only half_past
                  world_padded))) "p1"
     = Some "Bright light."
  /\ "Bright light." <> " Bright light. ".
Proof.
  repeat split; try (vm_compute; reflexivity). discriminate.
Qed.

(** C5, as the code has it. The name in an update of a product that is
    there. A given name, the empty string included, is taken: a returned
    product has it and the record filed under the id holds it. A null or
    omitted name leaves the stored name. An empty name is not refused:
    the update raises no [HTTPException] of status 400 or 422, and it
    returns (with the empty name) whenever no generation is asked for,
    the file is writable and the map serializable. *)
Theorem update_name_rule (env : environment) (product_id : string)
    (r : ProductUpdateRequest.t) (now : datetime)
    (existing : ProductResponse.t) (w : world) :
  get_product_or_404 product_id w = (Ok existing, w) ->
  let run := update_product env product_id r now w in
  (forall n,
     ProductUpdateRequest.name r = Given (Some n) ->
     forall p,
       fst run = Ok p ->
       ProductBrief.name (ProductResponse.brief p) = n
       /\ stored_field (products_db (snd run)) product_id "name"
          = Some (PStr n))
  /\ (ProductUpdateRequest.name r = Given None
      \/ ProductUpdateRequest.name r = Omitted ->
      forall p,
        fst run = Ok p ->
        ProductBrief.name (ProductResponse.brief p)
        = ProductBrief.name (ProductResponse.brief existing))
  /\ (ProductUpdateRequest.name r = Given (Some "") ->
      http_status (fst run) <> Some 400
      /\ http_status (fst run) <> Some 422
      /\ (writable env = true ->
          serializable (products_db w) = true ->
          regenerate_flag r = false ->
          exists p,
            fst run = Ok p
            /\ ProductBrief.name (ProductResponse.brief p) = "")).
Proof.
  intros Hex. cbv zeta.
  assert (Hname : forall p,
             fst (update_product env product_id r now w) = Ok p ->
             ProductBrief.name (ProductResponse.brief p)
             = merge_required (ProductUpdateRequest.name r)
                 (ProductBrief.name (ProductResponse.brief existing))).
  { intros p Hp.
    destruct (update_returns env product_id r now existing w Hex p Hp)
      as [d ->]. reflexivity. }
  split; [|split].
  - intros n Hn p Hp. split.
    + rewrite (Hname p Hp), Hn. reflexivity.
    + unfold stored_field.
      rewrite (update_stores env product_id r now existing w Hex p Hp).
      pose proof (Hname p Hp) as E. rewrite Hn in E. cbn [merge_required] in E.
      rewrite <- E. destruct p as [b i d c u]; destruct b. reflexivity.
  - intros Hn p Hp. rewrite (Hname p Hp).
    destruct Hn as [-> | ->]; reflexivity.
  - intros Hn.
    assert (Hstatus : forall s,
               http_status (fst (update_product env product_id r now w)) = Some s ->
               In s [401; 429; 500; 503]).
    { intros s Hs.
      destruct (fst (update_product env product_id r now w)) as [p|e] eqn:E;
        [discriminate|].
      destruct (update_raises env product_id r now existing w Hex e E)
        as [(kind & message & ->)|(status & detail & -> & Hin)];
        [discriminate|].
      cbn [http_status] in Hs. injection Hs as <-. exact Hin. }
    split; [|split].
    + intros H. apply Hstatus in H. simpl in H.
      repeat (destruct H as [H|H]; [discriminate|]). exact H.
    + intros H. apply Hstatus in H. simpl in H.
      repeat (destruct H as [H|H]; [discriminate|]). exact H.
    + intros Hw Hs Hf.
      destruct (update_succeeds env product_id r now existing w Hex Hw Hs
                  (or_intror Hf)) as [p Hp].
      exists p. split; [exact Hp|].
      rewrite (Hname p Hp), Hn. reflexivity.
Qed.

Lemma update_name_rule_witness :
  get_product_or_404 "p1" world_lamp = (Ok product_lamp, world_lamp)
  /\ ProductUpdateRequest.name null_name = Given None
  /\ forall p,
       fst (update_product env_writing "p1" null_name half_past world_lamp)
       = Ok p ->
       ProductBrief.name (ProductResponse.brief p) = "Lamp".
Proof.
  assert (Hex : get_product_or_404 "p1" world_lamp = (Ok product_lamp, world_lamp))
    by (vm_compute; reflexivity).
  split; [exact Hex|]. split; [reflexivity|].
  exact (proj1 (proj2 (update_name_rule env_writing "p1" null_name half_past
                         product_lamp world_lamp Hex))
           (or_introl eq_refl)).
Defined.

(** C5, the claim as it was stated, fails: an update that sets the name
    to the empty string is not refused; it returns, and the stored name
    is then empty. *)
Lemma update_empty_name_accepted :
  ProductUpdateRequest.name empty_name = Given (Some "")
  /\ option_map (fun p => ProductBrief.name (ProductResponse.brief p))
       (returned (fst (update_product env_writing "p1" empty_name half_past
                         world_lamp)))
     = Some ""
  /\ stored_field
       (products_db
          (snd (update_product env_writing "p1" empty_name half_past
                  world_lamp))) "p1" "name"
     = Some (PStr "").
Proof. repeat split; vm_compute; reflexivity. Qed.

(** ** The stored description *)

(** C1 fails on [update_product]: a description given as blanks only is
    trimmed to the empty string and persisted, in the map and in the
    snapshot file. *)
Lemma update_blank_description_persisted :
  ProductUpdateRequest.description blank_description = Given (Some "   ")
  /\ stored_description (products_db world_lamp) "p1" = Some "Bright light."
  /\ fst (update_product env_writing "p1" blank_description half_past world_lamp)
     = Ok (updated_product product_lamp blank_description "" half_past)
  /\ stored_description
       (products_db
          (snd (update_product env_writing "p1" blank_description half_past
                  world_lamp))) "p1"
     = Some ""
  /\ data_file
       (snd (update_product env_writing "p1" blank_description half_past
               world_lamp))
     = Holds (JArr [product_json
                      (updated_product product_lamp blank_description ""
                         half_past)]).
Proof. repeat split; vm_compute; reflexivity. Qed.

(** [create_product], for its part, keeps the invariant: what it
    returns and files has a description that is not blank. *)
Lemma create_description_not_blank (env : environment)
    (request : ProductCreateRequest.t) (now : datetime) (product_id : string)
    (w : world) (p : ProductResponse.t) :
  fst (create_product env request now product_id w) = Ok p ->
  blank (ProductResponse.description p) = false
  /\ stored_description
       (products_db (snd (create_product env request now product_id w)))
       product_id
     = Some (ProductResponse.description p).
Proof.
  destruct (needs_generation request) eqn:Hneed.
  - rewrite create_product_generating by exact Hneed.
    pose proof (generate_returns env (ProductCreateRequest.brief request) w) as Hret.
    destruct (generate_product_description env _ w) as [[d|e] w1];
      cbn [fst snd] in *; [|discriminate].
    destruct (Hret d eq_refl) as [Hne Hs].
    intros Hp. pose proof (persist_returns _ _ _ _ _ Hp) as ->.
    destruct (persist_frame env product_id
                (created_product request d now product_id) w1) as (Hdb & _).
    split.
    + unfold blank, created_product. cbn [ProductResponse.description].
      now rewrite strip_idempotent, Hs, Hne.
    + rewrite Hdb. apply stored_description_set.
  - destruct (create_product_explicit env request now product_id w Hneed)
      as (d & _ & Hne & Hrun).
    rewrite Hrun. intros Hp. pose proof (persist_returns _ _ _ _ _ Hp) as ->.
    destruct (persist_frame env product_id
                (created_product request d now product_id) w) as (Hdb & _).
    split.
    + unfold blank, created_product. cbn [ProductResponse.description].
      now rewrite strip_idempotent, Hne.
    + rewrite Hdb. apply stored_description_set.
Qed.

(** ** Loading the snapshot *)

Lemma load_items_index (items : list json) (acc : dict pykey pydict) :
  forallb hashable_id items = true ->
  load_items items acc
  = Ok (fold_left index_record (filter is_record items) acc).
Proof.
  revert acc. induction items as [|j r IH]; intros acc; [reflexivity|].
  cbn [forallb]. intros H. apply andb_prop in H. destruct H as [Hj Hr].
  destruct j as [| b | z | s | l | fields];
    try (cbn [load_items is_record filter]; now apply IH).
  cbn [load_items is_record filter hashable_id] in *.
  destruct (dict_get String.eqb "id" fields) as [v|] eqn:Hid; [|now apply IH].
  destruct (json_truthy v) eqn:Ht; [|now apply IH].
  cbn [negb orb] in Hj.
  destruct (json_key v) as [k|] eqn:Hk; [|discriminate].
  cbn [fold_left index_record]. rewrite Hid, Hk. now apply IH.
Qed.

Lemma dict_set_not_empty (k : pykey) (v : pydict) (db : dict pykey pydict) :
  dict_set key_eqb k v db <> [].
Proof.
  destruct db as [|[k' v'] r]; cbn [dict_set]; [discriminate|].
  destruct (key_eqb k k'); discriminate.
Qed.

Lemma index_records_not_empty (items : list json) (acc : dict pykey pydict) :
  acc <> [] -> fold_left index_record items acc <> [].
Proof.
  revert acc. induction items as [|j r IH]; intros acc Hacc; [exact Hacc|].
  cbn [fold_left]. apply IH.
  destruct j as [| b | z | s | l | fields]; cbn [index_record]; try exact Hacc.
  destruct (dict_get String.eqb "id" fields) as [v|]; [|exact Hacc].
  destruct (json_key v); [apply dict_set_not_empty|exact Hacc].
Qed.

(** C6, as the code has it. [load_products] gives the empty map for a
    file that is absent, cannot be read or is not JSON, and for JSON that
    is not an array. For an array whose truthy ids are hashable it gives
    the elements that are objects with a truthy id, filed under their id
    in order (a later one replacing an earlier one with the same id); the
    other elements are skipped, so the map is empty exactly when no
    element is such an object. *)
Theorem load_products_rule (f : file_state) :
  (f = Absent \/ f = Unreadable \/ f = NotJson -> load_products f = Ok [])
  /\ (forall raw,
        f = Holds raw -> (forall items, raw <> JArr items) ->
        load_products f = Ok [])
  /\ (forall items,
        f = Holds (JArr items) ->
        forallb hashable_id items = true ->
        load_products f = Ok (fold_left index_record (filter is_record items) [])
        /\ (load_products f = Ok [] <-> filter is_record items = [])).
Proof.
  split; [|split].
  - intros [-> | [-> | ->]]; reflexivity.
  - intros raw -> Hraw. destruct raw; try reflexivity.
    now elim (Hraw l).
  - intros items -> Hh. cbn [load_products].
    rewrite load_items_index by exact Hh. split; [reflexivity|].
    split.
    + intros [= H].
      destruct (filter is_record items) as [|j r] eqn:E; [reflexivity|].
      exfalso. cbn [fold_left] in H.
      apply (index_records_not_empty r (index_record [] j)); [|exact H].
      assert (Hj : is_record j = true).
      { assert (Hin : In j (filter is_record items))
          by (rewrite E; now left).
        now apply filter_In in Hin. }
      assert (Hhj : hashable_id j = true).
      { assert (Hin : In j (filter is_record items))
          by (rewrite E; now left).
        apply filter_In in Hin. destruct Hin as [Hin _].
        rewrite forallb_forall in Hh. now apply Hh. }
      destruct j as [| b | z | s | l | fields]; try discriminate.
      cbn [is_record hashable_id index_record] in *.
      destruct (dict_get String.eqb "id" fields) as [v|]; [|discriminate].
      rewrite Hj in Hhj. cbn [negb orb] in Hhj.
      destruct (json_key v); [apply dict_set_not_empty|discriminate].
    + intros ->. reflexivity.
Qed.

Lemma load_products_rule_witness :
  forallb hashable_id
    [JObj [("id", JStr "a"); ("name", JStr "Lamp")]; JInt 5] = true
  /\ load_products file_mixed
     = Ok [(KStr "a", [("id", PStr "a"); ("name", PStr "Lamp")])].
Proof.
  split; [reflexivity|].
  exact (proj1 (proj2 (proj2 (load_products_rule file_mixed)) _ eq_refl eq_refl)).
Defined.

(** C6, the claim as it was stated, fails: a snapshot that is not a
    sequence of objects with an id throughout (its second element is a
    number) does not give the empty map; the element that qualifies is
    kept. *)
Lemma load_products_keeps_good_items :
  match file_mixed with
  | Holds raw => well_formed_snapshot raw = false
  | _ => False
  end
  /\ load_products file_mixed
     = Ok [(KStr "a", [("id", PStr "a"); ("name", PStr "Lamp")])]
  /\ load_products file_mixed <> Ok [].
Proof. repeat split; try reflexivity. discriminate. Qed.

(** Two states of the file on which [load_products] raises: the
    [except] clause does not name [TypeError] (an unhashable id) nor
    [UnicodeDecodeError] (bytes that are not UTF-8). *)
Lemma load_products_can_raise :
  load_products file_list_id = Raise (Exception "TypeError" "unhashable type")
  /\ load_products NotUtf8
     = Raise (Exception "UnicodeDecodeError" "invalid start byte").
Proof. split; reflexivity. Qed.

(** ** Serialization *)

Lemma serialized_get_brief (p : ProductResponse.t) (k : string) :
  In k ProductBrief.field_names ->
  get k (serialize_product p) = get k (ProductBrief.dict (ProductResponse.brief p)).
Proof.
  intros H. unfold serialize_product. rewrite !get_set.
  rewrite response_dict_get_brief by exact H.
  simpl in H.
  repeat (destruct H as [<-|H]; [reflexivity|]). contradiction.
Qed.

Lemma serialized_timestamps (p : ProductResponse.t) :
  get "id" (serialize_product p) = Some (PStr (ProductResponse.id p))
  /\ get "description" (serialize_product p)
     = Some (PStr (ProductResponse.description p))
  /\ get "created_at" (serialize_product p)
     = Some (PStr (isoformat (ProductResponse.created_at p)))
  /\ get "updated_at" (serialize_product p)
     = Some (PStr (isoformat (ProductResponse.updated_at p))).
Proof.
  unfold serialize_product. rewrite !get_set.
  destruct p as [b i d c u]; destruct b. repeat split; reflexivity.
Qed.

Lemma validate_serialized (p : ProductResponse.t) :
  valid_datetime (ProductResponse.created_at p) = true ->
  valid_datetime (ProductResponse.updated_at p) = true ->
  ProductResponse.validate (serialize_product p) = Some p.
Proof.
  intros Hc Hu. unfold ProductResponse.validate.
  rewrite (brief_validate_ext _ (ProductBrief.dict (ProductResponse.brief p)))
    by (apply serialized_get_brief).
  rewrite brief_validate_dict.
  destruct (serialized_timestamps p) as (-> & -> & -> & ->).
  cbn [as_str as_datetime]. rewrite !parse_isoformat by assumption.
  destruct p; reflexivity.
Qed.

Lemma map_of_json_strings (l : list string) :
  map of_json (map JStr l) = map PStr l.
Proof. induction l as [|s r IH]; simpl; [reflexivity|now rewrite IH]. Qed.

(** Loading the JSON object of a product gives its serialized dict. *)
Lemma object_dict_product_json (p : ProductResponse.t) :
  match product_json p with
  | JObj fields => object_dict fields = serialize_product p
  | _ => False
  end.
Proof.
  destruct p as [b i d c u]; destruct b.
  unfold product_json, object_dict, serialize_product.
  cbn [map fst snd of_json
       ProductResponse.brief ProductResponse.id ProductResponse.description
       ProductResponse.created_at ProductResponse.updated_at
       ProductBrief.name ProductBrief.category ProductBrief.brand
       ProductBrief.tagline ProductBrief.features ProductBrief.seo_keywords
       ProductBrief.tone ProductBrief.audience ProductBrief.language
       ProductBrief.additional_notes ProductBrief.length].
  rewrite !map_of_json_strings.
  repeat match goal with
         | |- context [match ?o with Some s => JStr s | None => JNull end] =>
             destruct o
         end; reflexivity.
Qed.

(** C9. Serializing a product and reading it back loses nothing. For a
    product whose two timestamps are valid [datetime] values: the dict
    [serialize_product] builds validates to the product itself, so
    serializing what was read back gives the same dict again; both
    timestamps are written as their ISO-8601 text and read back from it;
    the two sequences are written as lists, empty ones as the empty list
    (in the snapshot: the empty array), never left out or null; and the
    JSON object the snapshot holds for the product loads to the same
    dict. *)
Theorem serialize_round_trip (p : ProductResponse.t) :
  valid_datetime (ProductResponse.created_at p) = true ->
  valid_datetime (ProductResponse.updated_at p) = true ->
  ProductResponse.validate (serialize_product p) = Some p
  /\ option_map serialize_product
       (ProductResponse.validate (serialize_product p))
     = Some (serialize_product p)
  /\ get "created_at" (serialize_product p)
     = Some (PStr (isoformat (ProductResponse.created_at p)))
  /\ get "updated_at" (serialize_product p)
     = Some (PStr (isoformat (ProductResponse.updated_at p)))
  /\ parse_datetime (isoformat (ProductResponse.created_at p))
     = Some (ProductResponse.created_at p)
  /\ parse_datetime (isoformat (ProductResponse.updated_at p))
     = Some (ProductResponse.updated_at p)
  /\ get "features" (serialize_product p)
     = Some (PList (map PStr (ProductBrief.features (ProductResponse.brief p))))
  /\ get "seo_keywords" (serialize_product p)
     = Some (PList (map PStr
                      (ProductBrief.seo_keywords (ProductResponse.brief p))))
  /\ entry_json (serialize_product p) = Some (product_json p)
  /\ match product_json p with
     | JObj fields =>
         dict_get String.eqb "features" fields
         = Some (JArr (map JStr (ProductBrief.features (ProductResponse.brief p))))
         /\ dict_get String.eqb "seo_keywords" fields
            = Some (JArr (map JStr
                            (ProductBrief.seo_keywords (ProductResponse.brief p))))
         /\ ProductResponse.validate (object_dict fields) = Some p
     | _ => False
     end.
Proof.
  intros Hc Hu.
  pose proof (validate_serialized p Hc Hu) as Hv.
  destruct (serialized_timestamps p) as (_ & _ & Hca & Hua).
  split; [exact Hv|]. split; [now rewrite Hv|].
  split; [exact Hca|]. split; [exact Hua|].
  split; [now apply parse_isoformat|]. split; [now apply parse_isoformat|].
  split; [rewrite serialized_get_brief by (simpl; tauto);
          destruct p as [b i d c u]; destruct b; reflexivity|].
  split; [rewrite serialized_get_brief by (simpl; tauto);
          destruct p as [b i d c u]; destruct b; reflexivity|].
  split; [apply entry_json_serialized|].
  pose proof (object_dict_product_json p) as Ho.
  unfold product_json in *. cbv zeta in *.
  split; [reflexivity|]. split; [reflexivity|].
  rewrite Ho. exact Hv.
Qed.

Lemma serialize_round_trip_witness :
  valid_datetime (ProductResponse.created_at product_lamp) = true
  /\ valid_datetime (ProductResponse.updated_at product_lamp) = true
  /\ ProductResponse.validate (serialize_product product_lamp)
     = Some product_lamp
  /\ get "seo_keywords" (serialize_product product_lamp) = Some (PList []).
Proof.
  split; [reflexivity|]. split; [reflexivity|].
  destruct (serialize_round_trip product_lamp eq_refl eq_refl)
    as (Hv & _ & _ & _ & _ & _ & _ & Hk & _).
  split; [exact Hv|exact Hk].
Defined.

Lemma generation_error_classification_witness :
  credential env_rejecting world_empty <> None
  /\ provider_answer env_rejecting brief_lamp world_empty
     = ChatError "Invalid API_KEY supplied"
  /\ occurs_ignoring_case "api_key" "Invalid API_KEY supplied"
  /\ http_status
       (fst (generate_product_description env_rejecting brief_lamp world_empty))
     = Some 401.
Proof.
  assert (Hc : credential env_rejecting world_empty <> None) by discriminate.
  assert (Hs : occurs_ignoring_case "api_key" "Invalid API_KEY supplied")
    by (exists "Invalid ", "API_KEY", " supplied"; split; reflexivity).
  split; [exact Hc|]. split; [reflexivity|]. split; [exact Hs|].
  exact (proj1 (proj1 (proj2 (generation_error_classification env_rejecting
                                brief_lamp world_empty) Hc)
                  "Invalid API_KEY supplied" eq_refl) Hs).
Defined.

(** ** The invariant of the stored descriptions *)

Lemma blank_strip (s : string) : blank (strip s) = blank s.
Proof. unfold blank. now rewrite strip_idempotent. Qed.

Section ValuesFacts.
Variable Q : pydict -> Prop.

Lemma values_set (k : pykey) (v : pydict) (db : dict pykey pydict) :
  Forall Q (dict_values db) -> Q v ->
  Forall Q (dict_values (dict_set key_eqb k v db)).
Proof.
  unfold dict_values. intros H Hv.
  induction db as [|[k' v'] r IH]; cbn [dict_set map snd].
  - now constructor.
  - inversion H as [|? ? Hv' Hr]; subst.
    destruct (key_eqb k k'); cbn [map snd]; constructor; auto.
Qed.

Lemma values_del (k : pykey) (db : dict pykey pydict) :
  Forall Q (dict_values db) -> Forall Q (dict_values (dict_del key_eqb k db)).
Proof.
  unfold dict_values. intros H.
  induction db as [|[k' v'] r IH]; cbn [dict_del map snd]; [constructor|].
  inversion H as [|? ? Hv' Hr]; subst.
  destruct (key_eqb k k'); cbn [map snd]; [exact Hr|constructor; auto].
Qed.

Lemma values_get (k : pykey) (v : pydict) (db : dict pykey pydict) :
  Forall Q (dict_values db) -> dict_get key_eqb k db = Some v -> Q v.
Proof.
  unfold dict_values. intros H.
  induction db as [|[k' v'] r IH]; cbn [dict_get map snd] in *; [discriminate|].
  inversion H as [|? ? Hv' Hr]; subst.
  destruct (key_eqb k k'); [now intros [= <-]|auto].
Qed.

End ValuesFacts.

Lemma described_ok_set (product_id : string) (p : ProductResponse.t)
    (db : dict pykey pydict) :
  described_ok db -> blank (ProductResponse.description p) = false ->
  described_ok (dict_set key_eqb (KStr product_id) (serialize_product p) db).
Proof.
  intros Hdb Hp. apply values_set; [exact Hdb|].
  intros s. rewrite description_of_serialized. now intros [= <-].
Qed.

Lemma described_ok_persist (env : environment) (product_id : string)
    (p : ProductResponse.t) (w : world) :
  described_ok (products_db w) ->
  blank (ProductResponse.description p) = false ->
  described_ok (products_db (snd (persist env product_id p w))).
Proof.
  intros Hdb Hp.
  destruct (persist_frame env product_id p w) as (-> & _).
  now apply described_ok_set.
Qed.

(** [create_product] keeps the invariant, whatever its outcome. *)
Theorem create_keeps_descriptions (env : environment)
    (request : ProductCreateRequest.t) (now : datetime) (product_id : string)
    (w : world) :
  described_ok (products_db w) ->
  described_ok
    (products_db (snd (create_product env request now product_id w))).
Proof.
  intros Hdb. destruct (needs_generation request) eqn:Hneed.
  - rewrite create_product_generating by exact Hneed.
    pose proof (generate_returns env (ProductCreateRequest.brief request) w) as Hret.
    pose proof (generate_frame env (ProductCreateRequest.brief request) w)
      as (Hsame & _).
    destruct (generate_product_description env _ w) as [[d|e] w1];
      cbn [fst snd] in *.
    + destruct (Hret d eq_refl) as [Hne Hs].
      apply described_ok_persist; [now rewrite Hsame|].
      unfold created_product, blank. cbn [ProductResponse.description].
      now rewrite strip_idempotent, Hs, Hne.
    + now rewrite Hsame.
  - destruct (create_product_explicit env request now product_id w Hneed)
      as (d & _ & Hne & ->).
    apply described_ok_persist; [exact Hdb|].
    unfold created_product, blank. cbn [ProductResponse.description].
    now rewrite strip_idempotent, Hne.
Qed.

Lemma create_keeps_descriptions_witness :
  described_ok (products_db world_empty)
  /\ described_ok (products_db world_lamp).
Proof.
  assert (H : described_ok (products_db world_empty)) by constructor.
  split; [exact H|].
  exact (create_keeps_descriptions env_writing request_lamp noon "p1"
           world_empty H).
Defined.

Lemma existing_description (product_id : string) (w : world)
    (existing : ProductResponse.t) :
  described_ok (products_db w) ->
  get_product_or_404 product_id w = (Ok existing, w) ->
  blank (ProductResponse.description existing) = false.
Proof.
  intros Hdb. unfold get_product_or_404, validated, raise, ret.
  destruct (dict_get key_eqb (KStr product_id) (products_db w))
    as [product|] eqn:Hget; [|discriminate].
  destruct (truthy (PDict product)); [|discriminate].
  destruct (ProductResponse.validate product) as [p|] eqn:Hv; [|discriminate].
  intros [= ->].
  apply (values_get _ _ _ _ Hdb Hget).
  unfold description_of. unfold ProductResponse.validate in Hv.
  destruct (ProductBrief.validate product); [|discriminate].
  destruct (as_str (get "id" product)); [|discriminate].
  destruct (as_str (get "description" product)) as [d|]; [|discriminate].
  destruct (as_datetime (get "created_at" product)); [|discriminate].
  destruct (as_datetime (get "updated_at" product)); [|discriminate].
  now injection Hv as <-.
Qed.

(** [update_product] keeps the invariant whenever the description it is
    given, if any, is not blank. *)
Theorem update_keeps_descriptions (env : environment) (product_id : string)
    (r : ProductUpdateRequest.t) (now : datetime) (w : world) :
  (forall d, ProductUpdateRequest.description r = Given (Some d) ->
             strip d <> "") ->
  described_ok (products_db w) ->
  described_ok (products_db (snd (update_product env product_id r now w))).
Proof.
  intros Hgiven Hdb.
  destruct (get_product_or_404 product_id w) as [[existing|e] w'] eqn:Hex.
  - pose proof (get_product_or_404_state product_id w) as Hw.
    rewrite Hex in Hw. cbn [snd] in Hw. subst w'.
    pose proof (existing_description product_id w existing Hdb Hex) as Hold.
    rewrite (update_product_reading env product_id r now existing w Hex).
    unfold update_reading, bind, resolved_description.
    destruct (ProductUpdateRequest.description r) as [|[d|]] eqn:Hd.
    + destruct (regenerate_flag r).
      * pose proof (generate_returns env
                      (merged_brief (ProductResponse.brief existing) r) w) as Hret.
        pose proof (generate_frame env
                      (merged_brief (ProductResponse.brief existing) r) w)
          as (Hsame & _).
        destruct (generate_product_description env _ w) as [[d|e] w1];
          cbn [fst snd] in *; [|now rewrite Hsame].
        destruct (Hret d eq_refl) as [Hne Hs].
        apply described_ok_persist; [now rewrite Hsame|].
        unfold blank. cbn [updated_product ProductResponse.description].
        now rewrite Hs, Hne.
      * unfold ret. apply described_ok_persist; [exact Hdb|].
        cbn [updated_product ProductResponse.description].
        now rewrite blank_strip.
    + unfold ret. apply described_ok_persist; [exact Hdb|].
      cbn [updated_product ProductResponse.description].
      unfold blank. rewrite strip_idempotent.
      assert (Hne : nonempty (strip d) = true)
        by (apply nonempty_true; now apply Hgiven).
      now rewrite Hne.
    + destruct (regenerate_flag r).
      * pose proof (generate_returns env
                      (merged_brief (ProductResponse.brief existing) r) w) as Hret.
        pose proof (generate_frame env
                      (merged_brief (ProductResponse.brief existing) r) w)
          as (Hsame & _).
        destruct (generate_product_description env _ w) as [[d|e] w1];
          cbn [fst snd] in *; [|now rewrite Hsame].
        destruct (Hret d eq_refl) as [Hne Hs].
        apply described_ok_persist; [now rewrite Hsame|].
        unfold blank. cbn [updated_product ProductResponse.description].
        now rewrite Hs, Hne.
      * unfold ret. apply described_ok_persist; [exact Hdb|].
        cbn [updated_product ProductResponse.description].
        now rewrite blank_strip.
  - pose proof (get_product_or_404_state product_id w) as Hw.
    rewrite Hex in Hw. cbn [snd] in Hw. subst w'.
    unfold update_product, bind. rewrite Hex. exact Hdb.
Qed.

Lemma world_lamp_described : described_ok (products_db world_lamp).
Proof.
  unfold described_ok.
  change (dict_values (products_db world_lamp))
    with [serialize_product product_lamp].
  constructor; [|constructor].
  intros s. rewrite description_of_serialized. intros [= <-]. reflexivity.
Qed.

Lemma update_keeps_descriptions_witness :
  (forall d, ProductUpdateRequest.description tone_only = Given (Some d) ->
             strip d <> "")
  /\ described_ok (products_db world_lamp)
  /\ described_ok
       (products_db
          (snd (update_product env_writing "p1" tone_only half_past world_lamp))).
Proof.
  assert (Hg : forall d, ProductUpdateRequest.description tone_only
                         = Given (Some d) -> strip d <> "")
    by (intros d H; discriminate H).
  pose proof world_lamp_described as H.
  split; [exact Hg|]. split; [exact H|].
  exact (update_keeps_descriptions env_writing "p1" tone_only half_past
           world_lamp Hg H).
Defined.

(** [delete_product] keeps the invariant and answers 404, changing
    nothing, for an id that is not in the map. *)
Theorem delete_keeps_descriptions (env : environment) (product_id : string)
    (w : world) :
  (described_ok (products_db w) ->
   described_ok (products_db (snd (delete_product env product_id w))))
  /\ (dict_get key_eqb (KStr product_id) (products_db w) = None ->
      delete_product env product_id w
      = (Raise (HTTPException 404 "Product not found"), w)).
Proof.
  unfold delete_product, dict_mem. split.
  - intros Hdb.
    destruct (dict_get key_eqb (KStr product_id) (products_db w));
      [|exact Hdb].
    unfold bind, set_products_db. rewrite save_products_result.
    cbn [products_db].
    destruct (writable env); [destruct (snapshot_of _)|];
      cbn [snd products_db]; now apply values_del.
  - intros ->. reflexivity.
Qed.

Lemma delete_keeps_descriptions_witness :
  described_ok (products_db world_lamp)
  /\ described_ok (products_db (snd (delete_product env_writing "p1" world_lamp)))
  /\ dict_get key_eqb (KStr "p2") (products_db world_lamp) = None
  /\ delete_product env_writing "p2" world_lamp
     = (Raise (HTTPException 404 "Product not found"), world_lamp).
Proof.
  pose proof world_lamp_described as H.
  assert (Hn : dict_get key_eqb (KStr "p2") (products_db world_lamp) = None)
    by (vm_compute; reflexivity).
  split; [exact H|].
  split; [exact (proj1 (delete_keeps_descriptions env_writing "p1" world_lamp) H)|].
  split; [exact Hn|].
  exact (proj2 (delete_keeps_descriptions env_writing "p2" world_lamp) Hn).
Defined.

(** ** Keys of the product map *)

Lemma key_eqb_eq (a b : pykey) : key_eqb a b = true <-> a = b.
Proof.
  destruct a, b; simpl; split; intros H; try discriminate; try reflexivity.
  - apply Z.eqb_eq in H. now subst.
  - injection H as ->. apply Z.eqb_refl.
  - apply String.eqb_eq in H. now subst.
  - injection H as ->. apply String.eqb_refl.
Qed.

Lemma keys_set (k k' : pykey) (v : pydict) (db : dict pykey pydict) :
  In k' (map fst (dict_set key_eqb k v db)) <-> k' = k \/ In k' (map fst db).
Proof.
  induction db as [|[k0 v0] r IH]; cbn [dict_set map fst In].
  - split; [intros [<-|[]]; now left|intros [->|[]]; now left].
  - destruct (key_eqb k k0) eqn:E; cbn [map fst In].
    + apply key_eqb_eq in E. subst k0.
      split; [intros [<-|H]; [now left|now right; right]
             |intros [->|[<-|H]]; [now left|now left|now right]].
    + rewrite IH. tauto.
Qed.

Lemma unique_set (k : pykey) (v : pydict) (db : dict pykey pydict) :
  unique_keys db -> unique_keys (dict_set key_eqb k v db).
Proof.
  unfold unique_keys. induction db as [|[k0 v0] r IH]; cbn [dict_set map fst].
  - intros _. constructor; [intros []|constructor].
  - intros H. inversion H as [|? ? Hnot Hr]; subst.
    destruct (key_eqb k k0) eqn:E; cbn [map fst].
    + now constructor.
    + constructor; [|now apply IH].
      rewrite keys_set. intros [->|Hin]; [|now apply Hnot].
      rewrite key_eqb_refl in E. discriminate.
Qed.

Lemma keys_del (k k' : pykey) (db : dict pykey pydict) :
  In k' (map fst (dict_del key_eqb k db)) -> In k' (map fst db).
Proof.
  induction db as [|[k0 v0] r IH]; cbn [dict_del map fst In]; [tauto|].
  destruct (key_eqb k k0); cbn [map fst In]; tauto.
Qed.

Lemma unique_del (k : pykey) (db : dict pykey pydict) :
  unique_keys db -> unique_keys (dict_del key_eqb k db).
Proof.
  unfold unique_keys. induction db as [|[k0 v0] r IH]; cbn [dict_del map fst].
  - intros H. exact H.
  - intros H. inversion H as [|? ? Hnot Hr]; subst.
    destruct (key_eqb k k0); cbn [map fst]; [exact Hr|].
    constructor; [|now apply IH].
    intros Hin. apply Hnot. now apply keys_del in Hin.
Qed.

Lemma get_absent (k : pykey) (db : dict pykey pydict) :
  ~ In k (map fst db) -> dict_get key_eqb k db = None.
Proof.
  induction db as [|[k0 v0] r IH]; cbn [dict_get map fst In]; [reflexivity|].
  intros H. destruct (key_eqb k k0) eqn:E.
  - apply key_eqb_eq in E. subst k0. elim H. now left.
  - apply IH. intros Hin. apply H. now right.
Qed.

Lemma get_del_same (k : pykey) (db : dict pykey pydict) :
  unique_keys db -> dict_get key_eqb k (dict_del key_eqb k db) = None.
Proof.
  unfold unique_keys. induction db as [|[k0 v0] r IH]; cbn [dict_del map fst].
  - reflexivity.
  - intros H. inversion H as [|? ? Hnot Hr]; subst.
    destruct (key_eqb k k0) eqn:E.
    + apply key_eqb_eq in E. subst k0. now apply get_absent.
    + cbn [dict_get]. rewrite E. now apply IH.
Qed.

Lemma load_items_unique (items : list json) (acc db : dict pykey pydict) :
  unique_keys acc -> load_items items acc = Ok db -> unique_keys db.
Proof.
  revert acc. induction items as [|j r IH]; intros acc Hacc;
    cbn [load_items].
  - now intros [= <-].
  - destruct j as [| b | z | s | l | fields]; try (now apply IH).
    destruct (dict_get String.eqb "id" fields) as [v|]; [|now apply IH].
    destruct (json_truthy v); [|now apply IH].
    destruct (json_key v) as [k|]; [|discriminate].
    apply IH. now apply unique_set.
Qed.

(** The map [load_products] builds and the maps the three operations
    leave have each key once. *)
Theorem unique_keys_kept (env : environment) :
  (forall f db, load_products f = Ok db -> unique_keys db)
  /\ (forall request now product_id w,
        unique_keys (products_db w) ->
        unique_keys
          (products_db (snd (create_product env request now product_id w))))
  /\ (forall product_id r now w,
        unique_keys (products_db w) ->
        unique_keys
          (products_db (snd (update_product env product_id r now w))))
  /\ (forall product_id w,
        unique_keys (products_db w) ->
        unique_keys (products_db (snd (delete_product env product_id w)))).
Proof.
  split; [|split; [|split]].
  - intros f db. destruct f as [| | | |raw]; cbn [load_products];
      try (intros [= <-]; constructor); try discriminate.
    destruct raw; try (intros [= <-]; constructor).
    apply load_items_unique. constructor.
  - intros request now product_id w Hw.
    destruct (needs_generation request) eqn:Hneed.
    + rewrite create_product_generating by exact Hneed.
      pose proof (generate_frame env (ProductCreateRequest.brief request) w)
        as (Hsame & _).
      destruct (generate_product_description env _ w) as [[d|e] w1];
        cbn [snd] in *; [|now rewrite Hsame].
      destruct (persist_frame env product_id
                  (created_product request d now product_id) w1) as (-> & _).
      apply unique_set. now rewrite Hsame.
    + destruct (create_product_explicit env request now product_id w Hneed)
        as (d & _ & _ & ->).
      destruct (persist_frame env product_id
                  (created_product request d now product_id) w) as (-> & _).
      now apply unique_set.
  - intros product_id r now w Hw.
    pose proof (get_product_or_404_state product_id w) as Hstate.
    destruct (get_product_or_404 product_id w) as [[existing|e] w'] eqn:Hex;
      cbn [snd] in Hstate; subst w'.
    + rewrite (update_product_reading env product_id r now existing w Hex).
      unfold update_reading, bind.
      assert (Hres : products_db (snd (resolved_description env existing r w))
                     = products_db w).
      { unfold resolved_description.
        destruct (ProductUpdateRequest.description r) as [|[d|]];
          try destruct (regenerate_flag r); try reflexivity;
          apply generate_frame. }
      destruct (resolved_description env existing r w) as [[d|e] w1];
        cbn [snd] in *; [|now rewrite Hres].
      destruct (persist_frame env product_id
                  (updated_product existing r d now) w1) as (-> & _).
      apply unique_set. now rewrite Hres.
    + unfold update_product, bind. rewrite Hex. exact Hw.
  - intros product_id w Hw. unfold delete_product, dict_mem.
    destruct (dict_get key_eqb (KStr product_id) (products_db w));
      [|exact Hw].
    unfold bind, set_products_db. rewrite save_products_result.
    cbn [products_db].
    destruct (writable env); [destruct (snapshot_of _)|];
      cbn [snd products_db]; now apply unique_del.
Qed.

Lemma unique_keys_kept_witness :
  unique_keys (products_db world_empty)
  /\ unique_keys (products_db world_lamp).
Proof.
  assert (H : unique_keys (products_db world_empty)) by constructor.
  split; [exact H|].
  exact (proj1 (proj2 (unique_keys_kept env_writing))
           request_lamp noon "p1" world_empty H).
Defined.

(** Reading a product after deleting it answers 404, and so does
    deleting it a second time. *)
Theorem delete_then_read (env : environment) (product_id : string)
    (w : world) :
  unique_keys (products_db w) ->
  let w' := snd (delete_product env product_id w) in
  dict_mem key_eqb (KStr product_id) (products_db w) = true ->
  get_product product_id w'
  = (Raise (HTTPException 404 "Product not found"), w')
  /\ delete_product env product_id w'
     = (Raise (HTTPException 404 "Product not found"), w').
Proof.
  intros Hw w' Hmem.
  assert (Hdb : products_db w'
                = dict_del key_eqb (KStr product_id) (products_db w)).
  { subst w'. unfold delete_product. rewrite Hmem.
    unfold bind, set_products_db. rewrite save_products_result.
    cbn [products_db].
    destruct (writable env); [destruct (snapshot_of _)|]; reflexivity. }
  assert (Hget : dict_get key_eqb (KStr product_id) (products_db w') = None).
  { rewrite Hdb. now apply get_del_same. }
  split.
  - unfold get_product, get_product_or_404. now rewrite Hget.
  - unfold delete_product, dict_mem. now rewrite Hget.
Qed.

Lemma world_lamp_unique : unique_keys (products_db world_lamp).
Proof.
  unfold unique_keys.
  change (map fst (products_db world_lamp)) with [KStr "p1"].
  constructor; [intros []|constructor].
Qed.

Lemma delete_then_read_witness :
  unique_keys (products_db world_lamp)
  /\ dict_mem key_eqb (KStr "p1") (products_db world_lamp) = true
  /\ fst (get_product "p1" (snd (delete_product env_writing "p1" world_lamp)))
     = Raise (HTTPException 404 "Product not found").
Proof.
  split; [exact world_lamp_unique|]. split; [reflexivity|].
  exact (f_equal fst
           (proj1 (delete_then_read env_writing "p1" world_lamp
                     world_lamp_unique eq_refl))).
Defined.

(** ** Two runs *)

(** With no credential configured the generation endpoint answers 503
    and the provider is not asked. *)
Example generation_unconfigured :
  generate_description_endpoint env_unset brief_lamp world_empty
  = (Raise (HTTPException 503
       "Writer API key not configured. Set WRITER_API_KEY to enable generation."),
     mk_world [] Absent None [brief_lamp] []).
Proof. reflexivity. Qed.

(** An update that asks for regeneration sends the provider the prompt
    of the merged brief and stores the trimmed answer. *)
Example update_regenerates :
  let run := update_product env_writing "p1" regenerating half_past world_lamp in
  let merged := merged_brief brief_lamp regenerating in
  ProductBrief.tone merged = Some "luxurious"
  /\ generate_calls (snd run) = [merged]
  /\ chat_calls (snd run) = [build_generation_prompt merged]
  /\ option_map ProductResponse.description (returned (fst run))
     = Some "A lamp that listens."
  /\ stored_description (products_db (snd run)) "p1"
     = Some "A lamp that listens.".
Proof. cbv zeta. repeat split; vm_compute; reflexivity. Qed.

(** * Further properties of the code *)

(** ** More on the product map *)

Lemma db_get_set_other (k k' : pykey) (v : pydict) (db : dict pykey pydict) :
  k' <> k ->
  dict_get key_eqb k' (dict_set key_eqb k v db) = dict_get key_eqb k' db.
Proof.
  intros Hne. induction db as [|[k0 v0] r IH]; cbn [dict_set dict_get].
  - destruct (key_eqb k' k) eqn:E; [|reflexivity].
    apply key_eqb_eq in E. now elim Hne.
  - destruct (key_eqb k k0) eqn:E; cbn [dict_get].
    + apply key_eqb_eq in E. subst k0.
      destruct (key_eqb k' k) eqn:E'; [|reflexivity].
      apply key_eqb_eq in E'. now elim Hne.
    + destruct (key_eqb k' k0); [reflexivity|exact IH].
Qed.

Lemma db_get_del_other (k k' : pykey) (db : dict pykey pydict) :
  k' <> k ->
  dict_get key_eqb k' (dict_del key_eqb k db) = dict_get key_eqb k' db.
Proof.
  intros Hne. induction db as [|[k0 v0] r IH]; cbn [dict_del dict_get].
  - reflexivity.
  - destruct (key_eqb k k0) eqn:E; cbn [dict_get].
    + apply key_eqb_eq in E. subst k0.
      destruct (key_eqb k' k) eqn:E'; [|reflexivity].
      apply key_eqb_eq in E'. now elim Hne.
    + destruct (key_eqb k' k0); [reflexivity|exact IH].
Qed.

Lemma delete_product_db (env : environment) (product_id : string) (w : world) :
  products_db (snd (delete_product env product_id w))
  = if dict_mem key_eqb (KStr product_id) (products_db w)
    then dict_del key_eqb (KStr product_id) (products_db w)
    else products_db w.
Proof.
  unfold delete_product.
  destruct (dict_mem key_eqb (KStr product_id) (products_db w)); [|reflexivity].
  unfold bind, set_products_db. rewrite save_products_result.
  cbn [products_db].
  destruct (writable env); [destruct (snapshot_of _)|]; reflexivity.
Qed.

Lemma resolved_description_db (env : environment)
    (existing : ProductResponse.t) (r : ProductUpdateRequest.t) (w : world) :
  products_db (snd (resolved_description env existing r w)) = products_db w
  /\ data_file (snd (resolved_description env existing r w)) = data_file w.
Proof.
  unfold resolved_description.
  destruct (ProductUpdateRequest.description r) as [|[d|]];
    try destruct (regenerate_flag r); try (split; reflexivity);
    destruct (generate_frame env
                (merged_brief (ProductResponse.brief existing) r) w)
      as (H1 & H2 & _); now split.
Qed.

(** The product map after [update_product]: untouched, or with one record
    filed under the id of the request. *)
Lemma update_product_db (env : environment) (product_id : string)
    (r : ProductUpdateRequest.t) (now : datetime) (w : world) :
  products_db (snd (update_product env product_id r now w)) = products_db w
  \/ exists p,
       products_db (snd (update_product env product_id r now w))
       = dict_set key_eqb (KStr product_id) (serialize_product p)
           (products_db w).
Proof.
  pose proof (get_product_or_404_state product_id w) as Hstate.
  destruct (get_product_or_404 product_id w) as [[existing|e] w'] eqn:Hex;
    cbn [snd] in Hstate; subst w'.
  - rewrite (update_product_reading env product_id r now existing w Hex).
    unfold update_reading, bind.
    destruct (resolved_description_db env existing r w) as (Hres & _).
    destruct (resolved_description env existing r w) as [[d|e] w1];
      cbn [snd] in *; [|now left].
    right. exists (updated_product existing r d now).
    destruct (persist_frame env product_id
                (updated_product existing r d now) w1) as (-> & _).
    now rewrite Hres.
  - left. unfold update_product, bind. now rewrite Hex.
Qed.

(** The product map after [create_product]: untouched, or with one record
    filed under the new id. *)
Lemma create_product_db (env : environment)
    (request : ProductCreateRequest.t) (now : datetime) (product_id : string)
    (w : world) :
  products_db (snd (create_product env request now product_id w)) = products_db w
  \/ exists d,
       products_db (snd (create_product env request now product_id w))
       = dict_set key_eqb (KStr product_id)
           (serialize_product (created_product request d now product_id))
           (products_db w).
Proof.
  destruct (needs_generation request) eqn:Hneed.
  - rewrite create_product_generating by exact Hneed.
    pose proof (generate_frame env (ProductCreateRequest.brief request) w)
      as (Hsame & _).
    destruct (generate_product_description env _ w) as [[d|e] w1];
      cbn [snd] in *; [|now left].
    right. exists d.
    destruct (persist_frame env product_id
                (created_product request d now product_id) w1) as (-> & _).
    now rewrite Hsame.
  - destruct (create_product_explicit env request now product_id w Hneed)
      as (d & _ & _ & ->).
    right. exists d.
    now destruct (persist_frame env product_id
                    (created_product request d now product_id) w) as (-> & _).
Qed.

(** ** Other products are left alone *)

(** An operation on one id never changes the record filed under another
    id: creating, updating or deleting [product_id] leaves what the map
    holds under any other key, whether the operation returns or raises. *)
Theorem other_products_untouched (env : environment) (product_id : string)
    (other : pykey) :
  other <> KStr product_id ->
  (forall request now w,
     dict_get key_eqb other
       (products_db (snd (create_product env request now product_id w)))
     = dict_get key_eqb other (products_db w))
  /\ (forall r now w,
        dict_get key_eqb other
          (products_db (snd (update_product env product_id r now w)))
        = dict_get key_eqb other (products_db w))
  /\ (forall w,
        dict_get key_eqb other
          (products_db (snd (delete_product env product_id w)))
        = dict_get key_eqb other (products_db w)).
Proof.
  intros Hne. split; [|split].
  - intros request now w.
    destruct (create_product_db env request now product_id w) as [-> | [d ->]];
      [reflexivity|now apply db_get_set_other].
  - intros r now w.
    destruct (update_product_db env product_id r now w) as [-> | [p ->]];
      [reflexivity|now apply db_get_set_other].
  - intros w. rewrite delete_product_db.
    destruct (dict_mem key_eqb (KStr product_id) (products_db w));
      [now apply db_get_del_other|reflexivity].
Qed.

Lemma other_products_untouched_witness :
  KStr "p2" <> KStr "p1"
  /\ dict_get key_eqb (KStr "p2")
       (products_db (snd (delete_product env_writing "p1" world_lamp)))
     = dict_get key_eqb (KStr "p2") (products_db world_lamp).
Proof.
  assert (Hne : KStr "p2" <> KStr "p1") by discriminate.
  split; [exact Hne|].
  exact (proj2 (proj2 (other_products_untouched env_writing "p1" (KStr "p2") Hne))
           world_lamp).
Defined.

(** ** Errors and the stored state *)

Lemma persist_not_http (env : environment) (product_id : string)
    (p : ProductResponse.t) (w : world) (status : Z) (detail : string) :
  fst (persist env product_id p w) <> Raise (HTTPException status detail).
Proof.
  intros H. apply persist_raises in H. destruct H as (kind & message & H).
  discriminate.
Qed.

(** An operation that ends in an [HTTPException] (404 for an unknown id,
    or one of the codes of the generation client) has changed neither the
    product map nor the snapshot file. *)
Theorem http_error_changes_nothing (env : environment) (status : Z)
    (detail : string) :
  (forall request now product_id w,
     fst (create_product env request now product_id w)
     = Raise (HTTPException status detail) ->
     products_db (snd (create_product env request now product_id w))
     = products_db w
     /\ data_file (snd (create_product env request now product_id w))
        = data_file w)
  /\ (forall product_id r now w,
        fst (update_product env product_id r now w)
        = Raise (HTTPException status detail) ->
        products_db (snd (update_product env product_id r now w))
        = products_db w
        /\ data_file (snd (update_product env product_id r now w))
           = data_file w)
  /\ (forall product_id w,
        fst (delete_product env product_id w)
        = Raise (HTTPException status detail) ->
        snd (delete_product env product_id w) = w).
Proof.
  split; [|split].
  - intros request now product_id w.
    destruct (needs_generation request) eqn:Hneed.
    + rewrite create_product_generating by exact Hneed.
      pose proof (generate_frame env (ProductCreateRequest.brief request) w)
        as (Hdb & Hfile & _).
      destruct (generate_product_description env _ w) as [[d|e] w1];
        cbn [fst snd] in *.
      * intros H. now apply persist_not_http in H.
      * intros _. now split.
    + destruct (create_product_explicit env request now product_id w Hneed)
        as (d & _ & _ & ->).
      intros H. now apply persist_not_http in H.
  - intros product_id r now w.
    pose proof (get_product_or_404_state product_id w) as Hstate.
    destruct (get_product_or_404 product_id w) as [[existing|e] w'] eqn:Hex;
      cbn [snd] in Hstate; subst w'.
    + rewrite (update_product_reading env product_id r now existing w Hex).
      unfold update_reading, bind.
      destruct (resolved_description_db env existing r w) as (Hdb & Hfile).
      destruct (resolved_description env existing r w) as [[d|e] w1];
        cbn [fst snd] in *.
      * intros H. now apply persist_not_http in H.
      * intros _. now split.
    + unfold update_product, bind. rewrite Hex. intros _. now split.
  - intros product_id w. unfold delete_product.
    destruct (dict_mem key_eqb (KStr product_id) (products_db w));
      [|reflexivity].
    unfold bind, set_products_db. rewrite save_products_result.
    cbn [products_db].
    destruct (writable env); [destruct (snapshot_of _)|]; discriminate.
Qed.

Lemma http_error_changes_nothing_witness :
  fst (update_product env_rejecting "p1" regenerating half_past world_lamp)
  = Raise (HTTPException 401 "Invalid Writer API key provided.")
  /\ products_db
       (snd (update_product env_rejecting "p1" regenerating half_past world_lamp))
     = products_db world_lamp
  /\ data_file
       (snd (update_product env_rejecting "p1" regenerating half_past world_lamp))
     = data_file world_lamp.
Proof.
  assert (H : fst (update_product env_rejecting "p1" regenerating half_past
                     world_lamp)
              = Raise (HTTPException 401 "Invalid Writer API key provided."))
    by (vm_compute; reflexivity).
  split; [exact H|].
  exact (proj1 (proj2 (http_error_changes_nothing env_rejecting 401
                         "Invalid Writer API key provided."))
           "p1" regenerating half_past world_lamp H).
Defined.

(** When the snapshot file cannot be opened for writing, an operation that
    got as far as saving raises [OSError] after the map was changed: the
    map holds the new state and the file the old one. For [create_product]
    and [update_product] without generation the record is filed under the
    id; for [delete_product] of a product that is there the record is
    gone. *)
Theorem failed_save_leaves_map_changed (env : environment) :
  writable env = false ->
  (forall request now product_id w,
     needs_generation request = false ->
     let run := create_product env request now product_id w in
     (exists message, fst run = Raise (Exception "OSError" message))
     /\ dict_mem key_eqb (KStr product_id) (products_db (snd run)) = true
     /\ data_file (snd run) = data_file w)
  /\ (forall product_id r now w existing,
        get_product_or_404 product_id w = (Ok existing, w) ->
        (exists d, ProductUpdateRequest.description r = Given (Some d))
        \/ regenerate_flag r = false ->
        let run := update_product env product_id r now w in
        exists description,
          (exists message, fst run = Raise (Exception "OSError" message))
          /\ dict_get key_eqb (KStr product_id) (products_db (snd run))
             = Some (serialize_product
                       (updated_product existing r description now))
          /\ data_file (snd run) = data_file w)
  /\ (forall product_id w,
        dict_mem key_eqb (KStr product_id) (products_db w) = true ->
        let run := delete_product env product_id w in
        (exists message, fst run = Raise (Exception "OSError" message))
        /\ products_db (snd run)
           = dict_del key_eqb (KStr product_id) (products_db w)
        /\ data_file (snd run) = data_file w).
Proof.
  intros Hw. split; [|split].
  - intros request now product_id w Hneed. cbv zeta.
    destruct (create_product_explicit env request now product_id w Hneed)
      as (d & _ & _ & ->).
    rewrite persist_result, Hw. cbn [fst snd products_db data_file].
    split; [now eexists|]. split; [|reflexivity].
    unfold dict_mem. now rewrite db_get_set_same.
  - intros product_id r now w existing Hex Hcase. cbv zeta.
    assert (Hrun : exists d,
               update_product env product_id r now w
               = persist env product_id (updated_product existing r d now) w).
    { destruct (ProductUpdateRequest.description r) as [|[d|]] eqn:Hd.
      - destruct Hcase as [[d Hd']|Hf]; [discriminate|].
        eexists. apply (update_keeping_description env product_id r now
                          existing w Hex); [now left|exact Hf].
      - eexists. now apply (update_with_description env product_id r now
                              existing w Hex d).
      - destruct Hcase as [[d Hd']|Hf]; [discriminate|].
        eexists. apply (update_keeping_description env product_id r now
                          existing w Hex); [now right|exact Hf]. }
    destruct Hrun as [d ->]. exists d.
    rewrite persist_result, Hw. cbn [fst snd products_db data_file].
    split; [now eexists|]. split; [|reflexivity].
    apply db_get_set_same.
  - intros product_id w Hmem. cbv zeta.
    unfold delete_product. rewrite Hmem.
    unfold bind, set_products_db. rewrite save_products_result, Hw.
    cbn [fst snd products_db data_file].
    split; [now eexists|]. split; reflexivity.
Qed.

Lemma failed_save_leaves_map_changed_witness :
  writable env_readonly = false
  /\ needs_generation request_lamp = false
  /\ dict_mem key_eqb (KStr "p1")
       (products_db
          (snd (create_product env_readonly request_lamp noon "p1" world_empty)))
     = true
  /\ data_file
       (snd (create_product env_readonly request_lamp noon "p1" world_empty))
     = Absent.
Proof.
  split; [reflexivity|]. split; [reflexivity|].
  exact (proj2 (proj1 (failed_save_leaves_map_changed env_readonly eq_refl)
                  request_lamp noon "p1" world_empty eq_refl)).
Defined.

(** ** Reading back what was written *)

Lemma get_product_serialized (product_id : string) (p : ProductResponse.t)
    (w : world) :
  dict_get key_eqb (KStr product_id) (products_db w)
  = Some (serialize_product p) ->
  valid_datetime (ProductResponse.created_at p) = true ->
  valid_datetime (ProductResponse.updated_at p) = true ->
  get_product_or_404 product_id w = (Ok p, w).
Proof.
  intros Hget Hc Hu. unfold get_product_or_404. rewrite Hget.
  rewrite validate_serialized by assumption.
  destruct p as [b i d c u]; destruct b. reflexivity.
Qed.

(** What [create_product] or [update_product] returned is what
    [get_product] returns right after, under the same id: the stored
    record, read back through its ISO timestamps, is the returned
    product. (The timestamps are valid [datetime] values.) *)
Theorem read_after_write (env : environment) (product_id : string)
    (now : datetime) (w : world) (p : ProductResponse.t) :
  valid_datetime now = true ->
  (forall request,
     fst (create_product env request now product_id w) = Ok p ->
     get_product product_id (snd (create_product env request now product_id w))
     = (Ok p, snd (create_product env request now product_id w)))
  /\ (forall r existing,
        get_product_or_404 product_id w = (Ok existing, w) ->
        valid_datetime (ProductResponse.created_at existing) = true ->
        fst (update_product env product_id r now w) = Ok p ->
        get_product product_id (snd (update_product env product_id r now w))
        = (Ok p, snd (update_product env product_id r now w))).
Proof.
  intros Hnow. split.
  - intros request Hp. unfold get_product.
    assert (Hshape : exists d, p = created_product request d now product_id
              /\ dict_get key_eqb (KStr product_id)
                   (products_db
                      (snd (create_product env request now product_id w)))
                 = Some (serialize_product p)).
    { destruct (needs_generation request) eqn:Hneed.
      - rewrite create_product_generating in * by exact Hneed.
        destruct (generate_product_description env _ w) as [[d|e] w1];
          cbn [fst snd] in *; [|discriminate].
        pose proof (persist_returns _ _ _ _ _ Hp) as ->.
        exists d. split; [reflexivity|].
        destruct (persist_frame env product_id
                    (created_product request d now product_id) w1) as (-> & _).
        apply db_get_set_same.
      - destruct (create_product_explicit env request now product_id w Hneed)
          as (d & _ & _ & Hrun).
        rewrite Hrun in *.
        pose proof (persist_returns _ _ _ _ _ Hp) as ->.
        exists d. split; [reflexivity|].
        destruct (persist_frame env product_id
                    (created_product request d now product_id) w) as (-> & _).
        apply db_get_set_same. }
    destruct Hshape as (d & Hd & Hget).
    apply get_product_serialized; [exact Hget| |]; subst p; exact Hnow.
  - intros r existing Hex Hcreated Hp. unfold get_product.
    pose proof (update_stores env product_id r now existing w Hex p Hp) as Hget.
    destruct (update_returns env product_id r now existing w Hex p Hp)
      as [d Hd].
    apply get_product_serialized; [exact Hget| |]; subst p;
      [exact Hcreated|exact Hnow].
Qed.

Lemma read_after_write_witness :
  valid_datetime noon = true
  /\ fst (create_product env_writing request_lamp noon "p1" world_empty)
     = Ok product_lamp
  /\ get_product "p1" world_lamp = (Ok product_lamp, world_lamp).
Proof.
  assert (Hp : fst (create_product env_writing request_lamp noon "p1"
                      world_empty) = Ok product_lamp)
    by (vm_compute; reflexivity).
  split; [reflexivity|]. split; [exact Hp|].
  exact (proj1 (read_after_write env_writing "p1" noon world_empty
                  product_lamp eq_refl) request_lamp Hp).
Defined.

(** ** Listing *)

Lemma validate_all_spec (items : list pydict) (ps : list ProductResponse.t) :
  validate_all items = Some ps <->
  Forall2 (fun item p => ProductResponse.validate item = Some p) items ps.
Proof.
  revert ps. induction items as [|item rest IH]; intros ps; cbn [validate_all].
  - split; [intros [= <-]; constructor|intros H; now inversion H].
  - split.
    + destruct (ProductResponse.validate item) as [p|] eqn:E; [|discriminate].
      destruct (validate_all rest) as [qs|]; [|discriminate].
      intros [= <-]. constructor; [exact E|]. now apply IH.
    + intros H. inversion H as [|? p ? qs Hp Hrest]; subst.
      rewrite Hp. apply IH in Hrest. now rewrite Hrest.
Qed.

Lemma validate_all_none (items : list pydict) (item : pydict) :
  In item items -> ProductResponse.validate item = None ->
  validate_all items = None.
Proof.
  induction items as [|x rest IH]; cbn [In validate_all]; [tauto|].
  intros [->|Hin] Hv.
  - now rewrite Hv.
  - rewrite (IH Hin Hv). destruct (ProductResponse.validate x); reflexivity.
Qed.

Lemma db_get_in_values (k : pykey) (e : pydict) (db : dict pykey pydict) :
  dict_get key_eqb k db = Some e -> In e (dict_values db).
Proof.
  unfold dict_values.
  induction db as [|[k0 v0] r IH]; cbn [dict_get map snd In]; [discriminate|].
  destruct (key_eqb k k0); [intros [= ->]; now left|].
  intros H. right. now apply IH.
Qed.

(** [list_products] gives the stored records validated one by one, in
    the order of the map, and leaves the state as it is; every product
    [get_product] can return is in the list. *)
Theorem list_products_complete (w : world) (ps : list ProductResponse.t) :
  fst (list_products w) = Ok ps ->
  snd (list_products w) = w
  /\ Forall2 (fun item p => ProductResponse.validate item = Some p)
       (dict_values (products_db w)) ps
  /\ List.length ps = List.length (products_db w)
  /\ forall product_id p,
       fst (get_product product_id w) = Ok p -> In p ps.
Proof.
  unfold list_products, validated.
  destruct (validate_all (dict_values (products_db w))) as [qs|] eqn:E;
    [|discriminate].
  cbn [ret fst snd]. intros [= <-].
  apply validate_all_spec in E.
  split; [reflexivity|]. split; [exact E|]. split.
  - apply Forall2_length in E. unfold dict_values in E.
    now rewrite length_map in E.
  - intros product_id p. unfold get_product, get_product_or_404, validated.
    destruct (dict_get key_eqb (KStr product_id) (products_db w))
      as [product|] eqn:Hget; [|discriminate].
    destruct (truthy (PDict product)); [|discriminate].
    destruct (ProductResponse.validate product) as [q|] eqn:Hv; [|discriminate].
    cbn [ret fst]. intros [= ->].
    apply db_get_in_values in Hget.
    clear - E Hget Hv.
    induction E as [|item q0 items qs0 Hq HE IH]; [contradiction|].
    destruct Hget as [->|Hin].
    + rewrite Hv in Hq. injection Hq as ->. now left.
    + right. now apply IH.
Qed.

Lemma list_products_complete_witness :
  fst (list_products world_lamp) = Ok [product_lamp]
  /\ snd (list_products world_lamp) = world_lamp
  /\ List.length [product_lamp] = List.length (products_db world_lamp).
Proof.
  assert (H : fst (list_products world_lamp) = Ok [product_lamp])
    by (vm_compute; reflexivity).
  destruct (list_products_complete world_lamp [product_lamp] H)
    as (Hs & _ & Hl & _).
  split; [exact H|]. split; [exact Hs|exact Hl].
Defined.

Lemma validate_missing_field (product : pydict) :
  get "name" product = None \/ get "id" product = None
  \/ get "description" product = None \/ get "created_at" product = None
  \/ get "updated_at" product = None ->
  ProductResponse.validate product = None.
Proof.
  unfold ProductResponse.validate, ProductBrief.validate.
  intros [H|[H|[H|[H|H]]]]; rewrite H; cbn [as_str as_datetime];
    repeat match goal with
           | |- match ?x with Some _ => _ | None => None end = None =>
               destruct x; [|reflexivity]
           end; reflexivity.
Qed.

(** [load_products] and the map do not check records: a stored record
    that lacks one of the required fields ([name], [id], [description],
    [created_at], [updated_at]) makes [list_products] raise for the whole
    list, and [get_product] on its id raise the validation error rather
    than answer 404. *)
Theorem record_without_required_field (w : world) (product_id : string)
    (product : pydict) :
  dict_get key_eqb (KStr product_id) (products_db w) = Some product ->
  product <> [] ->
  get "name" product = None \/ get "id" product = None
  \/ get "description" product = None \/ get "created_at" product = None
  \/ get "updated_at" product = None ->
  list_products w
  = (Raise (Exception "ValidationError" "validation error"), w)
  /\ get_product product_id w
     = (Raise (Exception "ValidationError" "validation error"), w).
Proof.
  intros Hget Hne Hmissing.
  pose proof (validate_missing_field product Hmissing) as Hv. split.
  - unfold list_products.
    now rewrite (validate_all_none _ product (db_get_in_values _ _ _ Hget) Hv).
  - unfold get_product, get_product_or_404. rewrite Hget, Hv.
    destruct product; [now elim Hne|reflexivity].
Qed.

Lemma record_without_required_field_witness :
  load_products file_bare = Ok [(KStr "a", [("id", PStr "a")])]
  /\ list_products world_bare
     = (Raise (Exception "ValidationError" "validation error"), world_bare)
  /\ get_product "a" world_bare
     = (Raise (Exception "ValidationError" "validation error"), world_bare).
Proof.
  split; [reflexivity|].
  apply (record_without_required_field world_bare "a" [("id", PStr "a")]).
  - reflexivity.
  - discriminate.
  - left. reflexivity.
Defined.

(** ** Objects and their JSON *)

Section PyobjInduction.
Variable P : pyobj -> Prop.
Hypothesis Hnone : P PNone.
Hypothesis Hbool : forall b, P (PBool b).
Hypothesis Hint : forall z, P (PInt z).
Hypothesis Hstr : forall s, P (PStr s).
Hypothesis Hlist : forall l, Forall P l -> P (PList l).
Hypothesis Hdict : forall d, Forall (fun kv => P (snd kv)) d -> P (PDict d).
Hypothesis Htime : forall t, P (PDatetime t).

(** Induction on objects, through the lists and dicts they nest. *)
Lemma pyobj_nested_ind : forall v, P v.
Proof.
  fix IH 1. intros [| b | z | s | l | d | t].
  - exact Hnone.
  - apply Hbool.
  - apply Hint.
  - apply Hstr.
  - apply Hlist. induction l as [|x r IHl]; constructor; [apply IH|exact IHl].
  - apply Hdict. induction d as [|[k x] r IHd]; constructor;
      [apply IH|exact IHd].
  - apply Htime.
Qed.

End PyobjInduction.

Section JsonInduction.
Variable P : json -> Prop.
Hypothesis Hnull : P JNull.
Hypothesis Hbool : forall b, P (JBool b).
Hypothesis Hint : forall z, P (JInt z).
Hypothesis Hstr : forall s, P (JStr s).
Hypothesis Harr : forall l, Forall P l -> P (JArr l).
Hypothesis Hobj : forall f, Forall (fun kv => P (snd kv)) f -> P (JObj f).

(** Induction on JSON values, through arrays and objects. *)
Lemma json_nested_ind : forall j, P j.
Proof.
  fix IH 1. intros [| b | z | s | l | f].
  - exact Hnull.
  - apply Hbool.
  - apply Hint.
  - apply Hstr.
  - apply Harr. induction l as [|x r IHl]; constructor; [apply IH|exact IHl].
  - apply Hobj. induction f as [|[k x] r IHf]; constructor;
      [apply IH|exact IHf].
Qed.

End JsonInduction.

(** What [json.dump] wrote for an object, [json.load] reads back as the
    same object. *)
Lemma of_to_json (v : pyobj) : forall j, to_json v = Some j -> of_json j = v.
Proof.
  induction v as [| b | z | s | l IHl | d IHd | t] using pyobj_nested_ind;
    intros j; try (cbn [to_json]; intros [= <-]; reflexivity).
  - rewrite to_json_list.
    destruct (list_to_json l) as [js|] eqn:E; [|discriminate].
    cbn [option_map]. intros [= <-]. cbn [of_json]. f_equal.
    revert js E. induction IHl as [|x r Hx Hr IH]; intros js;
      cbn [list_to_json].
    + now intros [= <-].
    + destruct (to_json x) as [a|] eqn:Ea; [|discriminate].
      destruct (list_to_json r) as [b|]; [|discriminate].
      intros [= <-]. cbn [map]. f_equal; [now apply Hx|now apply IH].
  - rewrite to_json_dict.
    destruct (fields_to_json d) as [fs|] eqn:E; [|discriminate].
    cbn [option_map]. intros [= <-]. cbn [of_json]. f_equal.
    revert fs E. induction IHd as [|[k x] r Hx Hr IH]; intros fs;
      cbn [fields_to_json].
    + now intros [= <-].
    + destruct (to_json x) as [a|] eqn:Ea; [|discriminate].
      destruct (fields_to_json r) as [b|]; [|discriminate].
      intros [= <-]. cbn [map fst snd]. f_equal;
        [f_equal; now apply Hx|now apply IH].
Qed.

(** What [json.load] read can be written by [json.dump], as the same
    JSON. *)
Lemma to_of_json (j : json) : to_json (of_json j) = Some j.
Proof.
  induction j as [| b | z | s | l IHl | f IHf] using json_nested_ind;
    try reflexivity.
  - cbn [of_json]. rewrite to_json_list.
    assert (E : list_to_json (map of_json l) = Some l).
    { induction IHl as [|x r Hx Hr IH]; cbn [map list_to_json];
        [reflexivity|]. now rewrite Hx, IH. }
    now rewrite E.
  - cbn [of_json]. rewrite to_json_dict.
    assert (E : fields_to_json (map (fun kv => (fst kv, of_json (snd kv))) f)
                = Some f).
    { induction IHf as [|[k x] r Hx Hr IH]; cbn [map fields_to_json fst snd];
        [reflexivity|]. cbn [snd] in Hx. now rewrite Hx, IH. }
    now rewrite E.
Qed.

Lemma json_key_object (j : json) : json_key j = object_key (of_json j).
Proof. destruct j; reflexivity. Qed.

Lemma get_object_dict (k : string) (fields : list (string * json)) :
  get k (object_dict fields)
  = option_map of_json (dict_get String.eqb k fields).
Proof.
  unfold get, object_dict.
  induction fields as [|[f v] r IH]; cbn [map dict_get fst snd];
    [reflexivity|].
  destruct (String.eqb k f); [reflexivity|exact IH].
Qed.

Lemma of_json_not_datetime (j : json) (t : datetime) :
  of_json j <> PDatetime t.
Proof. destruct j; discriminate. Qed.

(** A dict that can be written as JSON is the dict of a JSON object. *)
Lemma json_dict_object (e : pydict) (j : json) :
  to_json (PDict e) = Some j ->
  exists fields, j = JObj fields /\ object_dict fields = e.
Proof.
  intros H. pose proof (of_to_json _ _ H) as Hof.
  destruct j as [| b | z | s | l | fields]; try discriminate.
  exists fields. split; [reflexivity|]. now injection Hof.
Qed.

Lemma save_entry_json (e : pydict) (j : json) :
  to_json (PDict e) = Some j -> save_entry e = e.
Proof.
  intros H. destruct (json_dict_object e j H) as (fields & _ & <-).
  unfold save_entry. cbn [fold_left].
  rewrite (get_object_dict "created_at").
  destruct (dict_get String.eqb "created_at" fields) as [v|]; cbn [option_map].
  - destruct (of_json v) eqn:E; try (now apply of_json_not_datetime in E);
      rewrite (get_object_dict "updated_at");
      destruct (dict_get String.eqb "updated_at" fields) as [u|];
      cbn [option_map]; try reflexivity;
      destruct (of_json u) eqn:Eu; try reflexivity;
      now apply of_json_not_datetime in Eu.
  - rewrite (get_object_dict "updated_at").
    destruct (dict_get String.eqb "updated_at" fields) as [u|];
      cbn [option_map]; try reflexivity.
    destruct (of_json u) eqn:Eu; try reflexivity.
    now apply of_json_not_datetime in Eu.
Qed.

(** ** The snapshot read back *)

Lemma set_fresh (k : pykey) (v : pydict) (db : dict pykey pydict) :
  ~ In k (map fst db) -> dict_set key_eqb k v db = (db ++ [(k, v)])%list.
Proof.
  induction db as [|[k' v'] r IH]; cbn [dict_set map fst In app];
    [reflexivity|].
  intros Hk. destruct (key_eqb k k') eqn:E.
  - apply key_eqb_eq in E. subst k'. exfalso. apply Hk. now left.
  - rewrite IH; [reflexivity|]. intros Hin. apply Hk. now right.
Qed.

Lemma fold_set_fresh (db acc : dict pykey pydict) :
  unique_keys (acc ++ db)%list ->
  fold_left (fun a kv => dict_set key_eqb (fst kv) (snd kv) a) db acc
  = (acc ++ db)%list.
Proof.
  unfold unique_keys. revert acc.
  induction db as [|[k v] r IH]; intros acc Hu; cbn [fold_left fst snd].
  - now rewrite app_nil_r.
  - assert (Hk : ~ In k (map fst acc)).
    { rewrite map_app in Hu. cbn [map fst] in Hu.
      apply NoDup_remove_2 in Hu. intros Hin. apply Hu.
      apply in_or_app. now left. }
    rewrite set_fresh by exact Hk. rewrite IH.
    + now rewrite <- app_assoc.
    + now rewrite <- app_assoc.
Qed.

(** The record a lookup finds is filed under the key looked up. *)
Lemma record_ok_lookup (k : pykey) (e : pydict) (db : dict pykey pydict) :
  Forall (fun kv => record_ok (fst kv) (snd kv)) db ->
  dict_get key_eqb k db = Some e -> record_ok k e.
Proof.
  induction 1 as [|[k' v'] r Hx Hr IH]; cbn [dict_get]; [discriminate|].
  destruct (key_eqb k k') eqn:E; [|exact IH].
  apply key_eqb_eq in E. subst k'. now intros [= <-].
Qed.

Lemma records_set (k : pykey) (e : pydict) (db : dict pykey pydict) :
  Forall (fun kv => record_ok (fst kv) (snd kv)) db -> record_ok k e ->
  Forall (fun kv => record_ok (fst kv) (snd kv))
    (dict_set key_eqb k e db).
Proof.
  intros Hdb He.
  induction Hdb as [|[k' v'] r Hx Hr IH]; cbn [dict_set].
  - now constructor.
  - destruct (key_eqb k k') eqn:E.
    + apply key_eqb_eq in E. subst k'. now constructor.
    + now constructor.
Qed.

Lemma records_del (k : pykey) (db : dict pykey pydict) :
  Forall (fun kv => record_ok (fst kv) (snd kv)) db ->
  Forall (fun kv => record_ok (fst kv) (snd kv)) (dict_del key_eqb k db).
Proof.
  induction 1 as [|[k' v'] r Hx Hr IH]; cbn [dict_del]; [constructor|].
  destruct (key_eqb k k'); [exact Hr|now constructor].
Qed.

Lemma consistent_set (k : pykey) (e : pydict) (db : dict pykey pydict) :
  consistent db -> record_ok k e -> consistent (dict_set key_eqb k e db).
Proof.
  intros [Hu Hr] He. split; [now apply unique_set|now apply records_set].
Qed.

Lemma consistent_del (k : pykey) (db : dict pykey pydict) :
  consistent db -> consistent (dict_del key_eqb k db).
Proof.
  intros [Hu Hr]. split; [now apply unique_del|now apply records_del].
Qed.

(** A serialized product is filed as [load_products] would file it, when
    its id is not empty. *)
Lemma record_ok_serialized (p : ProductResponse.t) :
  ProductResponse.id p <> "" ->
  record_ok (KStr (ProductResponse.id p)) (serialize_product p).
Proof.
  intros Hid. split.
  - exists (product_json p).
    rewrite <- (save_entry_serialized p). apply entry_json_serialized.
  - exists (PStr (ProductResponse.id p)).
    destruct (serialized_timestamps p) as (-> & _).
    repeat split. cbn [truthy].
    destruct (ProductResponse.id p); [contradiction|reflexivity].
Qed.

(** The record that filed under a product id validates to a product of
    that id, and the id is not empty. *)
Lemma record_ok_id (product_id : string) (product : pydict)
    (existing : ProductResponse.t) :
  record_ok (KStr product_id) product ->
  ProductResponse.validate product = Some existing ->
  ProductResponse.id existing = product_id /\ product_id <> "".
Proof.
  intros (_ & v & Hget & Htruthy & Hkey).
  unfold ProductResponse.validate. rewrite Hget.
  destruct (ProductBrief.validate product) as [b|]; [|discriminate].
  destruct v as [| | |s| | |]; try discriminate.
  cbn [as_str]. injection Hkey as ->.
  destruct (as_str (get "description" product)); [|discriminate].
  destruct (as_datetime (get "created_at" product)); [|discriminate].
  destruct (as_datetime (get "updated_at" product)); [|discriminate].
  intros [= <-]. split; [reflexivity|].
  intros ->. discriminate.
Qed.

Lemma existing_record (product_id : string) (existing : ProductResponse.t)
    (w : world) :
  get_product_or_404 product_id w = (Ok existing, w) ->
  exists product,
    dict_get key_eqb (KStr product_id) (products_db w) = Some product
    /\ ProductResponse.validate product = Some existing.
Proof.
  unfold get_product_or_404.
  destruct (dict_get key_eqb (KStr product_id) (products_db w))
    as [product|]; [|discriminate].
  destruct (truthy (PDict product)); [|discriminate].
  destruct (ProductResponse.validate product) as [p|] eqn:Hp; [|discriminate].
  intros [= <-]. now exists product.
Qed.

(** What [create_product] comes to: an error before the map is touched,
    or the closing statements around some description. *)
Lemma create_product_cases (env : environment)
    (request : ProductCreateRequest.t) (now : datetime) (product_id : string)
    (w : world) :
  exists w1,
    products_db w1 = products_db w
    /\ ((exists e, create_product env request now product_id w = (Raise e, w1))
        \/ exists d,
             create_product env request now product_id w
             = persist env product_id
                 (created_product request d now product_id) w1).
Proof.
  destruct (needs_generation request) eqn:Hneed.
  - rewrite create_product_generating by exact Hneed.
    pose proof (generate_frame env (ProductCreateRequest.brief request) w)
      as (Hsame & _).
    destruct (generate_product_description env _ w) as [[d|e] w1];
      cbn [snd] in Hsame; exists w1; (split; [exact Hsame|]).
    + right. now exists d.
    + left. now exists e.
  - destruct (create_product_explicit env request now product_id w Hneed)
      as (d & _ & _ & ->).
    exists w. split; [reflexivity|]. right. now exists d.
Qed.

(** What [update_product] comes to: an error before the map is touched,
    or the closing statements around the merged product. *)
Lemma update_product_cases (env : environment) (product_id : string)
    (r : ProductUpdateRequest.t) (now : datetime) (w : world) :
  exists w1,
    products_db w1 = products_db w
    /\ ((exists e, update_product env product_id r now w = (Raise e, w1))
        \/ exists existing d,
             get_product_or_404 product_id w = (Ok existing, w)
             /\ update_product env product_id r now w
                = persist env product_id
                    (updated_product existing r d now) w1).
Proof.
  pose proof (get_product_or_404_state product_id w) as Hstate.
  destruct (get_product_or_404 product_id w) as [[existing|e] w'] eqn:Hex;
    cbn [snd] in Hstate; subst w'.
  - rewrite (update_product_reading env product_id r now existing w Hex).
    unfold update_reading, bind.
    destruct (resolved_description_db env existing r w) as (Hres & _).
    destruct (resolved_description env existing r w) as [[d|e] w1];
      cbn [snd] in Hres; exists w1; (split; [exact Hres|]).
    + right. now exists existing, d.
    + left. now exists e.
  - exists w. split; [reflexivity|]. left. exists e.
    unfold update_product, bind. now rewrite Hex.
Qed.

Lemma updated_record_ok (product_id : string) (existing : ProductResponse.t)
    (r : ProductUpdateRequest.t) (d : string) (now : datetime) (w : world) :
  consistent (products_db w) ->
  get_product_or_404 product_id w = (Ok existing, w) ->
  record_ok (KStr product_id)
    (serialize_product (updated_product existing r d now)).
Proof.
  intros [_ Hr] Hex.
  destruct (existing_record _ _ _ Hex) as (product & Hget & Hval).
  destruct (record_ok_id product_id product existing
              (record_ok_lookup _ _ _ Hr Hget) Hval) as [Hid Hne].
  pose proof (record_ok_serialized (updated_product existing r d now)) as H.
  cbn [updated_product ProductResponse.id] in H.
  rewrite Hid in H. now apply H.
Qed.

Lemma load_items_consistent (items : list json) (acc db : dict pykey pydict) :
  consistent acc -> load_items items acc = Ok db -> consistent db.
Proof.
  revert acc. induction items as [|j rest IH]; intros acc Hacc;
    cbn [load_items].
  - now intros [= <-].
  - destruct j as [| | | | |fields]; try (now apply IH).
    destruct (dict_get String.eqb "id" fields) as [v|] eqn:Hid;
      [|now apply IH].
    destruct (json_truthy v) eqn:Ht; [|now apply IH].
    destruct (json_key v) as [k|] eqn:Hk; [|discriminate].
    apply IH. apply consistent_set; [exact Hacc|]. split.
    + exists (JObj fields). apply (to_of_json (JObj fields)).
    + exists (of_json v). rewrite get_object_dict.
      change (dict_get String.eqb "id" fields) with
        (dict_get String.eqb "id" fields). rewrite Hid.
      repeat split; [exact Ht|]. now rewrite <- json_key_object.
Qed.

Lemma consistent_serializable (db : dict pykey pydict) :
  consistent db -> serializable db = true.
Proof.
  intros [_ Hr]. unfold serializable, dict_values.
  induction Hr as [|[k e] r Hx Hr IH]; cbn [map forallb snd];
    [reflexivity|].
  destruct Hx as ((j & Hj) & _). cbn [snd] in Hj.
  unfold entry_json at 1. rewrite (save_entry_json e j Hj), Hj.
  exact IH.
Qed.

(** Reading the entries [save_products] wrote files each record under
    its key again. *)
Lemma load_items_saved (db : dict pykey pydict) :
  Forall (fun kv => record_ok (fst kv) (snd kv)) db ->
  forall js acc,
    list_to_json (map PDict (map save_entry (dict_values db))) = Some js ->
    load_items js acc
    = Ok (fold_left (fun a kv => dict_set key_eqb (fst kv) (snd kv) a) db acc).
Proof.
  unfold dict_values.
  induction 1 as [|[k e] r Hx Hr IH]; intros js acc;
    cbn [map list_to_json snd fold_left fst].
  - now intros [= <-].
  - destruct Hx as ((j & Hj) & v & Hget & Htruthy & Hkey).
    cbn [fst snd] in *.
    rewrite (save_entry_json e j Hj), Hj.
    destruct (list_to_json (map PDict (map save_entry (map snd r))))
      as [js'|] eqn:Hjs; [|discriminate].
    intros [= <-].
    destruct (json_dict_object e j Hj) as (fields & -> & He).
    cbn [load_items].
    rewrite <- He, get_object_dict in Hget.
    destruct (dict_get String.eqb "id" fields) as [jv|];
      cbn [option_map] in Hget; [|discriminate].
    injection Hget as <-.
    unfold json_truthy. rewrite Htruthy, json_key_object, Hkey, He.
    now apply IH.
Qed.

(** The snapshot of a consistent map, read back, is the map. *)
Lemma snapshot_reload (db : dict pykey pydict) (j : json) :
  consistent db -> snapshot_of db = Some j ->
  load_products (Holds j) = Ok db.
Proof.
  intros [Hu Hr]. unfold snapshot_of. rewrite to_json_list.
  destruct (list_to_json _) as [js|] eqn:Hjs; [|discriminate].
  cbn [option_map]. intros [= <-]. cbn [load_products].
  rewrite (load_items_saved db Hr js [] Hjs).
  now rewrite fold_set_fresh.
Qed.

(** After the closing statements succeeded, the file holds the snapshot
    of the map in memory. *)
Lemma persist_saved (env : environment) (product_id : string)
    (p q : ProductResponse.t) (w : world) :
  fst (persist env product_id p w) = Ok q ->
  exists j,
    data_file (snd (persist env product_id p w)) = Holds j
    /\ snapshot_of (products_db (snd (persist env product_id p w))) = Some j.
Proof.
  rewrite persist_result.
  destruct (writable env); [|discriminate].
  destruct (snapshot_of _) as [j|] eqn:Hj; [|discriminate].
  intros _. exists j. now split.
Qed.

Lemma consistent_empty : consistent [].
Proof. split; constructor. Qed.

Lemma load_products_consistent (f : file_state) (db : dict pykey pydict) :
  load_products f = Ok db -> consistent db.
Proof.
  destruct f as [| | | |raw]; cbn [load_products];
    try (intros [= <-]; exact consistent_empty); try discriminate.
  destruct raw; try (intros [= <-]; exact consistent_empty).
  apply load_items_consistent. exact consistent_empty.
Qed.

Lemma create_consistent (env : environment) (request : ProductCreateRequest.t)
    (now : datetime) (product_id : string) (w : world) :
  product_id <> "" -> consistent (products_db w) ->
  consistent (products_db (snd (create_product env request now product_id w))).
Proof.
  intros Hid Hw.
  destruct (create_product_cases env request now product_id w)
    as (w1 & Hsame & [[e ->] | [d ->]]).
  - cbn [snd]. now rewrite Hsame.
  - destruct (persist_frame env product_id
                (created_product request d now product_id) w1) as (-> & _).
    rewrite Hsame. apply consistent_set; [exact Hw|].
    now apply (record_ok_serialized (created_product request d now product_id)).
Qed.

Lemma update_consistent (env : environment) (product_id : string)
    (r : ProductUpdateRequest.t) (now : datetime) (w : world) :
  consistent (products_db w) ->
  consistent (products_db (snd (update_product env product_id r now w))).
Proof.
  intros Hw.
  destruct (update_product_cases env product_id r now w)
    as (w1 & Hsame & [[e ->] | (existing & d & Hex & ->)]).
  - cbn [snd]. now rewrite Hsame.
  - destruct (persist_frame env product_id
                (updated_product existing r d now) w1) as (-> & _).
    rewrite Hsame. apply consistent_set; [exact Hw|].
    now apply (updated_record_ok product_id existing r d now w).
Qed.

Lemma delete_consistent (env : environment) (product_id : string) (w : world) :
  consistent (products_db w) ->
  consistent (products_db (snd (delete_product env product_id w))).
Proof.
  intros Hw. rewrite delete_product_db.
  destruct (dict_mem key_eqb (KStr product_id) (products_db w));
    [now apply consistent_del|exact Hw].
Qed.

(** After [delete_product] succeeded, the file holds the snapshot of the
    map in memory. *)
Lemma delete_saved (env : environment) (product_id : string) (w : world) :
  fst (delete_product env product_id w) = Ok tt ->
  exists j,
    data_file (snd (delete_product env product_id w)) = Holds j
    /\ snapshot_of (products_db (snd (delete_product env product_id w)))
       = Some j.
Proof.
  unfold delete_product.
  destruct (dict_mem key_eqb (KStr product_id) (products_db w));
    [|discriminate].
  unfold bind, set_products_db. rewrite save_products_result.
  cbn [products_db data_file writer_client generate_calls chat_calls].
  destruct (writable env); [|discriminate].
  destruct (snapshot_of _) as [j|] eqn:Hj; [|discriminate].
  intros _. exists j. now split.
Qed.

Lemma world_lamp_consistent : consistent (products_db world_lamp).
Proof.
  change (products_db world_lamp)
    with (dict_set key_eqb (KStr "p1") (serialize_product product_lamp) []).
  apply consistent_set; [exact consistent_empty|].
  apply (record_ok_serialized product_lamp). discriminate.
Qed.

(** Saving a consistent product map and loading the file gives the
    map back: each record under its key, in the same order. (Consistent:
    each key once, and each record writable as JSON and filed under the
    key of its truthy [id].) *)
Theorem snapshot_round_trip (env : environment) (db : dict pykey pydict)
    (w : world) :
  consistent db -> writable env = true ->
  fst (save_products env db w) = Ok tt
  /\ load_products (data_file (snd (save_products env db w))) = Ok db.
Proof.
  intros Hdb Hw. rewrite save_products_result, Hw.
  destruct (snapshot_serializable db (consistent_serializable db Hdb))
    as [js Hjs].
  rewrite Hjs. cbn [fst snd data_file]. split; [reflexivity|].
  now apply snapshot_reload.
Qed.

Lemma snapshot_round_trip_witness :
  consistent (products_db world_lamp) /\ writable env_writing = true
  /\ fst (save_products env_writing (products_db world_lamp) world_empty)
     = Ok tt
  /\ load_products
       (data_file
          (snd (save_products env_writing (products_db world_lamp) world_empty)))
     = Ok (products_db world_lamp).
Proof.
  split; [exact world_lamp_consistent|]. split; [reflexivity|].
  apply (snapshot_round_trip env_writing (products_db world_lamp) world_empty);
    [exact world_lamp_consistent|reflexivity].
Defined.

(** The product map stays consistent. The map [load_products] builds
    is consistent, and [create_product] (under a non-empty id),
    [update_product] and [delete_product] leave a consistent map
    consistent, whether they return or raise. *)
Theorem consistent_kept (env : environment) :
  (forall f db, load_products f = Ok db -> consistent db)
  /\ (forall request now product_id w,
        product_id <> "" -> consistent (products_db w) ->
        consistent
          (products_db (snd (create_product env request now product_id w))))
  /\ (forall product_id r now w,
        consistent (products_db w) ->
        consistent
          (products_db (snd (update_product env product_id r now w))))
  /\ (forall product_id w,
        consistent (products_db w) ->
        consistent (products_db (snd (delete_product env product_id w)))).
Proof.
  split; [|split; [|split]].
  - exact load_products_consistent.
  - intros request now product_id w. apply create_consistent.
  - intros product_id r now w. apply update_consistent.
  - intros product_id w. apply delete_consistent.
Qed.

Lemma consistent_kept_witness :
  ("p2" <> "" /\ consistent (products_db world_lamp))
  /\ consistent
       (products_db
          (snd (create_product env_writing request_lamp_auto noon "p2"
                  world_lamp)))
  /\ consistent
       (products_db (snd (update_product env_writing "p1" tone_only
                            half_past world_lamp)))
  /\ consistent
       (products_db (snd (delete_product env_writing "p1" world_lamp))).
Proof.
  destruct (consistent_kept env_writing) as (_ & Hc & Hu & Hd).
  split; [split; [discriminate|exact world_lamp_consistent]|].
  split; [|split].
  - apply Hc; [discriminate|exact world_lamp_consistent].
  - apply Hu. exact world_lamp_consistent.
  - apply Hd. exact world_lamp_consistent.
Defined.

(** A restart loses nothing. After [create_product] (under a
    non-empty id), [update_product] or [delete_product] returned from a
    consistent product map, [load_products] on the file gives exactly the
    map in memory. *)
Theorem restart_restores_map (env : environment) (w : world) :
  consistent (products_db w) ->
  (forall request now product_id p,
     product_id <> "" ->
     fst (create_product env request now product_id w) = Ok p ->
     load_products
       (data_file (snd (create_product env request now product_id w)))
     = Ok (products_db (snd (create_product env request now product_id w))))
  /\ (forall product_id r now p,
        fst (update_product env product_id r now w) = Ok p ->
        load_products
          (data_file (snd (update_product env product_id r now w)))
        = Ok (products_db (snd (update_product env product_id r now w))))
  /\ (forall product_id,
        fst (delete_product env product_id w) = Ok tt ->
        load_products (data_file (snd (delete_product env product_id w)))
        = Ok (products_db (snd (delete_product env product_id w)))).
Proof.
  intros Hw. split; [|split].
  - intros request now product_id p Hid Hp.
    pose proof (create_consistent env request now product_id w Hid Hw) as Hc.
    destruct (create_product_cases env request now product_id w)
      as (w1 & _ & [[e He] | [d Hd]]).
    + rewrite He in Hp. discriminate.
    + rewrite Hd in *. destruct (persist_saved _ _ _ _ _ Hp) as (j & -> & Hj).
      now apply snapshot_reload.
  - intros product_id r now p Hp.
    pose proof (update_consistent env product_id r now w Hw) as Hc.
    destruct (update_product_cases env product_id r now w)
      as (w1 & _ & [[e He] | (existing & d & _ & Hd)]).
    + rewrite He in Hp. discriminate.
    + rewrite Hd in *. destruct (persist_saved _ _ _ _ _ Hp) as (j & -> & Hj).
      now apply snapshot_reload.
  - intros product_id Hp.
    pose proof (delete_consistent env product_id w Hw) as Hc.
    destruct (delete_saved env product_id w Hp) as (j & -> & Hj).
    now apply snapshot_reload.
Qed.

Lemma restart_restores_map_witness :
  consistent (products_db world_lamp)
  /\ "p2" <> ""
  /\ load_products
       (data_file (snd (create_product env_writing request_lamp half_past "p2"
                          world_lamp)))
     = Ok (products_db (snd (create_product env_writing request_lamp half_past
                               "p2" world_lamp)))
  /\ load_products
       (data_file (snd (update_product env_writing "p1" tone_only half_past
                          world_lamp)))
     = Ok (products_db (snd (update_product env_writing "p1" tone_only
                               half_past world_lamp)))
  /\ load_products
       (data_file (snd (delete_product env_writing "p1" world_lamp)))
     = Ok (products_db (snd (delete_product env_writing "p1" world_lamp))).
Proof.
  destruct (restart_restores_map env_writing world_lamp world_lamp_consistent)
    as (Hc & Hu & Hd).
  split; [exact world_lamp_consistent|]. split; [discriminate|].
  split; [|split].
  - apply (Hc request_lamp half_past "p2"
             (created_product request_lamp "Bright light." half_past "p2"));
      [discriminate|vm_compute; reflexivity].
  - apply (Hu "p1" tone_only half_past
             (updated_product product_lamp tone_only "Bright light." half_past)).
    vm_compute. reflexivity.
  - apply Hd. vm_compute. reflexivity.
Defined.

(** ** The client, once built *)

(** What a call of the generation client leaves of the client and of the
    requests made: the client is the credential, and the provider was
    asked once, with the prompt built from the brief, if there is one. *)
Lemma generate_client (env : environment) (brief : ProductBrief.t) (w : world) :
  let w' := snd (generate_product_description env brief w) in
  writer_client w' = credential env w
  /\ chat_calls w'
     = match credential env w with
       | Some _ => (chat_calls w ++ [build_generation_prompt brief])%list
       | None => chat_calls w
       end.
Proof.
  unfold credential. unfold_monad. cbn [writer_client chat_calls].
  destruct (build_generation_prompt brief) as [prompt max_tokens].
  destruct (writer_client w) as [client|] eqn:Hc;
    [|destruct (WRITER_API_KEY env) as [api_key|];
      [destruct (nonempty api_key)|]];
    try (split; [exact Hc|reflexivity]);
    try (split; reflexivity);
    cbn [chat_calls];
    (destruct (chat env (List.length (chat_calls w)) prompt max_tokens)
       as [content|message];
     [ destruct (nonempty (strip content)); split; try exact Hc; reflexivity
     | destruct (contains "api_key" (lower message));
       [split; try exact Hc; reflexivity|];
       destruct (contains "rate limit" (lower message));
       split; try exact Hc; reflexivity ]).
Qed.

(** With a client built, the call does not read [WRITER_API_KEY]. *)
Lemma generate_key_unread (env : environment) (key : option string)
    (brief : ProductBrief.t) (w : world) (c : string) :
  writer_client w = Some c ->
  generate_product_description (with_key key env) brief w
  = generate_product_description env brief w.
Proof.
  intros Hc. unfold_monad. cbn [writer_client chat_calls].
  rewrite Hc. reflexivity.
Qed.

Lemma persist_client (env : environment) (product_id : string)
    (p : ProductResponse.t) (w : world) :
  writer_client (snd (persist env product_id p w)) = writer_client w.
Proof.
  rewrite persist_result.
  destruct (writable env); [destruct (snapshot_of _)|]; reflexivity.
Qed.

Lemma resolved_description_client (env : environment)
    (existing : ProductResponse.t) (r : ProductUpdateRequest.t) (w : world)
    (c : string) :
  writer_client w = Some c ->
  writer_client (snd (resolved_description env existing r w)) = Some c.
Proof.
  intros Hc. unfold resolved_description.
  destruct (ProductUpdateRequest.description r) as [|[d|]];
    try destruct (regenerate_flag r); try exact Hc;
    destruct (generate_client env
                (merged_brief (ProductResponse.brief existing) r) w)
      as (-> & _); unfold credential; now rewrite Hc.
Qed.

Lemma create_client (env : environment) (request : ProductCreateRequest.t)
    (now : datetime) (product_id : string) (w : world) (c : string) :
  writer_client w = Some c ->
  writer_client (snd (create_product env request now product_id w)) = Some c.
Proof.
  intros Hc. destruct (needs_generation request) eqn:Hneed.
  - rewrite create_product_generating by exact Hneed.
    pose proof (generate_client env (ProductCreateRequest.brief request) w)
      as (Hcl & _).
    unfold credential in Hcl. rewrite Hc in Hcl.
    destruct (generate_product_description env _ w) as [[d|e] w1];
      cbn [snd] in *; [|exact Hcl].
    now rewrite persist_client.
  - destruct (create_product_explicit env request now product_id w Hneed)
      as (d & _ & _ & ->).
    now rewrite persist_client.
Qed.

Lemma update_client (env : environment) (product_id : string)
    (r : ProductUpdateRequest.t) (now : datetime) (w : world) (c : string) :
  writer_client w = Some c ->
  writer_client (snd (update_product env product_id r now w)) = Some c.
Proof.
  intros Hc.
  pose proof (get_product_or_404_state product_id w) as Hstate.
  destruct (get_product_or_404 product_id w) as [[existing|e] w'] eqn:Hex;
    cbn [snd] in Hstate; subst w'.
  - rewrite (update_product_reading env product_id r now existing w Hex).
    unfold update_reading, bind.
    pose proof (resolved_description_client env existing r w c Hc) as Hres.
    destruct (resolved_description env existing r w) as [[d|e] w1];
      cbn [snd] in *; [|exact Hres].
    now rewrite persist_client.
  - unfold update_product, bind. now rewrite Hex.
Qed.

Lemma delete_client (env : environment) (product_id : string) (w : world) :
  writer_client (snd (delete_product env product_id w)) = writer_client w.
Proof.
  unfold delete_product.
  destruct (dict_mem key_eqb (KStr product_id) (products_db w));
    [|reflexivity].
  unfold bind, set_products_db. rewrite save_products_result.
  cbn [products_db data_file writer_client generate_calls chat_calls].
  destruct (writable env); [destruct (snapshot_of _)|]; reflexivity.
Qed.

Lemma world_generated_client : writer_client world_generated = Some "secret".
Proof. vm_compute. reflexivity. Qed.

(** What [generate_description_endpoint] does and does not do. It
    leaves the product map and the snapshot file alone; the client after
    the call is the one already built, else one built from a non-empty
    [WRITER_API_KEY], else still missing; the provider is asked exactly
    once, with the prompt and token budget built from the request, when
    there is a client, and not at all when there is none; and a returned
    description is trimmed and not empty. *)
Theorem generation_endpoint_effects (env : environment)
    (request : ProductBrief.t) (w : world) :
  let w' := snd (generate_description_endpoint env request w) in
  products_db w' = products_db w
  /\ data_file w' = data_file w
  /\ writer_client w' = credential env w
  /\ (credential env w = None -> chat_calls w' = chat_calls w)
  /\ (credential env w <> None ->
      chat_calls w'
      = (chat_calls w ++ [build_generation_prompt request])%list)
  /\ (forall d,
        fst (generate_description_endpoint env request w) = Ok d ->
        nonempty d = true /\ strip d = d).
Proof.
  unfold generate_description_endpoint. cbv zeta.
  destruct (generate_frame env request w) as (Hdb & Hfile & _).
  destruct (generate_client env request w) as (Hclient & Hchat).
  split; [exact Hdb|]. split; [exact Hfile|]. split; [exact Hclient|].
  split; [|split].
  - intros Hnone. now rewrite Hnone in Hchat.
  - intros Hsome. destruct (credential env w); [exact Hchat|now elim Hsome].
  - intros d. apply generate_returns.
Qed.

Lemma generation_endpoint_effects_witness :
  credential env_writing world_empty <> None
  /\ chat_calls
       (snd (generate_description_endpoint env_writing brief_lamp world_empty))
     = (chat_calls world_empty ++ [build_generation_prompt brief_lamp])%list
  /\ credential env_unset world_empty = None
  /\ chat_calls
       (snd (generate_description_endpoint env_unset brief_lamp world_empty))
     = chat_calls world_empty
  /\ fst (generate_description_endpoint env_writing brief_lamp world_empty)
     = Ok "A lamp that listens."
  /\ nonempty "A lamp that listens." = true.
Proof.
  destruct (generation_endpoint_effects env_writing brief_lamp world_empty)
    as (_ & _ & _ & _ & Hasked & Hreturned).
  destruct (generation_endpoint_effects env_unset brief_lamp world_empty)
    as (_ & _ & _ & Hnot & _).
  split; [discriminate|]. split; [apply Hasked; discriminate|].
  split; [reflexivity|]. split; [apply Hnot; reflexivity|].
  assert (H : fst (generate_description_endpoint env_writing brief_lamp
                     world_empty) = Ok "A lamp that listens.")
    by (vm_compute; reflexivity).
  split; [exact H|]. exact (proj1 (Hreturned _ H)).
Defined.

(** The client is built once. With a client already built, a call of
    the generation client does not read [WRITER_API_KEY]: under any
    other value of the variable, set, empty or unset, it does the same;
    and generation, [create_product], [update_product] and
    [delete_product] all leave the client in place, whether they return
    or raise. *)
Theorem client_built_once (env : environment) (w : world) (c : string) :
  writer_client w = Some c ->
  (forall key brief,
     generate_product_description (with_key key env) brief w
     = generate_product_description env brief w)
  /\ (forall brief,
        writer_client (snd (generate_product_description env brief w))
        = Some c)
  /\ (forall request now product_id,
        writer_client (snd (create_product env request now product_id w))
        = Some c)
  /\ (forall product_id r now,
        writer_client (snd (update_product env product_id r now w)) = Some c)
  /\ (forall product_id,
        writer_client (snd (delete_product env product_id w)) = Some c).
Proof.
  intros Hc. split; [|split; [|split; [|split]]].
  - intros key brief. now apply (generate_key_unread env key brief w c).
  - intros brief. destruct (generate_client env brief w) as (-> & _).
    unfold credential. now rewrite Hc.
  - intros request now product_id. now apply create_client.
  - intros product_id r now. now apply update_client.
  - intros product_id. now rewrite delete_client.
Qed.

Lemma client_built_once_witness :
  writer_client world_generated = Some "secret"
  /\ generate_product_description (with_key None env_writing) brief_lamp
       world_generated
     = generate_product_description env_writing brief_lamp world_generated
  /\ writer_client
       (snd (create_product env_rejecting request_lamp_auto noon "p1"
               world_generated))
     = Some "secret".
Proof.
  destruct (client_built_once env_writing world_generated "secret"
              world_generated_client) as (Hkey & _).
  destruct (client_built_once env_rejecting world_generated "secret"
              world_generated_client) as (_ & _ & Hcreate & _).
  split; [exact world_generated_client|]. split.
  - apply Hkey.
  - apply Hcreate.
Defined.

(** ** What is there, and in which order *)

Lemma get_none_absent (k : pykey) (db : dict pykey pydict) :
  dict_get key_eqb k db = None -> ~ In k (map fst db).
Proof.
  induction db as [|[k' v'] r IH]; cbn [dict_get map fst In]; [tauto|].
  destruct (key_eqb k k') eqn:E; [discriminate|].
  intros H [Hk | Hin]; [|now apply IH].
  subst k'. now rewrite key_eqb_refl in E.
Qed.

Lemma mem_false_absent (k : pykey) (db : dict pykey pydict) :
  dict_mem key_eqb k db = false -> ~ In k (map fst db).
Proof.
  unfold dict_mem. intros H. apply get_none_absent.
  destruct (dict_get key_eqb k db); [discriminate|reflexivity].
Qed.

Lemma del_fresh_last (k : pykey) (v : pydict) (db : dict pykey pydict) :
  ~ In k (map fst db) -> dict_del key_eqb k (db ++ [(k, v)])%list = db.
Proof.
  induction db as [|[k' v'] r IH]; cbn [dict_del map fst In app].
  - intros _. now rewrite key_eqb_refl.
  - intros Hk. destruct (key_eqb k k') eqn:E.
    + apply key_eqb_eq in E. subst k'. exfalso. apply Hk. now left.
    + rewrite IH; [reflexivity|]. intros Hin. apply Hk. now right.
Qed.

Lemma validate_all_app (a b : list pydict) :
  validate_all (a ++ b)
  = match validate_all a, validate_all b with
    | Some x, Some y => Some (x ++ y)%list
    | _, _ => None
    end.
Proof.
  induction a as [|e r IH]; cbn [app validate_all].
  - destruct (validate_all b); reflexivity.
  - rewrite IH. destruct (ProductResponse.validate e); [|reflexivity].
    destruct (validate_all r); [|reflexivity].
    destruct (validate_all b); reflexivity.
Qed.

Lemma list_products_result (w : world) (ps : list ProductResponse.t) :
  fst (list_products w) = Ok ps <->
  validate_all (dict_values (products_db w)) = Some ps.
Proof.
  unfold list_products, validated.
  destruct (validate_all (dict_values (products_db w))) as [qs|];
    cbn [ret raise fst]; split; intros H; try discriminate;
    now injection H as ->.
Qed.

(** A record filed consistently validates to a product filed under its
    own id. *)
Lemma record_ok_key (k : pykey) (e : pydict) (q : ProductResponse.t) :
  record_ok k e -> ProductResponse.validate e = Some q ->
  k = KStr (ProductResponse.id q).
Proof.
  intros (_ & v & Hget & _ & Hkey).
  unfold ProductResponse.validate. rewrite Hget.
  destruct (ProductBrief.validate e) as [b|]; [|discriminate].
  destruct v as [| | |s| | |]; try discriminate.
  cbn [as_str]. injection Hkey as <-.
  destruct (as_str (get "description" e)); [|discriminate].
  destruct (as_datetime (get "created_at" e)); [|discriminate].
  destruct (as_datetime (get "updated_at" e)); [|discriminate].
  now intros [= <-].
Qed.

(** The product of [product_id] replaced by [p]; the others as they are. *)
Lemma validate_all_tail_same (product_id : string) (p : ProductResponse.t)
    (db : dict pykey pydict) (ps : list ProductResponse.t) :
  Forall (fun kv => record_ok (fst kv) (snd kv)) db ->
  ~ In (KStr product_id) (map fst db) ->
  validate_all (dict_values db) = Some ps ->
  map (fun q => if String.eqb (ProductResponse.id q) product_id then p else q)
    ps = ps.
Proof.
  unfold dict_values. intros Hr. revert ps.
  induction Hr as [|[k e] r Hx Hr IH]; intros ps Hk;
    cbn [map snd fst validate_all In] in *.
  - now intros [= <-].
  - destruct (ProductResponse.validate e) as [q|] eqn:Hq; [|discriminate].
    destruct (validate_all (map snd r)) as [qs|]; [|discriminate].
    intros [= <-]. cbn [map]. f_equal.
    + pose proof (record_ok_key k e q Hx Hq) as ->.
      destruct (String.eqb (ProductResponse.id q) product_id) eqn:E;
        [|reflexivity].
      apply String.eqb_eq in E. subst product_id. exfalso. apply Hk. now left.
    + apply IH; [|reflexivity]. intros Hin. apply Hk. now right.
Qed.

Lemma validate_all_set (product_id : string) (v : pydict)
    (p : ProductResponse.t) (db : dict pykey pydict)
    (ps : list ProductResponse.t) :
  consistent db ->
  dict_mem key_eqb (KStr product_id) db = true ->
  ProductResponse.validate v = Some p ->
  validate_all (dict_values db) = Some ps ->
  validate_all (dict_values (dict_set key_eqb (KStr product_id) v db))
  = Some (map (fun q =>
                 if String.eqb (ProductResponse.id q) product_id then p else q)
            ps).
Proof.
  unfold dict_values, consistent, unique_keys, dict_mem.
  intros [Hu Hr] Hmem Hv. revert ps Hu Hmem.
  induction Hr as [|[k e] r Hx Hr IH]; intros ps Hu Hmem;
    cbn [map snd fst validate_all dict_set dict_get] in *; [discriminate|].
  destruct (ProductResponse.validate e) as [q|] eqn:Hq; [|discriminate].
  destruct (validate_all (map snd r)) as [qs|] eqn:Hqs; [|discriminate].
  intros [= <-]. cbn [map].
  pose proof (record_ok_key k e q Hx Hq) as ->.
  inversion Hu as [|? ? Hnotin Hu']; subst.
  destruct (key_eqb (KStr product_id) (KStr (ProductResponse.id q))) eqn:E.
  - apply key_eqb_eq in E. injection E as E.
    cbn [map snd validate_all]. rewrite Hv, Hqs.
    rewrite <- E, String.eqb_refl.
    rewrite (validate_all_tail_same product_id p r qs Hr); [reflexivity| |].
    + now rewrite E.
    + exact Hqs.
  - cbn [map snd validate_all]. rewrite Hq.
    rewrite (IH qs Hu' Hmem eq_refl).
    destruct (String.eqb (ProductResponse.id q) product_id) eqn:E';
      [|reflexivity].
    apply String.eqb_eq in E'. subst product_id.
    cbn [key_eqb] in E. now rewrite String.eqb_refl in E.
Qed.

Lemma list_to_json_prefix (a b : list pyobj) (y : list json) :
  list_to_json (a ++ b)%list = Some y -> exists x, list_to_json a = Some x.
Proof.
  revert y. induction a as [|v r IH]; intros y; cbn [app list_to_json].
  - intros _. now eexists.
  - destruct (to_json v) as [x|]; [|discriminate].
    destruct (list_to_json (r ++ b)%list) as [z|] eqn:Ez; [|discriminate].
    intros _. destruct (IH z eq_refl) as [x' Hx']. exists (x :: x').
    now rewrite Hx'.
Qed.

Lemma snapshot_prefix (a b : dict pykey pydict) (j : json) :
  snapshot_of (a ++ b)%list = Some j -> exists j', snapshot_of a = Some j'.
Proof.
  unfold snapshot_of, dict_values. rewrite !to_json_list, !map_app.
  destruct (list_to_json (_ ++ _)%list) as [y|] eqn:Ey; [|discriminate].
  intros _. destruct (list_to_json_prefix _ _ _ Ey) as [x Hx].
  exists (JArr x). exact (f_equal (option_map JArr) Hx).
Qed.

(** A created product, as a record of the map and as the returned
    value. *)
Lemma create_product_stored (env : environment)
    (request : ProductCreateRequest.t) (now : datetime) (product_id : string)
    (w : world) (p : ProductResponse.t) :
  fst (create_product env request now product_id w) = Ok p ->
  let w' := snd (create_product env request now product_id w) in
  (exists d, p = created_product request d now product_id)
  /\ products_db w'
     = dict_set key_eqb (KStr product_id) (serialize_product p) (products_db w)
  /\ writable env = true
  /\ exists j, snapshot_of (products_db w') = Some j /\ data_file w' = Holds j.
Proof.
  intros Hp. cbv zeta.
  destruct (create_product_cases env request now product_id w)
    as (w1 & Hsame & [[e He] | [d Hd]]).
  - rewrite He in Hp. discriminate.
  - rewrite Hd in *. pose proof (persist_returns _ _ _ _ _ Hp) as ->.
    split; [now exists d|].
    destruct (persist_saved _ _ _ _ _ Hp) as (j & Hfile & Hj).
    destruct (persist_frame env product_id
                (created_product request d now product_id) w1) as (Hdb & _).
    split; [now rewrite Hdb, Hsame|].
    split; [|now exists j].
    rewrite persist_result in Hp.
    destruct (writable env); [reflexivity|discriminate].
Qed.

Lemma update_product_stored (env : environment) (product_id : string)
    (r : ProductUpdateRequest.t) (now : datetime) (w : world)
    (p : ProductResponse.t) :
  fst (update_product env product_id r now w) = Ok p ->
  let w' := snd (update_product env product_id r now w) in
  (exists existing d,
     get_product_or_404 product_id w = (Ok existing, w)
     /\ p = updated_product existing r d now)
  /\ products_db w'
     = dict_set key_eqb (KStr product_id) (serialize_product p) (products_db w).
Proof.
  intros Hp. cbv zeta.
  destruct (update_product_cases env product_id r now w)
    as (w1 & Hsame & [[e He] | (existing & d & Hex & Hd)]).
  - rewrite He in Hp. discriminate.
  - rewrite Hd in *. pose proof (persist_returns _ _ _ _ _ Hp) as ->.
    split; [now exists existing, d|].
    destruct (persist_frame env product_id
                (updated_product existing r d now) w1) as (Hdb & _).
    now rewrite Hdb, Hsame.
Qed.

(** The order of the listing. A product created under an id not yet
    in the map is listed last, after the products listed before. An
    updated product keeps its place in the listing of a consistent map,
    and the other products are listed as before. (The timestamps are
    valid [datetime] values.) *)
Theorem listing_order (env : environment) (product_id : string)
    (now : datetime) (w : world) (ps : list ProductResponse.t)
    (p : ProductResponse.t) :
  valid_datetime now = true ->
  fst (list_products w) = Ok ps ->
  (forall request,
     dict_mem key_eqb (KStr product_id) (products_db w) = false ->
     fst (create_product env request now product_id w) = Ok p ->
     fst (list_products (snd (create_product env request now product_id w)))
     = Ok (ps ++ [p])%list)
  /\ (forall r existing,
        consistent (products_db w) ->
        get_product_or_404 product_id w = (Ok existing, w) ->
        valid_datetime (ProductResponse.created_at existing) = true ->
        fst (update_product env product_id r now w) = Ok p ->
        fst (list_products (snd (update_product env product_id r now w)))
        = Ok (map (fun q =>
                     if String.eqb (ProductResponse.id q) product_id
                     then p else q) ps)).
Proof.
  intros Hnow Hps. apply list_products_result in Hps. split.
  - intros request Hfresh Hp.
    destruct (create_product_stored env request now product_id w p Hp)
      as ((d & Hd) & Hdb & _).
    apply list_products_result. rewrite Hdb.
    rewrite set_fresh by now apply mem_false_absent.
    unfold dict_values. rewrite map_app. cbn [map snd].
    rewrite validate_all_app. fold (dict_values (products_db w)).
    rewrite Hps. cbn [validate_all].
    rewrite validate_serialized; [reflexivity| |]; subst p; exact Hnow.
  - intros r existing Hw Hex Hcreated Hp.
    destruct (update_product_stored env product_id r now w p Hp)
      as ((existing' & d & Hex' & Hd) & Hdb).
    rewrite Hex in Hex'. injection Hex' as <-.
    apply list_products_result. rewrite Hdb.
    apply validate_all_set; [exact Hw| | |exact Hps].
    + destruct (existing_record _ _ _ Hex) as (product & Hget & _).
      unfold dict_mem. now rewrite Hget.
    + apply validate_serialized; subst p; [exact Hcreated|exact Hnow].
Qed.

Lemma listing_order_witness :
  valid_datetime half_past = true
  /\ fst (list_products world_lamp) = Ok [product_lamp]
  /\ fst (list_products
            (snd (create_product env_writing request_lamp half_past "p2"
                    world_lamp)))
     = Ok [product_lamp;
           created_product request_lamp "Bright light." half_past "p2"]
  /\ fst (list_products
            (snd (update_product env_writing "p1" tone_only half_past
                    world_lamp)))
     = Ok [updated_product product_lamp tone_only "Bright light." half_past].
Proof.
  assert (Hps : fst (list_products world_lamp) = Ok [product_lamp])
    by (vm_compute; reflexivity).
  split; [reflexivity|]. split; [exact Hps|]. split.
  - apply (proj1 (listing_order env_writing "p2" half_past world_lamp
                    [product_lamp]
                    (created_product request_lamp "Bright light." half_past "p2")
                    eq_refl Hps) request_lamp); vm_compute; reflexivity.
  - apply (proj2 (listing_order env_writing "p1" half_past world_lamp
                    [product_lamp]
                    (updated_product product_lamp tone_only "Bright light."
                       half_past)
                    eq_refl Hps) tone_only product_lamp);
      [exact world_lamp_consistent| | |]; vm_compute; reflexivity.
Defined.

(** [get_product] and [delete_product] agree on what is there. On a
    consistent map, both answer 404 for an id that is not a key of the
    map, and neither answers 404 for an id that is. *)
Theorem lookup_and_delete_agree (env : environment) (product_id : string)
    (w : world) :
  consistent (products_db w) ->
  (dict_mem key_eqb (KStr product_id) (products_db w) = false ->
   fst (get_product product_id w)
   = Raise (HTTPException 404 "Product not found")
   /\ fst (delete_product env product_id w)
      = Raise (HTTPException 404 "Product not found"))
  /\ (dict_mem key_eqb (KStr product_id) (products_db w) = true ->
      http_status (fst (get_product product_id w)) <> Some 404
      /\ http_status (fst (delete_product env product_id w)) <> Some 404).
Proof.
  intros [_ Hr]. unfold get_product, get_product_or_404, delete_product, dict_mem.
  destruct (dict_get key_eqb (KStr product_id) (products_db w))
    as [product|] eqn:Hget.
  - split; [discriminate|]. intros _. split.
    + destruct (record_ok_lookup _ _ _ Hr Hget) as (_ & v & Hid & _).
      destruct product as [|kv rest]; [discriminate|].
      cbn [truthy]. unfold validated.
      destruct (ProductResponse.validate (kv :: rest)); discriminate.
    + unfold bind, set_products_db. rewrite save_products_result.
      destruct (writable env); [destruct (snapshot_of _)|]; discriminate.
  - split; [|discriminate]. intros _. split; reflexivity.
Qed.

Lemma lookup_and_delete_agree_witness :
  consistent (products_db world_lamp)
  /\ dict_mem key_eqb (KStr "p2") (products_db world_lamp) = false
  /\ fst (get_product "p2" world_lamp)
     = Raise (HTTPException 404 "Product not found")
  /\ fst (delete_product env_writing "p2" world_lamp)
     = Raise (HTTPException 404 "Product not found")
  /\ dict_mem key_eqb (KStr "p1") (products_db world_lamp) = true
  /\ http_status (fst (get_product "p1" world_lamp)) <> Some 404.
Proof.
  destruct (lookup_and_delete_agree env_writing "p2" world_lamp
              world_lamp_consistent) as (Hmissing & _).
  destruct (lookup_and_delete_agree env_writing "p1" world_lamp
              world_lamp_consistent) as (_ & Hthere).
  split; [exact world_lamp_consistent|].
  split; [reflexivity|].
  split; [exact (proj1 (Hmissing eq_refl))|].
  split; [exact (proj2 (Hmissing eq_refl))|].
  split; [reflexivity|].
  exact (proj1 (Hthere eq_refl)).
Defined.

(** A product created and deleted again leaves no trace. After
    [create_product] returned under an id not yet in the map,
    [delete_product] of that id returns, the map is the one before the
    creation, and the file holds the snapshot of that map. *)
Theorem create_then_delete (env : environment)
    (request : ProductCreateRequest.t) (now : datetime) (product_id : string)
    (w : world) (p : ProductResponse.t) :
  dict_mem key_eqb (KStr product_id) (products_db w) = false ->
  fst (create_product env request now product_id w) = Ok p ->
  let w1 := snd (create_product env request now product_id w) in
  let w2 := snd (delete_product env product_id w1) in
  fst (delete_product env product_id w1) = Ok tt
  /\ products_db w2 = products_db w
  /\ exists j, snapshot_of (products_db w) = Some j /\ data_file w2 = Holds j.
Proof.
  intros Hfresh Hp. cbv zeta.
  destruct (create_product_stored env request now product_id w p Hp)
    as (_ & Hdb & Hwritable & j1 & Hj1 & _).
  apply mem_false_absent in Hfresh.
  rewrite Hdb, set_fresh in Hj1 by exact Hfresh.
  destruct (snapshot_prefix _ _ _ Hj1) as [j Hj].
  unfold delete_product, dict_mem. rewrite Hdb, db_get_set_same.
  unfold bind, set_products_db. rewrite save_products_result.
  cbn [products_db data_file writer_client generate_calls chat_calls].
  rewrite Hwritable, set_fresh, del_fresh_last by exact Hfresh.
  rewrite Hj. cbn [fst snd products_db data_file].
  split; [reflexivity|]. split; [reflexivity|]. now exists j.
Qed.

Lemma create_then_delete_witness :
  dict_mem key_eqb (KStr "p2") (products_db world_lamp) = false
  /\ fst (create_product env_writing request_lamp half_past "p2" world_lamp)
     = Ok (created_product request_lamp "Bright light." half_past "p2")
  /\ products_db
       (snd (delete_product env_writing "p2"
               (snd (create_product env_writing request_lamp half_past "p2"
                       world_lamp))))
     = products_db world_lamp.
Proof.
  assert (Hp : fst (create_product env_writing request_lamp half_past "p2"
                      world_lamp)
               = Ok (created_product request_lamp "Bright light." half_past "p2"))
    by (vm_compute; reflexivity).
  split; [reflexivity|]. split; [exact Hp|].
  exact (proj1 (proj2 (create_then_delete env_writing request_lamp half_past
                         "p2" world_lamp _ eq_refl Hp))).
Defined.

(** ** The same update twice *)

Lemma merged_brief_idempotent (b : ProductBrief.t) (r : ProductUpdateRequest.t) :
  merged_brief (merged_brief b r) r = merged_brief b r.
Proof.
  destruct r as [n c br t f k to a l an len d rg]. unfold merged_brief.
  cbn [ProductUpdateRequest.name ProductUpdateRequest.category
       ProductUpdateRequest.brand ProductUpdateRequest.tagline
       ProductUpdateRequest.features ProductUpdateRequest.seo_keywords
       ProductUpdateRequest.tone ProductUpdateRequest.audience
       ProductUpdateRequest.language ProductUpdateRequest.additional_notes
       ProductUpdateRequest.length
       ProductBrief.name ProductBrief.category ProductBrief.brand
       ProductBrief.tagline ProductBrief.features ProductBrief.seo_keywords
       ProductBrief.tone ProductBrief.audience ProductBrief.language
       ProductBrief.additional_notes ProductBrief.length].
  f_equal;
    match goal with
    | |- _ ?s (_ ?s _) = _ => destruct s as [|[?|]]; reflexivity
    end.
Qed.

Lemma serializable_snapshot (db : dict pykey pydict) (j : json) :
  snapshot_of db = Some j -> serializable db = true.
Proof.
  unfold serializable, snapshot_of. rewrite to_json_list.
  destruct (list_to_json _) as [js|] eqn:E;
    [|cbn [option_map]; discriminate]. intros _.
  revert js E.
  induction (dict_values db) as [|e r IH]; intros js;
    cbn [map forallb list_to_json]; [reflexivity|].
  unfold entry_json at 1.
  destruct (to_json (PDict (save_entry e))) as [x|]; [|discriminate].
  destruct (list_to_json (map PDict (map save_entry r))) as [y|] eqn:Ey;
    [|discriminate].
  intros _. now apply (IH y).
Qed.

(** After [update_product] returned, the file was written and holds the
    snapshot of the map in memory. *)
Lemma update_product_saved (env : environment) (product_id : string)
    (r : ProductUpdateRequest.t) (now : datetime) (w : world)
    (p : ProductResponse.t) :
  fst (update_product env product_id r now w) = Ok p ->
  writable env = true
  /\ exists j,
       snapshot_of (products_db (snd (update_product env product_id r now w)))
       = Some j
       /\ data_file (snd (update_product env product_id r now w)) = Holds j.
Proof.
  intros Hp.
  destruct (update_product_cases env product_id r now w)
    as (w1 & Hsame & [[e He] | (existing & d & Hex & Hd)]).
  - rewrite He in Hp. discriminate.
  - rewrite Hd in *.
    destruct (persist_saved _ _ _ _ _ Hp) as (j & Hfile & Hj).
    split; [|now exists j].
    rewrite persist_result in Hp.
    destruct (writable env); [reflexivity|discriminate].
Qed.

(** The description an update without generation ends with. *)
Lemma update_without_generation (env : environment) (product_id : string)
    (r : ProductUpdateRequest.t) (now : datetime)
    (existing : ProductResponse.t) (w : world) :
  get_product_or_404 product_id w = (Ok existing, w) ->
  no_generation r ->
  update_product env product_id r now w
  = persist env product_id
      (updated_product existing r
         (strip (merge_required (ProductUpdateRequest.description r)
                   (ProductResponse.description existing))) now) w.
Proof.
  intros Hex Hr.
  destruct (ProductUpdateRequest.description r) as [|[d|]] eqn:Hd;
    cbn [merge_required].
  - destruct Hr as [[d' Hd'] | Hflag]; [congruence|].
    apply (update_keeping_description env product_id r now existing w Hex);
      [left; exact Hd|exact Hflag].
  - now apply (update_with_description env product_id r now existing w Hex).
  - destruct Hr as [[d' Hd'] | Hflag]; [congruence|].
    apply (update_keeping_description env product_id r now existing w Hex);
      [right; exact Hd|exact Hflag].
Qed.

Lemma strip_merge_required (s : sent string) (stored : string) :
  strip (merge_required s (strip (merge_required s stored)))
  = strip (merge_required s stored).
Proof.
  destruct s as [|[d|]]; cbn [merge_required];
    try apply strip_idempotent; reflexivity.
Qed.

(** An update without generation is idempotent. When the request
    gives a description or does not ask for regeneration, the same
    request sent again after it returned returns again, and the product
    is the one returned the first time but for its time of update; the
    brief, the id, the description and the time of creation are the
    same. (The timestamps are valid [datetime] values.) *)
Theorem update_idempotent (env : environment) (product_id : string)
    (r : ProductUpdateRequest.t) (first second : datetime) (w : world)
    (existing p : ProductResponse.t) :
  get_product_or_404 product_id w = (Ok existing, w) ->
  valid_datetime (ProductResponse.created_at existing) = true ->
  valid_datetime first = true ->
  no_generation r ->
  fst (update_product env product_id r first w) = Ok p ->
  fst (update_product env product_id r second
         (snd (update_product env product_id r first w)))
  = Ok (touched p second).
Proof.
  intros Hex Hcreated Hfirst Hr Hp.
  destruct (update_product_saved env product_id r first w p Hp)
    as (Hwritable & j & Hj & _).
  pose proof (update_stores env product_id r first existing w Hex p Hp) as Hget.
  pose proof Hp as Hshape.
  rewrite (update_without_generation env product_id r first existing w Hex Hr)
    in Hshape.
  apply persist_returns in Hshape.
  set (w1 := snd (update_product env product_id r first w)) in *.
  assert (Hex1 : get_product_or_404 product_id w1 = (Ok p, w1)).
  { apply get_product_serialized; [exact Hget| |]; subst p;
      [exact Hcreated|exact Hfirst]. }
  rewrite (update_without_generation env product_id r second p w1 Hex1 Hr).
  rewrite persist_succeeds;
    [|exact Hwritable|now apply (serializable_snapshot _ j)].
  f_equal. subst p. unfold touched, updated_product.
  cbn [ProductResponse.brief ProductResponse.id ProductResponse.description
       ProductResponse.created_at].
  now rewrite merged_brief_idempotent, strip_merge_required.
Qed.

Lemma update_idempotent_witness :
  get_product_or_404 "p1" world_lamp = (Ok product_lamp, world_lamp)
  /\ no_generation tone_only
  /\ fst (update_product env_writing "p1" tone_only noon
            (snd (update_product env_writing "p1" tone_only half_past
                    world_lamp)))
     = Ok (touched
             (updated_product product_lamp tone_only "Bright light." half_past)
             noon).
Proof.
  assert (Hex : get_product_or_404 "p1" world_lamp
                = (Ok product_lamp, world_lamp)) by (vm_compute; reflexivity).
  assert (Hr : no_generation tone_only) by (right; reflexivity).
  split; [exact Hex|]. split; [exact Hr|].
  apply (update_idempotent env_writing "p1" tone_only half_past noon
           world_lamp product_lamp _ Hex eq_refl eq_refl Hr).
  vm_compute. reflexivity.
Defined.

(** ** What can be raised *)

Lemma persist_save_error (env : environment) (product_id : string)
    (p : ProductResponse.t) (w : world) (e : exn) :
  fst (persist env product_id p w) = Raise e -> save_error e.
Proof.
  rewrite persist_result. unfold save_error.
  destruct (writable env).
  - destruct (snapshot_of _); [discriminate|]. intros [= <-]. now right.
  - intros [= <-]. now left.
Qed.

Lemma get_product_or_404_raises (product_id : string) (w : world) (e : exn) :
  fst (get_product_or_404 product_id w) = Raise e ->
  e = not_found \/ e = invalid_record.
Proof.
  unfold get_product_or_404, validated, not_found, invalid_record.
  destruct (dict_get key_eqb (KStr product_id) (products_db w))
    as [product|]; [|intros [= <-]; now left].
  destruct (truthy (PDict product)); [|intros [= <-]; now left].
  destruct (ProductResponse.validate product); [discriminate|].
  intros [= <-]. now right.
Qed.

(** The exceptions of the five routes on the product map.
    [create_product] raises only what the generation client raises (an
    [HTTPException] with 401, 429, 500 or 503) or a failure to write the
    snapshot; [update_product] raises these, 404, or the validation
    error of the stored record; [delete_product] raises 404 or a failure
    to write; [get_product] raises 404 or the validation error of the
    stored record; [list_products] raises only a validation error. So
    the merge of [update_product] never fails on its own: no [KeyError],
    no [AttributeError], no validation error of the merged payload. *)
Theorem route_errors (env : environment) (w : world) (e : exn) :
  (forall request now product_id,
     fst (create_product env request now product_id w) = Raise e ->
     generation_error e \/ save_error e)
  /\ (forall product_id r now,
        fst (update_product env product_id r now w) = Raise e ->
        (e = not_found \/ e = invalid_record)
        \/ generation_error e \/ save_error e)
  /\ (forall product_id,
        fst (delete_product env product_id w) = Raise e ->
        e = not_found \/ save_error e)
  /\ (forall product_id,
        fst (get_product product_id w) = Raise e ->
        e = not_found \/ e = invalid_record)
  /\ (fst (list_products w) = Raise e -> e = invalid_record).
Proof.
  split; [|split; [|split; [|split]]].
  - intros request now product_id.
    destruct (needs_generation request) eqn:Hneed.
    + rewrite create_product_generating by exact Hneed.
      destruct (generate_product_description env _ w) as [[d|e'] w1] eqn:Hg.
      * intros H. right. now apply persist_save_error in H.
      * cbn [fst]. intros [= <-]. left.
        apply (generate_raises env (ProductCreateRequest.brief request) w).
        now rewrite Hg.
    + destruct (create_product_explicit env request now product_id w Hneed)
        as (d & _ & _ & ->).
      intros H. right. now apply persist_save_error in H.
  - intros product_id r now.
    pose proof (get_product_or_404_state product_id w) as Hstate.
    destruct (get_product_or_404 product_id w) as [[existing|e'] w'] eqn:Hex;
      cbn [snd] in Hstate; subst w'.
    + rewrite (update_product_reading env product_id r now existing w Hex).
      unfold update_reading, bind, resolved_description.
      destruct (ProductUpdateRequest.description r) as [|[d|]];
        try destruct (regenerate_flag r);
        try (unfold ret; intros H; right; right;
             now apply persist_save_error in H);
        (destruct (generate_product_description env _ w) as [[d'|e''] w1] eqn:Hg;
         [ intros H; right; right; now apply persist_save_error in H
         | cbn [fst]; intros [= <-]; right; left;
           apply (generate_raises env
                    (merged_brief (ProductResponse.brief existing) r) w);
           now rewrite Hg ]).
    + unfold update_product, bind. rewrite Hex. cbn [fst]. intros [= <-].
      left. apply (get_product_or_404_raises product_id w).
      now rewrite Hex.
  - intros product_id. unfold delete_product.
    destruct (dict_mem key_eqb (KStr product_id) (products_db w)).
    + unfold bind, set_products_db. rewrite save_products_result.
      unfold save_error.
      destruct (writable env); [destruct (snapshot_of _)|];
        cbn [fst]; try discriminate; intros [= <-]; right; tauto.
    + intros [= <-]. now left.
  - intros product_id. apply get_product_or_404_raises.
  - unfold list_products, validated.
    destruct (validate_all _); [discriminate|]. now intros [= <-].
Qed.

Lemma route_errors_witness :
  fst (update_product env_rejecting "p1" regenerating noon world_lamp)
  = Raise (HTTPException 401 "Invalid Writer API key provided.")
  /\ generation_error (HTTPException 401 "Invalid Writer API key provided.")
  /\ fst (get_product "p2" world_lamp) = Raise not_found.
Proof.
  assert (Hu : fst (update_product env_rejecting "p1" regenerating noon
                      world_lamp)
               = Raise (HTTPException 401 "Invalid Writer API key provided."))
    by (vm_compute; reflexivity).
  split; [exact Hu|]. split; [|vm_compute; reflexivity].
  destruct (route_errors env_rejecting world_lamp
              (HTTPException 401 "Invalid Writer API key provided."))
    as (_ & Hupdate & _).
  destruct (Hupdate "p1" regenerating noon Hu) as [[H | H] | [H | [H | H]]];
    try discriminate H.
  exact H.
Defined.

(** [save_products] converts nothing in a consistent map. The
    entries it writes are the stored records as they are: no record
    holds a [datetime] under [created_at] or [updated_at], since the
    routes file ISO text and [load_products] reads text. *)
Theorem save_converts_nothing (db : dict pykey pydict) :
  consistent db -> map save_entry (dict_values db) = dict_values db.
Proof.
  intros [_ Hr]. unfold dict_values.
  induction Hr as [|[k e] r Hx Hr IH]; cbn [map snd]; [reflexivity|].
  destruct Hx as ((j & Hj) & _). cbn [snd] in Hj.
  now rewrite (save_entry_json e j Hj), IH.
Qed.

Lemma save_converts_nothing_witness :
  consistent (products_db world_lamp)
  /\ map save_entry (dict_values (products_db world_lamp))
     = dict_values (products_db world_lamp).
Proof.
  split; [exact world_lamp_consistent|].
  apply (save_converts_nothing _ world_lamp_consistent).
Defined.

(** ** What the prompt reads *)

Lemma profile_effective (l : option string) :
  match dict_get String.eqb (or_default l "detailed") length_profiles with
  | Some p => p
  | None => detailed_profile
  end
  = match dict_get String.eqb (effective_length l) length_profiles with
    | Some p => p
    | None => detailed_profile
    end.
Proof.
  unfold effective_length, or_default.
  destruct l as [l|]; [|reflexivity].
  destruct l as [|c l]; [reflexivity|].
  cbn [nonempty length_profiles dict_get].
  destruct (String.eqb (String c l) "short"); [reflexivity|].
  destruct (String.eqb (String c l) "standard"); [reflexivity|].
  destruct (String.eqb (String c l) "detailed"); reflexivity.
Qed.

Lemma substring_refl (x : string) : substring x x.
Proof.
  exists "", "". cbn [append].
  induction x as [|c x IH]; [reflexivity|]. cbn [append]. now f_equal.
Qed.

Lemma append_assoc (a b c : string) : (a ++ b) ++ c = a ++ b ++ c.
Proof.
  induction a as [|x a IH]; cbn [append]; [reflexivity|]. now rewrite IH.
Qed.

Lemma substring_right (p x s : string) :
  substring x s -> substring x (p ++ s).
Proof.
  intros (a & b & ->). exists (p ++ a), b. now rewrite append_assoc.
Qed.

Lemma substring_left (q x s : string) :
  substring x s -> substring x (s ++ q).
Proof.
  intros (a & b & ->). exists a, (b ++ q). now rewrite !append_assoc.
Qed.

Lemma substring_start (x y z rest : string) :
  substring (x ++ y ++ z) (x ++ y ++ z ++ rest).
Proof.
  exists "", rest. cbn [append]. now rewrite !append_assoc.
Qed.

Lemma substring_join (sep x : string) (parts : list string) :
  In x parts -> substring x (join sep parts).
Proof.
  unfold join.
  induction parts as [|y r IH]; cbn [In]; [tauto|].
  intros [-> | Hin].
  - destruct r as [|z r]; cbn [concat]; [apply substring_refl|].
    apply substring_left, substring_refl.
  - destruct r as [|z r]; [destruct Hin|].
    change (concat sep (y :: z :: r)) with (y ++ sep ++ concat sep (z :: r)).
    now apply substring_right, substring_right, IH.
Qed.

(** The prompt depends on a brief only through what it reads. Two
    briefs with the same name, features and keywords, the same text of
    each optional field once its default is filled in, and the same
    length profile give the same prompt and the same token budget; so a
    field that is missing, null or empty reads as its default written
    out, and an unknown length reads as [detailed]. *)
Theorem prompt_reads_defaults (a b : ProductBrief.t) :
  read_alike a b -> build_generation_prompt a = build_generation_prompt b.
Proof.
  destruct a as [n1 c1 b1 t1 f1 k1 to1 a1 l1 an1 len1].
  destruct b as [n2 c2 b2 t2 f2 k2 to2 a2 l2 an2 len2].
  unfold read_alike.
  cbn [ProductBrief.name ProductBrief.category ProductBrief.brand
       ProductBrief.tagline ProductBrief.features ProductBrief.seo_keywords
       ProductBrief.tone ProductBrief.audience ProductBrief.language
       ProductBrief.additional_notes ProductBrief.length].
  intros (-> & -> & -> & Hc & Hb & Ht & Ha & Hto & Hl & Han & Hlen).
  unfold build_generation_prompt. cbv zeta.
  cbn [ProductBrief.name ProductBrief.category ProductBrief.brand
       ProductBrief.tagline ProductBrief.features ProductBrief.seo_keywords
       ProductBrief.tone ProductBrief.audience ProductBrief.language
       ProductBrief.additional_notes ProductBrief.length].
  rewrite !profile_effective, Hc, Hb, Ht, Ha, Hto, Hl, Han, Hlen.
  reflexivity.
Qed.

Lemma prompt_reads_defaults_witness :
  read_alike brief_sparse brief_spelled
  /\ build_generation_prompt brief_sparse
     = build_generation_prompt brief_spelled.
Proof.
  assert (H : read_alike brief_sparse brief_spelled)
    by (repeat split; reflexivity).
  split; [exact H|]. exact (prompt_reads_defaults _ _ H).
Defined.

(** Nothing of the brief's own text is dropped from the prompt. The
    name, every feature as a line starting with a dash, and every
    keyword occur in the prompt. *)
Theorem prompt_mentions_brief (b : ProductBrief.t) :
  let prompt := fst (build_generation_prompt b) in
  substring ("Product name: " ++ ProductBrief.name b ++ nl) prompt
  /\ (forall feature,
        In feature (ProductBrief.features b) ->
        substring ("- " ++ feature) prompt)
  /\ (forall keyword,
        In keyword (ProductBrief.seo_keywords b) -> substring keyword prompt).
Proof.
  cbv zeta. unfold build_generation_prompt. cbv zeta. cbn [fst].
  split; [|split].
  - do 3 apply substring_right. apply substring_start.
  - intros feature Hin.
    do 27 apply substring_right. apply substring_left.
    destruct (ProductBrief.features b) as [|f fs] eqn:E; [destruct Hin|].
    apply substring_join. apply in_map_iff. now exists feature.
  - intros keyword Hin.
    do 30 apply substring_right. apply substring_left.
    destruct (ProductBrief.seo_keywords b) as [|k ks] eqn:E; [destruct Hin|].
    now apply substring_join.
Qed.

Lemma prompt_mentions_brief_witness :
  In "Dimmable" (ProductBrief.features brief_sparse)
  /\ substring "- Dimmable" (fst (build_generation_prompt brief_sparse))
  /\ In "led" (ProductBrief.seo_keywords brief_sparse)
  /\ substring "led" (fst (build_generation_prompt brief_sparse)).
Proof.
  destruct (prompt_mentions_brief brief_sparse) as (_ & Hf & Hk).
  split; [now left|]. split; [apply (Hf "Dimmable"); now left|].
  split; [right; now left|]. apply (Hk "led"). right. now left.
Defined.

(** ** The allowed origins *)

Lemma split_not_empty (sep : ascii) (s : string) : split sep s <> [].
Proof.
  destruct s as [|c r]; cbn [split]; [discriminate|].
  destruct (Ascii.eqb c sep); [discriminate|].
  destruct (split sep r); discriminate.
Qed.

Lemma join_split (sep : ascii) (s : string) :
  join (String sep "") (split sep s) = s.
Proof.
  unfold join. induction s as [|c r IH]; cbn [split]; [reflexivity|].
  destruct (Ascii.eqb_spec c sep) as [-> | Hc].
  - destruct (split sep r) as [|part parts] eqn:E;
      [now apply split_not_empty in E|].
    change (concat (String sep "") ("" :: part :: parts))
      with (String sep (concat (String sep "") (part :: parts))).
    now rewrite IH.
  - destruct (split sep r) as [|part parts] eqn:E;
      [now apply split_not_empty in E|].
    destruct parts as [|q parts]; cbn [concat append] in *; now rewrite IH.
Qed.

Lemma split_parts (sep : ascii) (s : string) :
  Forall (fun part => ~ substring (String sep "") part) (split sep s).
Proof.
  unfold substring.
  induction s as [|c r IH]; cbn [split].
  - constructor; [|constructor]. intros ([|x a] & b & H); discriminate.
  - destruct (Ascii.eqb_spec c sep) as [-> | Hc].
    + constructor; [|exact IH]. intros ([|x a] & b & H); discriminate.
    + destruct (split sep r) as [|part parts] eqn:E;
        [now apply split_not_empty in E|].
      inversion IH as [|? ? Hpart Hparts]; subst.
      constructor; [|exact Hparts].
      intros ([|x a] & b & H); cbn [append] in H.
      * injection H as H _. now apply Hc.
      * injection H as _ H. apply Hpart. now exists a, b.
Qed.

(** The allowed origins are the setting cut at its commas, when
    [CORS_ORIGINS] is set: the list is never empty (an empty setting
    gives one empty origin), no origin holds a comma, and the origins
    joined by commas are the setting again. *)
Theorem cors_origins_parts (setting : string) :
  cors_origins (Some setting) <> []
  /\ Forall (fun origin => ~ substring "," origin) (cors_origins (Some setting))
  /\ join "," (cors_origins (Some setting)) = setting
  /\ (setting = "" -> cors_origins (Some setting) = [""]).
Proof.
  unfold cors_origins. split; [apply split_not_empty|].
  split; [apply split_parts|]. split; [apply join_split|].
  intros ->. reflexivity.
Qed.

Lemma cors_origins_parts_witness :
  cors_origins (Some "") = [""]
  /\ cors_origins (Some "https://a.example,https://b.example")
     = ["https://a.example"; "https://b.example"].
Proof.
  split; [|reflexivity].
  now apply (proj2 (proj2 (proj2 (cors_origins_parts "")))).
Defined.
